(** * UCMS: course-management back end and pages

    A shallow embedding of the serverless handlers (course, enrollment,
    submission, grading, assignment and analytics services) and of the
    derived-metrics code of the lecturer and student pages, together with
    the properties stated about them.

    Conventions of the embedding.
    - A JavaScript number is kept as the rational it denotes, extended
      with [NaN] and the two infinities ([Js.Number]).  [Js] holds the
      operations without rounding, which serves where a property is about
      counts, order or bounds.  [Binary64] rounds every result to the
      nearest IEEE double, as the engine does, and the reports whose
      figures depend on the rounding ([getCourseAnalytics],
      [progressData]) are embedded over it in [DoubleAnalytics] and
      [DoubleProgress].  The sign of zero is not represented: [-0] is [0].
    - A key of a request body may be missing ([Request.Field]); an absent
      key is left out of the write it would feed.
    - A table of the data store is the list of its rows, in insertion
      order.  A read returns the matching rows; a write may be rejected by
      the data layer (constraint or row-level policy), which is the
      [policy] field of the client handle.
    - A handler is a state transformer over [World]: the store, the
      notifications sent and the journal of writes issued. *)

From Stdlib Require Import ZArith QArith Qround Qpower List Ascii String Bool.
From Stdlib Require Import Lia.
From stdpp Require Import base gmap strings pretty.
Import ListNotations.

Local Open Scope string_scope.

(** ** JavaScript values *)

Module Js.

Local Open Scope Q_scope.

Inductive Number : Type :=
  | Num (q : Q)
  | NaN
  | PosInf
  | NegInf.

Definition of_Z (z : Z) : Number := Num (inject_Z z).

(** [xs.length] *)
Definition len {A : Type} (xs : list A) : Number := of_Z (Z.of_nat (length xs)).

Definition sgn (q : Q) : comparison := (Qnum q ?= 0)%Z.

Definition inf_of (c : comparison) : Number :=
  match c with
  | Gt => PosInf
  | Lt => NegInf
  | Eq => NaN
  end.

Definition sgn_of (n : Number) : comparison :=
  match n with
  | Num q => sgn q
  | PosInf => Gt
  | NegInf => Lt
  | NaN => Eq
  end.

Definition sgn_mul (a b : comparison) : comparison :=
  match a, b with
  | Eq, _ | _, Eq => Eq
  | Gt, c | c, Gt => c
  | Lt, Lt => Gt
  end.

(** [a + b] *)
Definition add (a b : Number) : Number :=
  match a, b with
  | NaN, _ | _, NaN => NaN
  | Num x, Num y => Num (Qred (x + y))
  | PosInf, NegInf | NegInf, PosInf => NaN
  | PosInf, _ | _, PosInf => PosInf
  | NegInf, _ | _, NegInf => NegInf
  end.

(** [a * b] *)
Definition mul (a b : Number) : Number :=
  match a, b with
  | NaN, _ | _, NaN => NaN
  | Num x, Num y => Num (Qred (x * y))
  | _, _ => inf_of (sgn_mul (sgn_of a) (sgn_of b))
  end.

(** [a / b]; a finite number over zero is an infinity, [0 / 0] is [NaN]. *)
Definition div (a b : Number) : Number :=
  match a, b with
  | NaN, _ | _, NaN => NaN
  | Num x, Num y =>
      match sgn y with
      | Eq => inf_of (sgn x)
      | _ => Num (Qred (x / y))
      end
  | Num _, _ => Num 0
  | _, Num y =>
      match sgn y with
      | Lt => inf_of (sgn_mul (sgn_of a) Lt)
      | _ => a
      end
  | _, _ => NaN
  end.

(** [Math.round]: the nearest integer, halves towards plus infinity. *)
Definition Math_round (a : Number) : Number :=
  match a with
  | Num x => of_Z (Qfloor (x + (1 # 2)))
  | _ => a
  end.

(** [a < b] and [a > b]; any comparison with [NaN] is false. *)
Definition lt (a b : Number) : bool :=
  match a, b with
  | NaN, _ | _, NaN => false
  | Num x, Num y => negb (Qle_bool y x)
  | NegInf, NegInf => false
  | NegInf, _ => true
  | _, PosInf => match a with PosInf => false | _ => true end
  | _, _ => false
  end.

Definition gt (a b : Number) : bool := lt b a.

(** [isNaN(a)] *)
Definition isNaN (a : Number) : bool :=
  match a with
  | NaN => true
  | _ => false
  end.

(** The values a JSON request field can take, with [Undefined] for an
    absent key. *)
Inductive Value : Type :=
  | Undefined
  | Null
  | Boolean (b : bool)
  | Numeric (n : Number)
  | Text (s : string).

(** ToBoolean *)
Definition truthy (v : Value) : bool :=
  match v with
  | Undefined | Null => false
  | Boolean b => b
  | Numeric (Num q) => negb (Qeq_bool q 0)
  | Numeric NaN => false
  | Numeric _ => true
  | Text s => negb (String.eqb s EmptyString)
  end.

(** [a || b] *)
Definition or (a b : Value) : Value := if truthy a then a else b.

(** [xs?.length || d] for a possibly null array. *)
Definition length_or {A : Type} (xs : option (list A)) (d : Number) : Number :=
  match or (match xs with
            | Some l => Numeric (len l)
            | None => Undefined
            end) (Numeric d) with
  | Numeric n => n
  | _ => d
  end.

End Js.

(** ** Rows of the data store *)

Definition Id := string.
Definition Timestamp := string.
Definition ErrorMsg := string.

Module Course.
Record t : Type := {
  id : Id;
  title : string;
  created_by : Id
}.
End Course.

Module UserRole.
Record t : Type := {
  user_id : Id;
  role : string
}.
End UserRole.

Module Enrollment.
Record t : Type := {
  id : Id;
  student_id : Id;
  course_id : Id;
  status : string;
  enrolled_at : Timestamp
}.
End Enrollment.

Module Assignment.
Record t : Type := {
  id : Id;
  title : string;
  description : option string;
  course_id : Id;
  due_date : Timestamp;
  max_grade : Js.Value;
  created_by : Id
}.
End Assignment.

Module Submission.

Record t : Type := {
  id : Id;
  assignment_id : Id;
  student_id : Id;
  content : string;
  file_url : option string;
  grade : option Q;
  feedback : option string;
  graded_by : option Id;
  graded_at : option Timestamp;
  submitted_at : Timestamp
}.

(** The columns an [update] may set; [None] leaves the column as it is. *)
Record Patch : Type := {
  set_assignment_id : option Id;
  set_student_id : option Id;
  set_content : option string;
  set_file_url : option (option string);
  set_grade : option (option Q);
  set_feedback : option (option string);
  set_graded_by : option (option Id);
  set_graded_at : option (option Timestamp);
  set_submitted_at : option Timestamp
}.

Definition apply (p : Patch) (s : t) : t :=
  {| id := id s;
     assignment_id := default (assignment_id s) (set_assignment_id p);
     student_id := default (student_id s) (set_student_id p);
     content := default (content s) (set_content p);
     file_url := default (file_url s) (set_file_url p);
     grade := default (grade s) (set_grade p);
     feedback := default (feedback s) (set_feedback p);
     graded_by := default (graded_by s) (set_graded_by p);
     graded_at := default (graded_at s) (set_graded_at p);
     submitted_at := default (submitted_at s) (set_submitted_at p) |}.

End Submission.

Module Notification.
Record t : Type := {
  user_id : Id;
  type : string;
  title : string;
  message : string
}.
End Notification.

Module Store.

Record t : Type := {
  courses : list Course.t;
  user_roles : list UserRole.t;
  enrollments : list Enrollment.t;
  assignments : list Assignment.t;
  submissions : list Submission.t
}.

Definition with_enrollments (l : list Enrollment.t) (s : t) : t :=
  {| courses := courses s; user_roles := user_roles s; enrollments := l;
     assignments := assignments s; submissions := submissions s |}.

Definition with_assignments (l : list Assignment.t) (s : t) : t :=
  {| courses := courses s; user_roles := user_roles s;
     enrollments := enrollments s; assignments := l;
     submissions := submissions s |}.

Definition with_submissions (l : list Submission.t) (s : t) : t :=
  {| courses := courses s; user_roles := user_roles s;
     enrollments := enrollments s; assignments := assignments s;
     submissions := l |}.

End Store.

(** ** The data layer and the handler monad *)

(** The object handed to [insert] on the assignments table. *)
Record AssignmentInsert : Type := {
  ins_title : string;
  ins_description : option string;
  ins_course_id : Id;
  ins_due_date : Timestamp;
  ins_max_grade : Js.Value;
  ins_created_by : Id
}.

Inductive Write : Type :=
  | InsertEnrollment (student course : Id) (status : string)
  | InsertSubmission (assignment student : Id) (text : string)
      (file : option string)
  | InsertAssignment (row : AssignmentInsert)
  | UpdateSubmission (id : Id) (patch : Submission.Patch).

(** The client handle every handler receives: what the data layer decides
    on its own. [policy] answers a write with the error it raises, if any;
    [fresh_id] and [db_now] are the column defaults; [now] is the
    handler's clock. *)
Record Supabase : Type := {
  policy : Write -> Store.t -> option ErrorMsg;
  fresh_id : Store.t -> Id;
  db_now : Timestamp;
  now : Timestamp
}.

Record World : Type := {
  db : Store.t;
  outbox : list Notification.t;
  journal : list Write
}.

Inductive Outcome (A : Type) : Type :=
  | Return (a : A)
  | Throw (e : ErrorMsg).
Arguments Return {A} a.
Arguments Throw {A} e.

Definition M (A : Type) : Type := World -> Outcome A * World.

Definition ret {A : Type} (a : A) : M A := fun w => (Return a, w).

Definition throw {A : Type} (e : ErrorMsg) : M A := fun w => (Throw e, w).

Definition bind {A B : Type} (c : M A) (k : A -> M B) : M B :=
  fun w =>
    match c w with
    | (Return a, w') => k a w'
    | (Throw e, w') => (Throw e, w')
    end.

#[global] Instance M_ret : MRet M := @ret.
#[global] Instance M_bind : MBind M := fun A B k c => bind c k.

(** [{ data, error }] *)
Module Query.

Record Result (A : Type) : Type := {
  data : option A;
  error : option ErrorMsg
}.
Arguments data {A} r.
Arguments error {A} r.

Definition ok {A : Type} (a : A) : Result A :=
  {| data := Some a; error := None |}.

Definition failed {A : Type} (e : ErrorMsg) : Result A :=
  {| data := None; error := Some e |}.

Definition not_single : ErrorMsg :=
  "JSON object requested, multiple (or no) rows returned".

(** [.single()]: the row when exactly one came back, an error otherwise. *)
Definition single {A : Type} (rows : list A) : Result A :=
  match rows with
  | [r] => ok r
  | _ => failed not_single
  end.

End Query.

(** [.from(table).select(..).eq(..)]: the rows that pass the filters. *)
Definition select {A : Type} (table : Store.t -> list A) (p : A -> bool)
  : M (Query.Result (list A)) :=
  fun w => (Return (Query.ok (List.filter p (table (db w)))), w).

(** [.from(table).select(..).eq(..).single()] *)
Definition select_single {A : Type} (table : Store.t -> list A)
    (p : A -> bool) : M (Query.Result A) :=
  fun w => (Return (Query.single (List.filter p (table (db w)))), w).

Definition log (wr : Write) (w : World) : World :=
  {| db := db w; outbox := outbox w; journal := journal w ++ [wr] |}.

Definition with_db (s : Store.t) (w : World) : World :=
  {| db := s; outbox := outbox w; journal := journal w |}.

(** A write: journalled, then refused by the data layer or applied. *)
Definition write {A : Type} (supabase : Supabase) (wr : Write)
    (apply : Store.t -> Query.Result A * Store.t) : M (Query.Result A) :=
  fun w =>
    let w1 := log wr w in
    match policy supabase wr (db w) with
    | Some e => (Return (Query.failed e), w1)
    | None =>
        let '(r, s) := apply (db w) in
        (Return r, with_db s w1)
    end.

(** [.from('enrollments').insert({..}).select().single()] *)
Definition insert_enrollment (supabase : Supabase)
    (student course : Id) (status : string) : M (Query.Result Enrollment.t) :=
  write supabase (InsertEnrollment student course status)
    (fun s =>
       let row := {| Enrollment.id := fresh_id supabase s;
                     Enrollment.student_id := student;
                     Enrollment.course_id := course;
                     Enrollment.status := status;
                     Enrollment.enrolled_at := db_now supabase |} in
       (Query.ok row,
        Store.with_enrollments (Store.enrollments s ++ [row]) s)).

(** [.from('submissions').insert({..}).select().single()] *)
Definition insert_submission (supabase : Supabase)
    (assignment student : Id) (text : string) (file : option string)
  : M (Query.Result Submission.t) :=
  write supabase (InsertSubmission assignment student text file)
    (fun s =>
       let row := {| Submission.id := fresh_id supabase s;
                     Submission.assignment_id := assignment;
                     Submission.student_id := student;
                     Submission.content := text;
                     Submission.file_url := file;
                     Submission.grade := None;
                     Submission.feedback := None;
                     Submission.graded_by := None;
                     Submission.graded_at := None;
                     Submission.submitted_at := db_now supabase |} in
       (Query.ok row,
        Store.with_submissions (Store.submissions s ++ [row]) s)).

(** [.from('assignments').insert({..}).select().single()] *)
Definition insert_assignment (supabase : Supabase) (row : AssignmentInsert)
  : M (Query.Result Assignment.t) :=
  write supabase (InsertAssignment row)
    (fun s =>
       let a := {| Assignment.id := fresh_id supabase s;
                   Assignment.title := ins_title row;
                   Assignment.description := ins_description row;
                   Assignment.course_id := ins_course_id row;
                   Assignment.due_date := ins_due_date row;
                   Assignment.max_grade := ins_max_grade row;
                   Assignment.created_by := ins_created_by row |} in
       (Query.ok a, Store.with_assignments (Store.assignments s ++ [a]) s)).

Definition has_id (id : Id) (r : Submission.t) : bool :=
  String.eqb (Submission.id r) id.

(** [.from('submissions').update(patch).eq('id', id).select().single()]:
    the row with that id is rewritten; when the id does not name exactly
    one row the singular response fails and nothing is changed. *)
Definition update_submission (supabase : Supabase) (id : Id)
    (patch : Submission.Patch) : M (Query.Result Submission.t) :=
  write supabase (UpdateSubmission id patch)
    (fun s =>
       match List.filter (has_id id) (Store.submissions s) with
       | [r] =>
           (Query.ok (Submission.apply patch r),
            Store.with_submissions
              (map (fun r => if has_id id r then Submission.apply patch r
                             else r)
                 (Store.submissions s)) s)
       | _ => (Query.failed Query.not_single, s)
       end).

(** [.from('submissions').update(patch).eq('id', id)]: every row with that
    id is rewritten and no row is asked back. *)
Definition update_submissions (supabase : Supabase) (id : Id)
    (patch : Submission.Patch) : M (Query.Result unit) :=
  write supabase (UpdateSubmission id patch)
    (fun s =>
       (Query.ok tt,
        Store.with_submissions
          (map (fun r => if has_id id r then Submission.apply patch r else r)
             (Store.submissions s)) s)).

(** [supabase.functions.invoke('send-notification', { body })] *)
Definition send_notification (n : Notification.t) : M unit :=
  fun w =>
    (Return tt,
     {| db := db w; outbox := outbox w ++ [n]; journal := journal w |}).

(** [if (error) throw error] *)
Definition throw_on_error {A : Type} (r : Query.Result A) : M unit :=
  match Query.error r with
  | Some e => throw e
  | None => mret tt
  end.

(** The message of the TypeError raised by reading [field] of [null]. *)
Definition null_reading (field : string) : ErrorMsg :=
  "Cannot read properties of null (reading '" +:+ field +:+ "')".

(** Reading the id of a null row. *)
Definition null_deref : ErrorMsg := null_reading "id".

(** The row of a write that reported no error; the handlers read its id
    first, for the log line, which raises on a null row. *)
Definition row_of {A : Type} (r : Query.Result A) : M A :=
  match Query.data r with
  | Some a => mret a
  | None => throw null_deref
  end.

(** The response of a handler: the status and the JSON envelope. *)
Inductive Body (A : Type) : Type :=
  | Success (payload : A)
  | Failure (msg : string).
Arguments Success {A} payload.
Arguments Failure {A} msg.

Record Response (A : Type) : Type := {
  status : Z;
  body : Body A
}.
Arguments status {A} r.
Arguments body {A} r.

Definition respond {A : Type} (code : Z) (b : Body A) : Response A :=
  {| status := code; body := b |}.

(** The [try]/[catch] of [serve]: a thrown error becomes a 500 response
    carrying its message. *)
Definition serve {A : Type} (handler : M (Response A))
  : World -> Response A * World :=
  fun w =>
    match handler w with
    | (Return r, w') => (r, w')
    | (Throw e, w') => (respond 500 (Failure e), w')
    end.

(** What the JavaScript host provides: the conversion of a number to text
    in a template literal, and [parseInt]. *)
Record Runtime : Type := {
  number_to_string : Js.Number -> string;
  parseInt : string -> Js.Number
}.

Definition dquote : string := String (Ascii.ascii_of_nat 34) EmptyString.

(** [s || d] on a string that may be null. *)
Definition string_or (s : option string) (d : string) : string :=
  match s with
  | Some t => if String.eqb t EmptyString then d else t
  | None => d
  end.

(** ** analytics-service *)

Module AnalyticsService.

Record CourseAnalytics : Type := {
  total_students : Js.Number;
  total_assignments : Js.Number;
  total_submissions : Js.Number;
  graded_submissions : Js.Number;
  average_grade : Js.Number;
  completion_rate : Js.Number
}.

(** [s.grade !== null] *)
Definition graded (s : Submission.t) : bool :=
  match Submission.grade s with
  | Some _ => true
  | None => false
  end.

(** [s.grade] as an operand of [+]; [null] adds as zero. *)
Definition grade_operand (s : Submission.t) : Js.Number :=
  match Submission.grade s with
  | Some g => Js.Num g
  | None => Js.of_Z 0
  end.

(** The computation of [getCourseAnalytics] on the three fetched arrays,
    each of which may be null, with the operations of [Js], which do not
    round; [DoubleAnalytics] has it with the operations of the engine. *)
Definition course_analytics
    (enrollments : option (list Enrollment.t))
    (assignments : option (list Assignment.t))
    (submissions : option (list Submission.t)) : CourseAnalytics :=
  let gradedSubmissions :=
    match submissions with
    | Some l => List.filter graded l
    | None => []
    end in
  let averageGrade :=
    if Js.gt (Js.len gradedSubmissions) (Js.of_Z 0)
    then Js.div
           (fold_left (fun sum s => Js.add sum (grade_operand s))
              gradedSubmissions (Js.of_Z 0))
           (Js.len gradedSubmissions)
    else Js.of_Z 0 in
  {| total_students := Js.length_or enrollments (Js.of_Z 0);
     total_assignments := Js.length_or assignments (Js.of_Z 0);
     total_submissions := Js.length_or submissions (Js.of_Z 0);
     graded_submissions := Js.len gradedSubmissions;
     average_grade :=
       Js.div (Js.Math_round (Js.mul averageGrade (Js.of_Z 100)))
         (Js.of_Z 100);
     completion_rate :=
       match assignments with
       | Some l =>
           if Js.gt (Js.len l) (Js.of_Z 0)
           then Js.Math_round
                  (Js.mul
                     (Js.div
                        (Js.div (Js.len gradedSubmissions)
                           (Js.length_or enrollments (Js.of_Z 1)))
                        (Js.len l))
                     (Js.of_Z 100))
           else Js.of_Z 0
       | None => Js.of_Z 0
       end |}.

Definition of_course (courseId : Id) (e : Enrollment.t) : bool :=
  String.eqb (Enrollment.course_id e) courseId.

Definition for_course (courseId : Id) (a : Assignment.t) : bool :=
  String.eqb (Assignment.course_id a) courseId.

(** The inner join of a submission with its assignment, kept when the
    assignment is one of the course. *)
Definition in_course (courseId : Id) (s : Store.t) (sub : Submission.t)
  : bool :=
  existsb
    (fun a =>
       String.eqb (Assignment.id a) (Submission.assignment_id sub)
       && for_course courseId a)
    (Store.assignments s).

(** [.from('submissions').select('*, assignments!inner(course_id)')
     .eq('assignments.course_id', courseId)] *)
Definition select_course_submissions (courseId : Id)
  : M (Query.Result (list Submission.t)) :=
  fun w =>
    (Return
       (Query.ok
          (List.filter (in_course courseId (db w)) (Store.submissions (db w)))),
     w).

Definition getCourseAnalytics (supabase : Supabase) (courseId : Id)
  : M (Response CourseAnalytics) :=
  enrollments ← select Store.enrollments (of_course courseId);
  throw_on_error enrollments;;
  assignments ← select Store.assignments (for_course courseId);
  throw_on_error assignments;;
  submissions ← select_course_submissions courseId;
  throw_on_error submissions;;
  mret (respond 200
          (Success
             (course_analytics (Query.data enrollments)
                (Query.data assignments) (Query.data submissions)))).

Record SystemMetrics : Type := {
  total_courses : Js.Number;
  metrics_total_students : Js.Number;
  total_lecturers : Js.Number;
  metrics_total_assignments : Js.Number;
  metrics_total_submissions : Js.Number;
  total_enrollments : Js.Number
}.

Definition has_role (name : string) (r : UserRole.t) : bool :=
  String.eqb (UserRole.role r) name.

Definition getSystemMetrics (supabase : Supabase)
  : M (Response SystemMetrics) :=
  courses ← select Store.courses (fun _ => true);
  students ← select Store.user_roles (has_role "student");
  lecturers ← select Store.user_roles (has_role "lecturer");
  assignments ← select Store.assignments (fun _ => true);
  submissions ← select Store.submissions (fun _ => true);
  enrollments ← select Store.enrollments (fun _ => true);
  mret (respond 200
          (Success
             {| total_courses :=
                  Js.length_or (Query.data courses) (Js.of_Z 0);
                metrics_total_students :=
                  Js.length_or (Query.data students) (Js.of_Z 0);
                total_lecturers :=
                  Js.length_or (Query.data lecturers) (Js.of_Z 0);
                metrics_total_assignments :=
                  Js.length_or (Query.data assignments) (Js.of_Z 0);
                metrics_total_submissions :=
                  Js.length_or (Query.data submissions) (Js.of_Z 0);
                total_enrollments :=
                  Js.length_or (Query.data enrollments) (Js.of_Z 0) |})).

End AnalyticsService.

(** ** enrollment-service *)

Module EnrollmentService.

Record EnrollData : Type := {
  student_id : Id;
  course_id : Id
}.

Definition same_pair (data : EnrollData) (e : Enrollment.t) : bool :=
  String.eqb (Enrollment.student_id e) (student_id data)
  && String.eqb (Enrollment.course_id e) (course_id data).

Definition duplicate : string := "Student already enrolled in this course".

Definition enrolled_notice (data : EnrollData) (course : option Course.t)
  : Notification.t :=
  {| Notification.user_id := student_id data;
     Notification.type := "enrollment";
     Notification.title := "Enrollment Successful";
     Notification.message :=
       "You have been enrolled in " +:+ dquote
       +:+ string_or (Course.title <$> course) "the course"
       +:+ dquote +:+ "." |}.

Definition enrollStudent (supabase : Supabase) (data : EnrollData)
  : M (Response Enrollment.t) :=
  existing ← select_single Store.enrollments (same_pair data);
  match Query.data existing with
  | Some _ => mret (respond 400 (Failure duplicate))
  | None =>
      r ← insert_enrollment supabase (student_id data) (course_id data)
             "active";
      throw_on_error r;;
      enrollment ← row_of r;
      course ← select_single Store.courses
                  (fun c => String.eqb (Course.id c) (course_id data));
      send_notification (enrolled_notice data (Query.data course));;
      mret (respond 200 (Success enrollment))
  end.

End EnrollmentService.

(** ** submission-service *)

Module SubmissionService.

Record CreateData : Type := {
  assignment_id : Id;
  student_id : Id;
  content : string;
  file_url : option string
}.

Definition same_pair (data : CreateData) (s : Submission.t) : bool :=
  String.eqb (Submission.student_id s) (student_id data)
  && String.eqb (Submission.assignment_id s) (assignment_id data).

Definition duplicate : string := "Assignment already submitted".

(** The [courses(created_by)] embedded in an assignment row. *)
Definition course_of (s : Store.t) (a : Assignment.t) : option Course.t :=
  List.find (fun c => String.eqb (Course.id c) (Assignment.course_id a))
    (Store.courses s).

(** [.from('assignments').select('title, course_id, courses(created_by)')
     .eq('id', id).single()] *)
Definition select_assignment_with_course (id : Id)
  : M (Query.Result (Assignment.t * option Course.t)) :=
  fun w =>
    (Return
       (Query.single
          (map (fun a => (a, course_of (db w) a))
             (List.filter (fun a => String.eqb (Assignment.id a) id)
                (Store.assignments (db w))))),
     w).

(** [assignment?.courses?.created_by], when truthy. *)
Definition lecturer_of (r : Query.Result (Assignment.t * option Course.t))
  : option (Assignment.t * Id) :=
  match Query.data r with
  | Some (a, Some c) =>
      if String.eqb (Course.created_by c) EmptyString then None
      else Some (a, Course.created_by c)
  | _ => None
  end.

Definition submitted_notice (a : Assignment.t) (lecturer : Id)
  : Notification.t :=
  {| Notification.user_id := lecturer;
     Notification.type := "submission";
     Notification.title := "New Submission";
     Notification.message :=
       "A student has submitted assignment " +:+ dquote
       +:+ Assignment.title a +:+ dquote +:+ "." |}.

Definition createSubmission (supabase : Supabase) (data : CreateData)
  : M (Response Submission.t) :=
  existing ← select_single Store.submissions (same_pair data);
  match Query.data existing with
  | Some _ => mret (respond 400 (Failure duplicate))
  | None =>
      r ← insert_submission supabase (assignment_id data) (student_id data)
             (content data) (file_url data);
      throw_on_error r;;
      submission ← row_of r;
      assignment ← select_assignment_with_course (assignment_id data);
      match lecturer_of assignment with
      | Some (a, lecturer) => send_notification (submitted_notice a lecturer)
      | None => mret tt
      end;;
      mret (respond 200 (Success submission))
  end.

(** [const { id, ...updates } = data] *)
Record UpdateData : Type := {
  id : Id;
  updates : Submission.Patch
}.

Definition updateSubmission (supabase : Supabase) (data : UpdateData)
  : M (Response Submission.t) :=
  r ← update_submission supabase (id data) (updates data);
  throw_on_error r;;
  submission ← row_of r;
  mret (respond 200 (Success submission)).

End SubmissionService.

(** ** grading-service *)

Module GradingService.

(** A request body that carries grade and feedback, each a value or null,
    and graded_by; [GradeRequest] has the bodies that lack a key. *)
Record GradeData : Type := {
  submission_id : Id;
  grade : option Q;
  feedback : option string;
  graded_by : Id
}.

(** The object handed to [update] by [gradeSubmission]. *)
Definition grading_patch (supabase : Supabase) (data : GradeData)
  : Submission.Patch :=
  {| Submission.set_assignment_id := None;
     Submission.set_student_id := None;
     Submission.set_content := None;
     Submission.set_file_url := None;
     Submission.set_grade := Some (grade data);
     Submission.set_feedback := Some (feedback data);
     Submission.set_graded_by := Some (Some (graded_by data));
     Submission.set_graded_at := Some (Some (now supabase));
     Submission.set_submitted_at := None |}.

(** The [assignments(title)] embedded in the row an update returns. *)
Definition joined_assignment (s : Submission.t) : M (option Assignment.t) :=
  fun w =>
    (Return
       (List.find
          (fun a => String.eqb (Assignment.id a) (Submission.assignment_id s))
          (Store.assignments (db w))),
     w).

(** [${submission.grade}] *)
Definition grade_text (js : Runtime) (g : option Q) : string :=
  match g with
  | Some q => number_to_string js (Js.Num q)
  | None => "null"
  end.

Definition graded_notice (js : Runtime) (submission : Submission.t)
    (a : Assignment.t) : Notification.t :=
  {| Notification.user_id := Submission.student_id submission;
     Notification.type := "grade";
     Notification.title := "Assignment Graded";
     Notification.message :=
       "Your submission for " +:+ dquote +:+ Assignment.title a +:+ dquote
       +:+ " has been graded. Grade: "
       +:+ grade_text js (Submission.grade submission) |}.

Definition gradeSubmission (js : Runtime) (supabase : Supabase)
    (data : GradeData) : M (Response (Submission.t * Assignment.t)) :=
  r ← update_submission supabase (submission_id data)
         (grading_patch supabase data);
  throw_on_error r;;
  submission ← row_of r;
  assignments ← joined_assignment submission;
  match assignments with
  | None => throw (null_reading "title")
  | Some a =>
      send_notification (graded_notice js submission a);;
      mret (respond 200 (Success (submission, a)))
  end.

End GradingService.

(** ** assignment-service *)

Module AssignmentService.

Record CreateData : Type := {
  title : string;
  description : option string;
  course_id : Id;
  due_date : Timestamp;
  max_grade : Js.Value;
  created_by : Id
}.

Definition active_in (course : Id) (e : Enrollment.t) : bool :=
  String.eqb (Enrollment.course_id e) course
  && String.eqb (Enrollment.status e) "active".

(** [for (const x of xs) { await f(x) }] *)
Fixpoint for_each {A : Type} (xs : list A) (f : A -> M unit) : M unit :=
  match xs with
  | [] => mret tt
  | x :: rest => f x;; for_each rest f
  end.

(** The object handed to [insert] by [createAssignment]. *)
Definition new_assignment (data : CreateData) : AssignmentInsert :=
  {| ins_title := title data;
     ins_description := description data;
     ins_course_id := course_id data;
     ins_due_date := due_date data;
     ins_max_grade := Js.or (max_grade data) (Js.Numeric (Js.of_Z 100));
     ins_created_by := created_by data |}.

Definition posted_notice (assignment : Assignment.t)
    (enrollment : Enrollment.t) : Notification.t :=
  {| Notification.user_id := Enrollment.student_id enrollment;
     Notification.type := "assignment";
     Notification.title := "New Assignment";
     Notification.message :=
       "New assignment " +:+ dquote +:+ Assignment.title assignment
       +:+ dquote +:+ " has been posted." |}.

Definition createAssignment (supabase : Supabase) (data : CreateData)
  : M (Response Assignment.t) :=
  r ← insert_assignment supabase (new_assignment data);
  throw_on_error r;;
  assignment ← row_of r;
  enrollments ← select Store.enrollments (active_in (course_id data));
  match Query.data enrollments with
  | Some l =>
      if Js.gt (Js.len l) (Js.of_Z 0)
      then
        for_each l
          (fun enrollment =>
             send_notification (posted_notice assignment enrollment))
      else mret tt
  | None => mret tt
  end;;
  mret (respond 200 (Success assignment)).

End AssignmentService.

(** ** The student's submission page *)

Module SubmissionPage.

Record Assignment : Type := {
  assignment_id : Id;
  title : string;
  description : option string;
  due_date : Timestamp;
  max_grade : Q
}.

Record Submission : Type := {
  id : Id;
  submission_content : string;
  grade : option Q;
  feedback : option string;
  submitted_at : Timestamp
}.

(** The component state. *)
Record State : Type := {
  assignment : option Assignment;
  submission : option Submission;
  content : string;
  loading : bool;
  error : option string
}.

Record Form : Type := {
  textarea_value : string;
  textarea_disabled : bool;
  submit_button : option string
}.

Inductive Screen : Type :=
  | Loading
  | Unable (description : string)
  | Page (grade_badge : option (Q * Q)) (lecturer_feedback : option string)
      (form : Form) (submitted_on : option Timestamp).

(** [submission !== null && submission.grade !== null] *)
Definition isGraded (st : State) : bool :=
  match submission st with
  | Some s =>
      match grade s with
      | Some _ => true
      | None => false
      end
  | None => false
  end.

Definition canEdit (st : State) : bool := negb (isGraded st).

Definition render (st : State) : Screen :=
  if loading st then Loading
  else
    match assignment st with
    | Some a =>
        if String.eqb (string_or (error st) EmptyString) EmptyString
        then
          Page
            (match submission st with
             | Some s =>
                 match grade s with
                 | Some g => Some (g, max_grade a)
                 | None => None
                 end
             | None => None
             end)
            (match submission st with
             | Some s =>
                 if isGraded st
                 then
                   match feedback s with
                   | Some f => if String.eqb f EmptyString then None else Some f
                   | None => None
                   end
                 else None
             | None => None
             end)
            {| textarea_value := content st;
               textarea_disabled := negb (canEdit st);
               submit_button :=
                 if canEdit st
                 then Some (match submission st with
                            | Some _ => "Update Submission"
                            | None => "Submit Assignment"
                            end)
                 else None |}
            (submitted_at <$> submission st)
        else Unable (string_or (error st) "Assignment not found")
    | None => Unable (string_or (error st) "Assignment not found")
    end.

End SubmissionPage.

(** ** The lecturer's submissions page *)

Module LecturerSubmissionsPage.

Record Submission : Type := {
  id : Id;
  content : string;
  file_url : option string;
  submitted_at : Timestamp;
  submission_grade : option Q;
  submission_feedback : option string;
  graded_at : option Timestamp;
  student_id : Id
}.

Record Assignment : Type := {
  assignment_id : Id;
  title : string;
  description : option string;
  due_date : Timestamp;
  max_grade : Q;
  course_id : Id
}.

(** The component state read by [handleGrade]. *)
Record State : Type := {
  assignment : option Assignment;
  gradingSubmission : option Submission;
  grade : string;
  feedback : string
}.

(** What the handler does to the page. *)
Inductive Effect : Type :=
  | Toast (title : string) (description : option string) (destructive : bool)
  | Navigate (path : string)
  | SetSubmitting (b : bool)
  | CloseGradingDialog
  | Refetch.

Definition invalid_grade (js : Runtime) (a : Assignment) : Effect :=
  Toast "Invalid Grade"
    (Some ("Grade must be between 0 and "
           +:+ number_to_string js (Js.Num (max_grade a))))
    true.

(** The object handed to [update] by [handleGrade]. *)
Definition grading_patch (supabase : Supabase) (gradeNum : Js.Number)
    (feedback : string) (user : Id) : Submission.Patch :=
  {| Submission.set_assignment_id := None;
     Submission.set_student_id := None;
     Submission.set_content := None;
     Submission.set_file_url := None;
     Submission.set_grade :=
       Some (match gradeNum with
             | Js.Num q => Some q
             | _ => None
             end);
     Submission.set_feedback :=
       Some (if String.eqb feedback EmptyString then None else Some feedback);
     Submission.set_graded_by := Some (Some user);
     Submission.set_graded_at := Some (Some (now supabase));
     Submission.set_submitted_at := None |}.

(** [user] is what [safeGetUser] yields for the session. *)
Definition handleGrade (js : Runtime) (supabase : Supabase)
    (user : option Id) (st : State) : M (list Effect) :=
  match gradingSubmission st, assignment st with
  | Some sub, Some a =>
      let gradeNum := parseInt js (grade st) in
      if Js.isNaN gradeNum
         || Js.lt gradeNum (Js.of_Z 0)
         || Js.gt gradeNum (Js.Num (max_grade a))
      then mret [invalid_grade js a]
      else
        match user with
        | None =>
            mret [SetSubmitting true; Navigate "/auth"; SetSubmitting false]
        | Some u =>
            r ← update_submissions supabase (id sub)
                   (grading_patch supabase gradeNum (feedback st) u);
            match Query.error r with
            | Some e =>
                mret [SetSubmitting true; Toast "Error" (Some e) true;
                      SetSubmitting false]
            | None =>
                mret [SetSubmitting true;
                      Toast "Submission graded successfully!" None false;
                      CloseGradingDialog; Refetch; SetSubmitting false]
            end
        end
  | _, _ => mret []
  end.

End LecturerSubmissionsPage.

(** ** The lecturer's student-progress page *)

Module StudentProgressPage.

Module AssignmentRow.
Record t : Type := {
  id : Id;
  title : string;
  max_grade : Q;
  due_date : Timestamp
}.
End AssignmentRow.

Module SubmissionRow.
Record t : Type := {
  student_id : Id;
  assignment_id : Id;
  grade : option Q
}.
End SubmissionRow.

Module Profile.
Record t : Type := {
  id : Id;
  full_name : option string;
  email : option string
}.
End Profile.

Module Item.
Record t : Type := {
  assignment_id : Id;
  assignment_title : string;
  max_grade : Q;
  due_date : Timestamp;
  submitted : bool;
  grade : option Q
}.
End Item.

Record StudentProgress : Type := {
  student_id : Id;
  student_name : string;
  student_email : string;
  assignments : list Item.t;
  averageGrade : option Js.Number;
  submissionRate : Js.Number
}.

(** [submissionsMap[sub.student_id][sub.assignment_id] = { grade }] for
    every fetched row, in order.  The two levels of plain objects are
    finite maps: that is what they are for ids that name no inherited
    property ([JsObject.own_key] below). *)
Definition record_submission (m : gmap string (gmap string (option Q)))
    (sub : SubmissionRow.t) : gmap string (gmap string (option Q)) :=
  <[SubmissionRow.student_id sub :=
      <[SubmissionRow.assignment_id sub := SubmissionRow.grade sub]>
        (default ∅ (m !! SubmissionRow.student_id sub))]> m.

Definition build_submissionsMap (rows : list SubmissionRow.t)
  : gmap string (gmap string (option Q)) :=
  fold_left record_submission rows ∅.

(** [submissionsMap[studentId]?.[a.id]] *)
Definition submission_of (m : gmap string (gmap string (option Q)))
    (studentId assignmentId : Id) : option (option Q) :=
  m !! studentId ≫= fun row => row !! assignmentId.

Definition mem (x : Id) (xs : list Id) : bool :=
  existsb (String.eqb x) xs.

(** [.in("assignment_id", assignmentIds).in("student_id", studentIds)] *)
Definition fetch_submissions (assignmentIds studentIds : list Id)
    (table : list SubmissionRow.t) : list SubmissionRow.t :=
  List.filter
    (fun r =>
       mem (SubmissionRow.assignment_id r) assignmentIds
       && mem (SubmissionRow.student_id r) studentIds)
    table.

(** [a.grade] as the numerator of a division; [null] counts as zero. *)
Definition grade_operand (a : Item.t) : Js.Number :=
  match Item.grade a with
  | Some g => Js.Num g
  | None => Js.of_Z 0
  end.

Definition is_graded (a : Item.t) : bool :=
  match Item.grade a with
  | Some _ => true
  | None => false
  end.

Definition profile_of (profiles : list Profile.t) (studentId : Id)
  : option Profile.t :=
  List.find (fun p => String.eqb (Profile.id p) studentId) (rev profiles).

(** The body of [studentIds.map(studentId => ..)], with the operations of
    [Js], which do not round; [DoubleProgress] has it with the operations
    of the engine. *)
Definition student_progress (profiles : list Profile.t)
    (assignments : option (list AssignmentRow.t))
    (submissionsMap : gmap string (gmap string (option Q)))
    (studentId : Id) : StudentProgress :=
  let studentAssignments :=
    map (fun a =>
           let submission :=
             submission_of submissionsMap studentId (AssignmentRow.id a) in
           {| Item.assignment_id := AssignmentRow.id a;
              Item.assignment_title := AssignmentRow.title a;
              Item.max_grade := AssignmentRow.max_grade a;
              Item.due_date := AssignmentRow.due_date a;
              Item.submitted :=
                match submission with
                | Some _ => true
                | None => false
                end;
              Item.grade := mjoin submission |})
      (default [] assignments) in
  let submittedCount :=
    Js.len (List.filter Item.submitted studentAssignments) in
  let gradedAssignments := List.filter is_graded studentAssignments in
  let averageGrade :=
    if Js.gt (Js.len gradedAssignments) (Js.of_Z 0)
    then
      let totalPercentage :=
        fold_left
          (fun sum a =>
             Js.add sum
               (Js.mul (Js.div (grade_operand a) (Js.Num (Item.max_grade a)))
                  (Js.of_Z 100)))
          gradedAssignments (Js.of_Z 0) in
      Some (Js.Math_round (Js.div totalPercentage (Js.len gradedAssignments)))
    else None in
  {| student_id := studentId;
     student_name :=
       string_or (profile_of profiles studentId ≫= Profile.full_name)
         "Unknown Student";
     student_email :=
       string_or (profile_of profiles studentId ≫= Profile.email) EmptyString;
     assignments := studentAssignments;
     averageGrade := averageGrade;
     submissionRate :=
       match assignments with
       | Some l =>
           if Js.truthy (Js.Numeric (Js.len l))
           then Js.Math_round
                  (Js.mul (Js.div submittedCount (Js.len l)) (Js.of_Z 100))
           else Js.of_Z 0
       | None => Js.of_Z 0
       end |}.

(** [progressData], from the active students of the course, their
    profiles, the assignments of the course and the submissions table. *)
Definition progressData (studentIds : list Id) (profiles : list Profile.t)
    (assignments : option (list AssignmentRow.t))
    (table : list SubmissionRow.t) : list StudentProgress :=
  let assignmentIds := map AssignmentRow.id (default [] assignments) in
  let submissionsMap :=
    if Js.gt (Js.len assignmentIds) (Js.of_Z 0)
    then build_submissionsMap (fetch_submissions assignmentIds studentIds table)
    else ∅ in
  map (student_progress profiles assignments submissionsMap) studentIds.

End StudentProgressPage.

(** ** The properties, as the specification words them *)

Module Spec.

Local Open Scope Q_scope.

Definition round_half_up (q : Q) : Z := Qfloor (q + (1 # 2)).

Definition Q_of_nat (n : nat) : Q := inject_Z (Z.of_nat n).

Definition Qsum (qs : list Q) : Q := fold_right Qplus 0 qs.

(** Completion rate: graded submissions over enrollments times
    assignments, as a rounded percentage; no enrollment counts as one and
    no assignment gives zero. *)
Definition completion_rate
    (graded_count enrollment_count assignment_count : nat) : Z :=
  match assignment_count with
  | O => 0%Z
  | _ =>
      round_half_up
        (Q_of_nat graded_count
         / Q_of_nat (match enrollment_count with
                     | O => 1
                     | _ => enrollment_count
                     end)
         / Q_of_nat assignment_count * 100)
  end.

(** Average grade: the mean of the non-null grades to two decimals, zero
    when there is none. *)
Definition average_grade (grades : list Q) : Q :=
  match grades with
  | [] => 0
  | _ =>
      inject_Z (round_half_up (Qsum grades / Q_of_nat (length grades) * 100))
      / 100
  end.

(** Submission rate: submitted over total assignments, as a rounded
    percentage; zero without assignments. *)
Definition submission_rate (submitted_count total_assignments : nat) : Z :=
  match total_assignments with
  | O => 0%Z
  | _ =>
      round_half_up
        (Q_of_nat submitted_count / Q_of_nat total_assignments * 100)
  end.

(** A row of the submissions table is for the student and assignment. *)
Definition is_for (student assignment : Id)
    (r : StudentProgressPage.SubmissionRow.t) : bool :=
  String.eqb (StudentProgressPage.SubmissionRow.student_id r) student
  && String.eqb (StudentProgressPage.SubmissionRow.assignment_id r) assignment.

(** A submission of the student for the assignment exists. *)
Definition submitted (table : list StudentProgressPage.SubmissionRow.t)
    (student assignment : Id) : bool :=
  existsb (is_for student assignment) table.

(** The grade of the student's submission for the assignment, if any;
    of several rows for the pair the last one counts. *)
Definition grade_of (table : list StudentProgressPage.SubmissionRow.t)
    (student assignment : Id) : option Q :=
  mjoin
    (fold_left
       (fun found r =>
          if is_for student assignment r
          then Some (StudentProgressPage.SubmissionRow.grade r)
          else found)
       table None).

(** The line of a student's report for an assignment: submitted when a
    submission exists, with its grade if any. *)
Definition item (table : list StudentProgressPage.SubmissionRow.t)
    (student : Id) (a : StudentProgressPage.AssignmentRow.t)
  : StudentProgressPage.Item.t :=
  {| StudentProgressPage.Item.assignment_id :=
       StudentProgressPage.AssignmentRow.id a;
     StudentProgressPage.Item.assignment_title :=
       StudentProgressPage.AssignmentRow.title a;
     StudentProgressPage.Item.max_grade :=
       StudentProgressPage.AssignmentRow.max_grade a;
     StudentProgressPage.Item.due_date :=
       StudentProgressPage.AssignmentRow.due_date a;
     StudentProgressPage.Item.submitted :=
       submitted table student (StudentProgressPage.AssignmentRow.id a);
     StudentProgressPage.Item.grade :=
       grade_of table student (StudentProgressPage.AssignmentRow.id a) |}.

(** The graded assignments of a student: grade and maximum grade. *)
Definition graded_assignments
    (table : list StudentProgressPage.SubmissionRow.t) (student : Id)
    (assignments : list StudentProgressPage.AssignmentRow.t)
  : list (Q * Q) :=
  omap
    (fun a =>
       g ← grade_of table student (StudentProgressPage.AssignmentRow.id a);
       Some (g, StudentProgressPage.AssignmentRow.max_grade a))
    assignments.

(** [grade / max_grade * 100] in the arithmetic of the page. *)
Definition percentage (gm : Q * Q) : Js.Number :=
  Js.mul (Js.div (Js.Num (fst gm)) (Js.Num (snd gm))) (Js.of_Z 100).

(** Average grade of a student: the rounded mean of the percentages of
    the graded assignments; none when nothing is graded. *)
Definition average_percentage (graded : list (Q * Q)) : option Js.Number :=
  match graded with
  | [] => None
  | _ =>
      Some (Js.Math_round
              (Js.div (fold_left Js.add (map percentage graded) (Js.of_Z 0))
                 (Js.len graded)))
  end.

(** The same mean over the rationals. *)
Definition exact_average_percentage (graded : list (Q * Q)) : Z :=
  round_half_up
    (Qsum (map (fun gm => fst gm / snd gm * 100) graded)
     / Q_of_nat (length graded)).

(** Uniqueness invariant of the data model: at most one row of the table
    for the pair. *)
Definition at_most_one {A : Type} (pair : A -> bool) (rows : list A) : Prop :=
  (length (List.filter pair rows) <= 1)%nat.

(** The invariant on the whole tables. *)
Definition unique_enrollments (s : Store.t) : Prop :=
  forall data : EnrollmentService.EnrollData,
    at_most_one (EnrollmentService.same_pair data) (Store.enrollments s).

Definition unique_submissions (s : Store.t) : Prop :=
  forall data : SubmissionService.CreateData,
    at_most_one (SubmissionService.same_pair data) (Store.submissions s).

End Spec.

(** ** Worked inputs *)

Module Example.

Definition supabase : Supabase :=
  {| policy := fun _ _ => None;
     fresh_id :=
       fun s =>
         "row-"
         +:+ pretty (length (Store.enrollments s)
                     + length (Store.submissions s)
                     + length (Store.assignments s))%nat;
     db_now := "2025-11-20T05:52:05Z";
     now := "2025-11-21T09:00:00Z" |}.

Definition empty_store : Store.t :=
  {| Store.courses := []; Store.user_roles := []; Store.enrollments := [];
     Store.assignments := []; Store.submissions := [] |}.

Definition world (s : Store.t) : World :=
  {| db := s; outbox := []; journal := [] |}.

Definition algebra : Course.t :=
  {| Course.id := "c1"; Course.title := "Algebra";
     Course.created_by := "lecturer-1" |}.

Definition homework (id : Id) : Assignment.t :=
  {| Assignment.id := id; Assignment.title := "Homework " +:+ id;
     Assignment.description := None; Assignment.course_id := "c1";
     Assignment.due_date := "2025-12-01";
     Assignment.max_grade := Js.Numeric (Js.of_Z 100);
     Assignment.created_by := "lecturer-1" |}.

Definition handed_in (id assignment student : Id) (g : option Q)
  : Submission.t :=
  {| Submission.id := id; Submission.assignment_id := assignment;
     Submission.student_id := student; Submission.content := "my answer";
     Submission.file_url := None; Submission.grade := g;
     Submission.feedback := None; Submission.graded_by := None;
     Submission.graded_at := None;
     Submission.submitted_at := "2025-11-25T10:00:00Z" |}.

Definition enrolled (id student : Id) (status : string) : Enrollment.t :=
  {| Enrollment.id := id; Enrollment.student_id := student;
     Enrollment.course_id := "c1"; Enrollment.status := status;
     Enrollment.enrolled_at := "2025-11-20T06:00:00Z" |}.

(** One course, one assignment and three graded submissions with the
    grades 70, 80 and 90. *)
Definition three_grades : Store.t :=
  {| Store.courses := [algebra];
     Store.user_roles := [];
     Store.enrollments :=
       [enrolled "e1" "s1" "active"; enrolled "e2" "s2" "active";
        enrolled "e3" "s3" "active"];
     Store.assignments := [homework "a1"];
     Store.submissions :=
       [handed_in "u1" "a1" "s1" (Some (70 # 1));
        handed_in "u2" "a1" "s2" (Some (80 # 1));
        handed_in "u3" "a1" "s3" (Some (90 # 1))] |}.

(** A student whose enrollment in the course was dropped. *)
Definition dropped_out : Store.t :=
  {| Store.courses := [algebra];
     Store.user_roles := [];
     Store.enrollments := [enrolled "e1" "s1" "dropped"];
     Store.assignments := [homework "a1"];
     Store.submissions := [] |}.

Definition enroll_s1 : EnrollmentService.EnrollData :=
  {| EnrollmentService.student_id := "s1";
     EnrollmentService.course_id := "c1" |}.

Definition submit_s1 : SubmissionService.CreateData :=
  {| SubmissionService.assignment_id := "a1";
     SubmissionService.student_id := "s1";
     SubmissionService.content := "second attempt";
     SubmissionService.file_url := None |}.

(** An assignment created with the maximum grade 0. *)
Definition ungraded_quiz : AssignmentService.CreateData :=
  {| AssignmentService.title := "Quiz";
     AssignmentService.description := None;
     AssignmentService.course_id := "c1";
     AssignmentService.due_date := "2025-12-10";
     AssignmentService.max_grade := Js.Numeric (Js.of_Z 0);
     AssignmentService.created_by := "lecturer-1" |}.


(** A host for the worked inputs: whole numbers are printed and read in
    decimal. *)
Definition print_number (n : Js.Number) : string :=
  match n with
  | Js.Num q =>
      match Qden q with
      | xH => pretty (Qnum q)
      | d => pretty (Qnum q) +:+ "/" +:+ pretty (Zpos d)
      end
  | Js.NaN => "NaN"
  | Js.PosInf => "Infinity"
  | Js.NegInf => "-Infinity"
  end.

Definition digit (c : Ascii.ascii) : option Z :=
  let n := Z.of_nat (Ascii.nat_of_ascii c) in
  if ((48 <=? n) && (n <=? 57))%Z then Some (n - 48)%Z else None.

Fixpoint digits (s : string) (acc : option Z) : option Z :=
  match s with
  | EmptyString => acc
  | String c rest =>
      match digit c with
      | Some d => digits rest (Some (10 * default 0 acc + d))%Z
      | None => acc
      end
  end.

Definition read_integer (s : string) : Js.Number :=
  match s with
  | String "-"%char rest =>
      match digits rest None with
      | Some n => Js.of_Z (- n)
      | None => Js.NaN
      end
  | _ =>
      match digits s None with
      | Some n => Js.of_Z n
      | None => Js.NaN
      end
  end.

Definition js : Runtime :=
  {| number_to_string := print_number; parseInt := read_integer |}.

(** The lecturer grades the submission u1 with 150 out of 100. *)
Definition grade_u1 : GradingService.GradeData :=
  {| GradingService.submission_id := "u1";
     GradingService.grade := Some (150 # 1);
     GradingService.feedback := Some "Well done";
     GradingService.graded_by := "lecturer-1" |}.

Definition grading_dialog (typed : string) : LecturerSubmissionsPage.State :=
  {| LecturerSubmissionsPage.assignment :=
       Some {| LecturerSubmissionsPage.assignment_id := "a1";
               LecturerSubmissionsPage.title := "Homework a1";
               LecturerSubmissionsPage.description := None;
               LecturerSubmissionsPage.due_date := "2025-12-01";
               LecturerSubmissionsPage.max_grade := 100 # 1;
               LecturerSubmissionsPage.course_id := "c1" |};
     LecturerSubmissionsPage.gradingSubmission :=
       Some {| LecturerSubmissionsPage.id := "u1";
               LecturerSubmissionsPage.content := "my answer";
               LecturerSubmissionsPage.file_url := None;
               LecturerSubmissionsPage.submitted_at := "2025-11-25T10:00:00Z";
               LecturerSubmissionsPage.submission_grade := None;
               LecturerSubmissionsPage.submission_feedback := None;
               LecturerSubmissionsPage.graded_at := None;
               LecturerSubmissionsPage.student_id := "s1" |};
     LecturerSubmissionsPage.grade := typed;
     LecturerSubmissionsPage.feedback := "Well done" |}.

(** The student s1 rewrites the text of the graded submission u1. *)
Definition rewrite_u1 : SubmissionService.UpdateData :=
  {| SubmissionService.id := "u1";
     SubmissionService.updates :=
       {| Submission.set_assignment_id := None;
          Submission.set_student_id := None;
          Submission.set_content := Some "rewritten after grading";
          Submission.set_file_url := None;
          Submission.set_grade := None;
          Submission.set_feedback := None;
          Submission.set_graded_by := None;
          Submission.set_graded_at := None;
          Submission.set_submitted_at := None |} |}.

(** The submission page of s1 for the graded submission u1. *)
Definition graded_page : SubmissionPage.State :=
  {| SubmissionPage.assignment :=
       Some {| SubmissionPage.assignment_id := "a1";
               SubmissionPage.title := "Homework a1";
               SubmissionPage.description := None;
               SubmissionPage.due_date := "2025-12-01";
               SubmissionPage.max_grade := 100 # 1 |};
     SubmissionPage.submission :=
       Some {| SubmissionPage.id := "u1";
               SubmissionPage.submission_content := "my answer";
               SubmissionPage.grade := Some (70 # 1);
               SubmissionPage.feedback := None;
               SubmissionPage.submitted_at := "2025-11-25T10:00:00Z" |};
     SubmissionPage.content := "my answer";
     SubmissionPage.loading := false;
     SubmissionPage.error := None |}.


(** Four assignments of a course and a student who handed in three. *)
Definition four_assignments : list StudentProgressPage.AssignmentRow.t :=
  map (fun id =>
         {| StudentProgressPage.AssignmentRow.id := id;
            StudentProgressPage.AssignmentRow.title := "Homework " +:+ id;
            StudentProgressPage.AssignmentRow.max_grade := 100 # 1;
            StudentProgressPage.AssignmentRow.due_date := "2025-12-01" |})
    ["a1"; "a2"; "a3"; "a4"].

Definition three_handed_in : list StudentProgressPage.SubmissionRow.t :=
  [{| StudentProgressPage.SubmissionRow.student_id := "s1";
      StudentProgressPage.SubmissionRow.assignment_id := "a1";
      StudentProgressPage.SubmissionRow.grade := Some (70 # 1) |};
   {| StudentProgressPage.SubmissionRow.student_id := "s1";
      StudentProgressPage.SubmissionRow.assignment_id := "a2";
      StudentProgressPage.SubmissionRow.grade := Some (45 # 1) |};
   {| StudentProgressPage.SubmissionRow.student_id := "s2";
      StudentProgressPage.SubmissionRow.assignment_id := "a4";
      StudentProgressPage.SubmissionRow.grade := None |};
   {| StudentProgressPage.SubmissionRow.student_id := "s1";
      StudentProgressPage.SubmissionRow.assignment_id := "a3";
      StudentProgressPage.SubmissionRow.grade := None |}].

End Example.

(** * The other handlers of the services and pages *)

From Stdlib Require Import Sorted.

(** ** Ordering and the other writes of the data layer *)

(** [.order(column)]: the rows in the order of the column; rows that
    compare equal keep their order. *)
Module Order.

Fixpoint insert_by {A : Type} (before : A -> A -> bool) (x : A)
    (l : list A) : list A :=
  match l with
  | [] => [x]
  | y :: rest =>
      if before x y then x :: y :: rest else y :: insert_by before x rest
  end.

Definition sort_by {A : Type} (before : A -> A -> bool) (l : list A)
  : list A :=
  fold_right (insert_by before) [] l.

End Order.

(** The writes of the handlers below. *)
Inductive Change : Type :=
  | DeleteEnrollments (student course : Id)
  | UpdateEnrollmentStatus (id : Id) (status : string).

(** What the data layer decides for them, and how it orders timestamps:
    [refuses] answers a change with the error it raises, if any;
    [not_after a b] holds when [a] is at or before [b]. *)
Record DataLayer : Type := {
  refuses : Change -> Store.t -> option ErrorMsg;
  not_after : Timestamp -> Timestamp -> bool
}.

(** A change: refused by the data layer or applied. *)
Definition change {A : Type} (layer : DataLayer) (c : Change)
    (apply : Store.t -> Query.Result A * Store.t) : M (Query.Result A) :=
  fun w =>
    match refuses layer c (db w) with
    | Some e => (Return (Query.failed e), w)
    | None =>
        let '(r, s) := apply (db w) in
        (Return r, with_db s w)
    end.

(** [.from(table).select('*').eq(..).order(column)] *)
Definition select_ordered {A : Type} (table : Store.t -> list A)
    (p : A -> bool) (before : A -> A -> bool) : M (Query.Result (list A)) :=
  fun w =>
    (Return (Query.ok (Order.sort_by before (List.filter p (table (db w))))),
     w).

(** [data?.key], when truthy. *)
Definition wanted (key : option Id) : option Id :=
  match key with
  | Some k => if String.eqb k EmptyString then None else Some k
  | None => None
  end.

(** [if (data?.key) query = query.eq(column, data.key)] *)
Definition eq_if_wanted {A : Type} (column : A -> Id) (key : option Id)
    (r : A) : bool :=
  match wanted key with
  | Some k => String.eqb (column r) k
  | None => true
  end.

(** ** grading-service: update-grade and get-statistics *)

(** ** Request bodies *)

Module Request.

(** A key of a request body: missing, null or carrying a value. *)
Inductive Field (A : Type) : Type :=
  | Absent
  | Null
  | Given (a : A).

Arguments Absent {A}.
Arguments Null {A}.
Arguments Given {A} a.

(** [{ column: data.key }] in the object handed to [update]: a property
    whose value is [undefined] is left out of the body that is sent, and
    the column is not written. *)
Definition update {A : Type} (f : Field A) : option (option A) :=
  match f with
  | Absent => None
  | Null => Some None
  | Given a => Some (Some a)
  end.

(** What the column holds after the write. *)
Definition written {A : Type} (f : Field A) (old : option A) : option A :=
  match f with
  | Absent => old
  | Null => None
  | Given a => Some a
  end.

End Request.

Module GradingHandlers.

Record UpdateGradeData : Type := {
  submission_id : Id;
  grade : Request.Field Q;
  feedback : Request.Field string
}.

(** The object handed to [update] by [updateGrade]. *)
Definition regrading_patch (supabase : Supabase) (data : UpdateGradeData)
  : Submission.Patch :=
  {| Submission.set_assignment_id := None;
     Submission.set_student_id := None;
     Submission.set_content := None;
     Submission.set_file_url := None;
     Submission.set_grade := Request.update (grade data);
     Submission.set_feedback := Request.update (feedback data);
     Submission.set_graded_by := None;
     Submission.set_graded_at := Some (Some (now supabase));
     Submission.set_submitted_at := None |}.

Definition updateGrade (supabase : Supabase) (data : UpdateGradeData)
  : M (Response Submission.t) :=
  r ← update_submission supabase (submission_id data)
         (regrading_patch supabase data);
  throw_on_error r;;
  submission ← row_of r;
  mret (respond 200 (Success submission)).

Record StatisticsData : Type := {
  assignment_id : option Id;
  course_id : option Id
}.

Record Statistics : Type := {
  count : Js.Number;
  average : Js.Number;
  min : Js.Number;
  max : Js.Number
}.

(** [Math.min(...xs)] and [Math.max(...xs)] *)
Definition Math_min (xs : list Js.Number) : Js.Number :=
  fold_left
    (fun m x =>
       if Js.isNaN m || Js.isNaN x then Js.NaN
       else if Js.lt x m then x else m)
    xs Js.PosInf.

Definition Math_max (xs : list Js.Number) : Js.Number :=
  fold_left
    (fun m x =>
       if Js.isNaN m || Js.isNaN x then Js.NaN
       else if Js.gt x m then x else m)
    xs Js.NegInf.

(** The filters of the query: the assignment and the course when asked
    for, and a grade that is not null. *)
Definition selected (data : option StatisticsData) (s : Store.t)
    (sub : Submission.t) : bool :=
  eq_if_wanted Submission.assignment_id (data ≫= assignment_id) sub
  && match wanted (data ≫= course_id) with
     | Some c => AnalyticsService.in_course c s sub
     | None => true
     end
  && AnalyticsService.graded sub.

Definition select_grades (data : option StatisticsData)
  : M (Query.Result (list Submission.t)) :=
  fun w =>
    (Return
       (Query.ok (List.filter (selected data (db w)) (Store.submissions (db w)))),
     w).

(** The computation of [getStatistics] on the fetched rows. *)
Definition statistics (submissions : option (list Submission.t))
  : Statistics :=
  match submissions with
  | None | Some [] =>
      {| count := Js.of_Z 0; average := Js.of_Z 0; min := Js.of_Z 0;
         max := Js.of_Z 0 |}
  | Some rows =>
      let grades := map AnalyticsService.grade_operand rows in
      let average :=
        Js.div (fold_left (fun a b => Js.add a b) grades (Js.of_Z 0))
          (Js.len grades) in
      {| count := Js.len grades;
         average :=
           Js.div (Js.Math_round (Js.mul average (Js.of_Z 100)))
             (Js.of_Z 100);
         min := Math_min grades;
         max := Math_max grades |}
  end.

Definition getStatistics (supabase : Supabase)
    (data : option StatisticsData) : M (Response Statistics) :=
  submissions ← select_grades data;
  throw_on_error submissions;;
  mret (respond 200 (Success (statistics (Query.data submissions)))).

End GradingHandlers.

(** ** submission-service: list and get *)

Module SubmissionQueries.

Record ListData : Type := {
  assignment_id : option Id;
  student_id : option Id
}.

Definition listed (data : option ListData) (sub : Submission.t) : bool :=
  eq_if_wanted Submission.assignment_id (data ≫= assignment_id) sub
  && eq_if_wanted Submission.student_id (data ≫= student_id) sub.

(** [submitted_at] descending. *)
Definition newest_first (layer : DataLayer) (a b : Submission.t) : bool :=
  not_after layer (Submission.submitted_at b) (Submission.submitted_at a).

Definition listSubmissions (layer : DataLayer) (supabase : Supabase)
    (data : option ListData) : M (Response (option (list Submission.t))) :=
  submissions ←
    select_ordered Store.submissions (listed data) (newest_first layer);
  throw_on_error submissions;;
  mret (respond 200 (Success (Query.data submissions))).

Definition getSubmission (supabase : Supabase) (id : Id)
  : M (Response Submission.t) :=
  r ← select_single Store.submissions (has_id id);
  throw_on_error r;;
  submission ← row_of r;
  mret (respond 200 (Success submission)).

End SubmissionQueries.

(** ** assignment-service: list and get *)

Module AssignmentQueries.

Definition listed (course_id : option Id) (a : Assignment.t) : bool :=
  eq_if_wanted Assignment.course_id course_id a.

(** [due_date] ascending. *)
Definition soonest_first (layer : DataLayer) (a b : Assignment.t) : bool :=
  not_after layer (Assignment.due_date a) (Assignment.due_date b).

Definition listAssignments (layer : DataLayer) (supabase : Supabase)
    (course_id : option Id) : M (Response (option (list Assignment.t))) :=
  assignments ←
    select_ordered Store.assignments (listed course_id) (soonest_first layer);
  throw_on_error assignments;;
  mret (respond 200 (Success (Query.data assignments))).

Definition getAssignment (supabase : Supabase) (id : Id)
  : M (Response Assignment.t) :=
  r ← select_single Store.assignments
         (fun a => String.eqb (Assignment.id a) id);
  throw_on_error r;;
  assignment ← row_of r;
  mret (respond 200 (Success assignment)).

End AssignmentQueries.

(** ** enrollment-service: unenroll and update-status *)

Module EnrollmentHandlers.

(** [.delete().eq('student_id', ..).eq('course_id', ..)] *)
Definition delete_enrollments (layer : DataLayer)
    (data : EnrollmentService.EnrollData) : M (Query.Result unit) :=
  change layer
    (DeleteEnrollments (EnrollmentService.student_id data)
       (EnrollmentService.course_id data))
    (fun s =>
       (Query.ok tt,
        Store.with_enrollments
          (List.filter (fun e => negb (EnrollmentService.same_pair data e))
             (Store.enrollments s)) s)).

Definition unenrollStudent (layer : DataLayer)
    (data : EnrollmentService.EnrollData) : M (Response unit) :=
  r ← delete_enrollments layer data;
  throw_on_error r;;
  mret (respond 200 (Success tt)).

Record StatusData : Type := {
  id : Id;
  status : string
}.

Definition names (id : Id) (e : Enrollment.t) : bool :=
  String.eqb (Enrollment.id e) id.

Definition with_status (status : string) (e : Enrollment.t) : Enrollment.t :=
  {| Enrollment.id := Enrollment.id e;
     Enrollment.student_id := Enrollment.student_id e;
     Enrollment.course_id := Enrollment.course_id e;
     Enrollment.status := status;
     Enrollment.enrolled_at := Enrollment.enrolled_at e |}.

(** [.update({ status }).eq('id', id).select().single()]: as for a
    submission, nothing is changed unless the id names exactly one row. *)
Definition update_status (layer : DataLayer) (data : StatusData)
  : M (Query.Result Enrollment.t) :=
  change layer (UpdateEnrollmentStatus (id data) (status data))
    (fun s =>
       match List.filter (names (id data)) (Store.enrollments s) with
       | [e] =>
           (Query.ok (with_status (status data) e),
            Store.with_enrollments
              (map (fun e => if names (id data) e
                             then with_status (status data) e else e)
                 (Store.enrollments s)) s)
       | _ => (Query.failed Query.not_single, s)
       end).

Definition updateEnrollmentStatus (layer : DataLayer) (data : StatusData)
  : M (Response Enrollment.t) :=
  r ← update_status layer data;
  throw_on_error r;;
  enrollment ← row_of r;
  mret (respond 200 (Success enrollment)).

End EnrollmentHandlers.

(** ** enrollment-service: list *)

Module EnrollmentQueries.

Record ListData : Type := {
  student_id : option Id;
  course_id : option Id;
  status : option string
}.

Definition listed (data : option ListData) (e : Enrollment.t) : bool :=
  eq_if_wanted Enrollment.student_id (data ≫= student_id) e
  && eq_if_wanted Enrollment.course_id (data ≫= course_id) e
  && eq_if_wanted Enrollment.status (data ≫= status) e.

(** [enrolled_at] descending. *)
Definition newest_first (layer : DataLayer) (a b : Enrollment.t) : bool :=
  not_after layer (Enrollment.enrolled_at b) (Enrollment.enrolled_at a).

(** The course embedded in an enrollment row. *)
Definition with_course (s : Store.t) (e : Enrollment.t)
  : Enrollment.t * option Course.t :=
  (e,
   List.find (fun c => String.eqb (Course.id c) (Enrollment.course_id e))
     (Store.courses s)).

(** The enrollments with their courses, filtered, by [enrolled_at]
    descending. *)
Definition select_enrollments (layer : DataLayer) (data : option ListData)
  : M (Query.Result (list (Enrollment.t * option Course.t))) :=
  fun w =>
    (Return
       (Query.ok
          (map (with_course (db w))
             (Order.sort_by (newest_first layer)
                (List.filter (listed data) (Store.enrollments (db w)))))),
     w).

Definition listEnrollments (layer : DataLayer) (supabase : Supabase)
    (data : option ListData)
  : M (Response (option (list (Enrollment.t * option Course.t)))) :=
  enrollments ← select_enrollments layer data;
  throw_on_error enrollments;;
  mret (respond 200 (Success (Query.data enrollments))).

End EnrollmentQueries.

(** ** The form of the student's submission page *)

Module SubmissionForm.

Inductive Effect : Type :=
  | Toast (title : string) (description : option string) (destructive : bool)
  | Navigate (path : string).

(** The object handed to [update] by [handleSubmit]. *)
Definition content_patch (text : string) : Submission.Patch :=
  {| Submission.set_assignment_id := None;
     Submission.set_student_id := None;
     Submission.set_content := Some text;
     Submission.set_file_url := None;
     Submission.set_grade := None;
     Submission.set_feedback := None;
     Submission.set_graded_by := None;
     Submission.set_graded_at := None;
     Submission.set_submitted_at := None |}.

Definition reported (done : string) (r : option ErrorMsg) : list Effect :=
  match r with
  | Some e => [Toast "Error" (Some e) true]
  | None => [Toast done None false; Navigate "/assignments"]
  end.

(** [assignmentId] is the route parameter; [user] is what [safeGetUser]
    yields for the session when it reports no error. *)
Definition handleSubmit (supabase : Supabase) (assignmentId : option Id)
    (user : option Id) (st : SubmissionPage.State) : M (list Effect) :=
  match wanted assignmentId, user with
  | Some assignment, Some u =>
      match SubmissionPage.submission st with
      | Some submission =>
          r ← update_submissions supabase (SubmissionPage.id submission)
                 (content_patch (SubmissionPage.content st));
          mret (reported "Submission updated successfully!" (Query.error r))
      | None =>
          r ← insert_submission supabase assignment u
                 (SubmissionPage.content st) None;
          mret (reported "Submission created successfully!" (Query.error r))
      end
  | _, _ => mret []
  end.

End SubmissionForm.

(** ** analytics-service: student performance *)

Module StudentPerformance.

(** The [assignments(title, max_grade, course_id)] embedded in a fetched
    submission. *)
Record Joined : Type := {
  title : string;
  max_grade : Q;
  course_id : Id
}.

Record Row : Type := {
  submission : Submission.t;
  assignments : option Joined
}.


Definition graded (r : Row) : bool := AnalyticsService.graded (submission r).




End StudentPerformance.

(** ** More worked inputs *)

Module Sample.

(** A data layer that accepts every change and orders timestamps as
    text. *)
Definition layer : DataLayer :=
  {| refuses := fun _ _ => None; not_after := String.leb |}.

Definition late_homework : Assignment.t :=
  {| Assignment.id := "a2"; Assignment.title := "Homework a2";
     Assignment.description := None; Assignment.course_id := "c1";
     Assignment.due_date := "2025-11-28";
     Assignment.max_grade := Js.Numeric (Js.of_Z 50);
     Assignment.created_by := "lecturer-1" |}.

Definition handed_in_at (id assignment student : Id) (at_ : Timestamp)
    (g : option Q) : Submission.t :=
  {| Submission.id := id; Submission.assignment_id := assignment;
     Submission.student_id := student; Submission.content := "my answer";
     Submission.file_url := None; Submission.grade := g;
     Submission.feedback := None; Submission.graded_by := Some "lecturer-1";
     Submission.graded_at := None; Submission.submitted_at := at_ |}.

(** Two assignments of one course and three submissions handed in on
    different days. *)
Definition term : Store.t :=
  {| Store.courses := [Example.algebra];
     Store.user_roles := [];
     Store.enrollments :=
       [Example.enrolled "e1" "s1" "active";
        Example.enrolled "e2" "s2" "dropped";
        Example.enrolled "e3" "s3" "active"];
     Store.assignments := [Example.homework "a1"; late_homework];
     Store.submissions :=
       [handed_in_at "u1" "a1" "s1" "2025-11-25T10:00:00Z" (Some (70 # 1));
        handed_in_at "u2" "a2" "s1" "2025-11-27T08:30:00Z" None;
        handed_in_at "u3" "a1" "s3" "2025-11-26T17:45:00Z" (Some (90 # 1))] |}.

(** The submission page of s1 for the graded submission u1, with the text
    area holding another text. *)
Definition edited_page : SubmissionPage.State :=
  {| SubmissionPage.assignment := SubmissionPage.assignment Example.graded_page;
     SubmissionPage.submission := SubmissionPage.submission Example.graded_page;
     SubmissionPage.content := "changed my mind";
     SubmissionPage.loading := false;
     SubmissionPage.error := None |}.

(** The same page opened before anything was handed in. *)
Definition blank_page : SubmissionPage.State :=
  {| SubmissionPage.assignment := SubmissionPage.assignment Example.graded_page;
     SubmissionPage.submission := None;
     SubmissionPage.content := "first answer";
     SubmissionPage.loading := false;
     SubmissionPage.error := None |}.





End Sample.

(** * The arithmetic of the engine *)

(** ** Doubles *)

(** JavaScript computes in IEEE 754 doubles: an operation returns the
    double nearest to its exact result, a tie going to the neighbour whose
    significand is even, and a result beyond the largest double is an
    infinity.  [Binary64] rounds the exact operations of [Js] that way.  A
    double is kept as the rational it denotes. *)
Module Binary64.

Local Open Scope Q_scope.

(** The exponent of a positive rational: [2 ^ e <= q < 2 ^ (e + 1)]. *)
Definition exponent (q : Q) : Z :=
  let e := (Z.log2 (Qnum q) - Z.log2 (Zpos (Qden q)))%Z in
  if Qle_bool (2 ^ e) q then e else (e - 1)%Z.

(** The nearest integer, a half going to the even neighbour. *)
Definition nearest_even (x : Q) : Z :=
  let f := Qfloor x in
  match Qcompare (x - inject_Z f) (1 # 2) with
  | Lt => f
  | Gt => (f + 1)%Z
  | Eq => if Z.even f then f else (f + 1)%Z
  end.

(** The nearest double of a positive rational: 53 significant bits, the
    exponent of the last one no less than -1074 (subnormal numbers), an
    infinity from [2 ^ 1024] on. *)
Definition round_positive (q : Q) : Js.Number :=
  let e := Z.max (exponent q) (-1022) in
  let ulp := 2 ^ (e - 52) in
  let v := inject_Z (nearest_even (q / ulp)) * ulp in
  if Qle_bool (2 ^ 1024) v then Js.PosInf else Js.Num (Qred v).

Definition opposite (n : Js.Number) : Js.Number :=
  match n with
  | Js.Num q => Js.Num (Qred (- q))
  | Js.PosInf => Js.NegInf
  | Js.NegInf => Js.PosInf
  | Js.NaN => Js.NaN
  end.

Definition round (q : Q) : Js.Number :=
  match Qnum q with
  | Z0 => Js.Num 0
  | Zpos _ => round_positive q
  | Zneg _ => opposite (round_positive (- q))
  end.

(** The number [JSON.parse] reads from a decimal of the store. *)
Definition of_Q (q : Q) : Js.Number := round q.

Definition normal (n : Js.Number) : Js.Number :=
  match n with
  | Js.Num q => round q
  | _ => n
  end.

(** [a + b], [a * b] and [a / b] *)
Definition add (a b : Js.Number) : Js.Number := normal (Js.add a b).

Definition mul (a b : Js.Number) : Js.Number := normal (Js.mul a b).

Definition div (a b : Js.Number) : Js.Number := normal (Js.div a b).

End Binary64.

(** ** Keys of a plain object *)

Module JsObject.

(** The properties every plain object inherits from [Object.prototype]. *)
Definition inherited : list string :=
  ["constructor"; "__defineGetter__"; "__defineSetter__"; "hasOwnProperty";
   "__lookupGetter__"; "__lookupSetter__"; "isPrototypeOf";
   "propertyIsEnumerable"; "toString"; "valueOf"; "__proto__";
   "toLocaleString"].

(** A key under which an object used as a map answers with what was
    stored, and with [undefined] when nothing was: any key but an inherited
    one.  Maps keyed by row ids are modelled as finite maps, which is what
    they are for such keys. *)
Definition own_key (k : string) : bool :=
  negb (existsb (String.eqb k) inherited).

End JsObject.

(** ** analytics-service in doubles *)

(** [getCourseAnalytics] as in [AnalyticsService], the arithmetic being that
    of the engine. *)
Module DoubleAnalytics.

(** [s.grade] as an operand of [+]: the double read from the row. *)
Definition grade_operand (s : Submission.t) : Js.Number :=
  match Submission.grade s with
  | Some g => Binary64.of_Q g
  | None => Js.of_Z 0
  end.

Definition course_analytics
    (enrollments : option (list Enrollment.t))
    (assignments : option (list Assignment.t))
    (submissions : option (list Submission.t))
  : AnalyticsService.CourseAnalytics :=
  let gradedSubmissions :=
    match submissions with
    | Some l => List.filter AnalyticsService.graded l
    | None => []
    end in
  let averageGrade :=
    if Js.gt (Js.len gradedSubmissions) (Js.of_Z 0)
    then Binary64.div
           (fold_left (fun sum s => Binary64.add sum (grade_operand s))
              gradedSubmissions (Js.of_Z 0))
           (Js.len gradedSubmissions)
    else Js.of_Z 0 in
  {| AnalyticsService.total_students :=
       Js.length_or enrollments (Js.of_Z 0);
     AnalyticsService.total_assignments :=
       Js.length_or assignments (Js.of_Z 0);
     AnalyticsService.total_submissions :=
       Js.length_or submissions (Js.of_Z 0);
     AnalyticsService.graded_submissions := Js.len gradedSubmissions;
     AnalyticsService.average_grade :=
       Binary64.div
         (Js.Math_round (Binary64.mul averageGrade (Js.of_Z 100)))
         (Js.of_Z 100);
     AnalyticsService.completion_rate :=
       match assignments with
       | Some l =>
           if Js.gt (Js.len l) (Js.of_Z 0)
           then Js.Math_round
                  (Binary64.mul
                     (Binary64.div
                        (Binary64.div (Js.len gradedSubmissions)
                           (Js.length_or enrollments (Js.of_Z 1)))
                        (Js.len l))
                     (Js.of_Z 100))
           else Js.of_Z 0
       | None => Js.of_Z 0
       end |}.

Definition getCourseAnalytics (supabase : Supabase) (courseId : Id)
  : M (Response AnalyticsService.CourseAnalytics) :=
  enrollments ← select Store.enrollments (AnalyticsService.of_course courseId);
  throw_on_error enrollments;;
  assignments ← select Store.assignments (AnalyticsService.for_course courseId);
  throw_on_error assignments;;
  submissions ← AnalyticsService.select_course_submissions courseId;
  throw_on_error submissions;;
  mret (respond 200
          (Success
             (course_analytics (Query.data enrollments)
                (Query.data assignments) (Query.data submissions)))).

End DoubleAnalytics.

(** ** The progress report in doubles *)

(** [progressData] as in [StudentProgressPage], the arithmetic being that of
    the engine. *)
Module DoubleProgress.

(** [a.grade] as the numerator of the division: the double read from the
    row. *)
Definition grade_operand (a : StudentProgressPage.Item.t) : Js.Number :=
  match StudentProgressPage.Item.grade a with
  | Some g => Binary64.of_Q g
  | None => Js.of_Z 0
  end.

(** The body of [studentIds.map(studentId => ..)]. *)
Definition student_progress (profiles : list StudentProgressPage.Profile.t)
    (assignments : option (list StudentProgressPage.AssignmentRow.t))
    (submissionsMap : gmap string (gmap string (option Q)))
    (studentId : Id) : StudentProgressPage.StudentProgress :=
  let studentAssignments :=
    map (fun a =>
           let submission :=
             StudentProgressPage.submission_of submissionsMap studentId
               (StudentProgressPage.AssignmentRow.id a) in
           {| StudentProgressPage.Item.assignment_id :=
                StudentProgressPage.AssignmentRow.id a;
              StudentProgressPage.Item.assignment_title :=
                StudentProgressPage.AssignmentRow.title a;
              StudentProgressPage.Item.max_grade :=
                StudentProgressPage.AssignmentRow.max_grade a;
              StudentProgressPage.Item.due_date :=
                StudentProgressPage.AssignmentRow.due_date a;
              StudentProgressPage.Item.submitted :=
                match submission with
                | Some _ => true
                | None => false
                end;
              StudentProgressPage.Item.grade := mjoin submission |})
      (default [] assignments) in
  let submittedCount :=
    Js.len (List.filter StudentProgressPage.Item.submitted studentAssignments)
  in
  let gradedAssignments :=
    List.filter StudentProgressPage.is_graded studentAssignments in
  let averageGrade :=
    if Js.gt (Js.len gradedAssignments) (Js.of_Z 0)
    then
      let totalPercentage :=
        fold_left
          (fun sum a =>
             Binary64.add sum
               (Binary64.mul
                  (Binary64.div (grade_operand a)
                     (Binary64.of_Q (StudentProgressPage.Item.max_grade a)))
                  (Js.of_Z 100)))
          gradedAssignments (Js.of_Z 0) in
      Some (Js.Math_round
              (Binary64.div totalPercentage (Js.len gradedAssignments)))
    else None in
  {| StudentProgressPage.student_id := studentId;
     StudentProgressPage.student_name :=
       string_or
         (StudentProgressPage.profile_of profiles studentId
            ≫= StudentProgressPage.Profile.full_name)
         "Unknown Student";
     StudentProgressPage.student_email :=
       string_or
         (StudentProgressPage.profile_of profiles studentId
            ≫= StudentProgressPage.Profile.email)
         EmptyString;
     StudentProgressPage.assignments := studentAssignments;
     StudentProgressPage.averageGrade := averageGrade;
     StudentProgressPage.submissionRate :=
       match assignments with
       | Some l =>
           if Js.truthy (Js.Numeric (Js.len l))
           then Js.Math_round
                  (Binary64.mul (Binary64.div submittedCount (Js.len l))
                     (Js.of_Z 100))
           else Js.of_Z 0
       | None => Js.of_Z 0
       end |}.

Definition progressData (studentIds : list Id)
    (profiles : list StudentProgressPage.Profile.t)
    (assignments : option (list StudentProgressPage.AssignmentRow.t))
    (table : list StudentProgressPage.SubmissionRow.t)
  : list StudentProgressPage.StudentProgress :=
  let assignmentIds :=
    map StudentProgressPage.AssignmentRow.id (default [] assignments) in
  let submissionsMap :=
    if Js.gt (Js.len assignmentIds) (Js.of_Z 0)
    then StudentProgressPage.build_submissionsMap
           (StudentProgressPage.fetch_submissions assignmentIds studentIds
              table)
    else ∅ in
  map (student_progress profiles assignments submissionsMap) studentIds.

End DoubleProgress.

(** ** The formulas of the metrics, computed in doubles *)

Module DoubleSpec.

Definition count (n : nat) : Js.Number := Js.of_Z (Z.of_nat n).

(** round(graded / (enrollments, or 1 when zero) / assignments * 100), each
    operation in turn; zero without assignments. *)
Definition completion_rate
    (graded_count enrollment_count assignment_count : nat) : Js.Number :=
  match assignment_count with
  | O => Js.of_Z 0
  | _ =>
      Js.Math_round
        (Binary64.mul
           (Binary64.div
              (Binary64.div (count graded_count)
                 (count (match enrollment_count with
                         | O => 1
                         | _ => enrollment_count
                         end)))
              (count assignment_count))
           (Js.of_Z 100))
  end.

(** The grades added up from zero, in the order of the list. *)
Definition total (grades : list Q) : Js.Number :=
  fold_left (fun sum g => Binary64.add sum (Binary64.of_Q g)) grades
    (Js.of_Z 0).

(** round(mean * 100) / 100, the mean being the total over the number of
    grades; zero when there is none. *)
Definition average_grade (grades : list Q) : Js.Number :=
  match grades with
  | [] => Js.of_Z 0
  | _ =>
      Binary64.div
        (Js.Math_round
           (Binary64.mul (Binary64.div (total grades) (count (length grades)))
              (Js.of_Z 100)))
        (Js.of_Z 100)
  end.

(** round(submitted / total * 100); zero without assignments. *)
Definition submission_rate (submitted_count total_assignments : nat)
  : Js.Number :=
  match total_assignments with
  | O => Js.of_Z 0
  | _ =>
      Js.Math_round
        (Binary64.mul
           (Binary64.div (count submitted_count) (count total_assignments))
           (Js.of_Z 100))
  end.

(** grade / max_grade * 100 *)
Definition percentage (gm : Q * Q) : Js.Number :=
  Binary64.mul
    (Binary64.div (Binary64.of_Q (fst gm)) (Binary64.of_Q (snd gm)))
    (Js.of_Z 100).

(** The rounded mean of the percentages of the graded assignments, added
    up from zero in their order; none when nothing is graded. *)
Definition average_percentage (graded : list (Q * Q)) : option Js.Number :=
  match graded with
  | [] => None
  | _ =>
      Some (Js.Math_round
              (Binary64.div
                 (fold_left Binary64.add (map percentage graded) (Js.of_Z 0))
                 (count (length graded))))
  end.

End DoubleSpec.

(** ** grading-service on any request body *)

(** [gradeSubmission] for a body in which each of grade, feedback and
    graded_by may be missing; [GradingService] is the handler on the bodies
    that carry the three of them. *)
Module GradeRequest.

Record GradeData : Type := {
  submission_id : Id;
  grade : Request.Field Q;
  feedback : Request.Field string;
  graded_by : Request.Field Id
}.

(** The object handed to [update] by [gradeSubmission]. *)
Definition grading_patch (supabase : Supabase) (data : GradeData)
  : Submission.Patch :=
  {| Submission.set_assignment_id := None;
     Submission.set_student_id := None;
     Submission.set_content := None;
     Submission.set_file_url := None;
     Submission.set_grade := Request.update (grade data);
     Submission.set_feedback := Request.update (feedback data);
     Submission.set_graded_by := Request.update (graded_by data);
     Submission.set_graded_at := Some (Some (now supabase));
     Submission.set_submitted_at := None |}.

Definition gradeSubmission (js : Runtime) (supabase : Supabase)
    (data : GradeData) : M (Response (Submission.t * Assignment.t)) :=
  r ← update_submission supabase (submission_id data)
         (grading_patch supabase data);
  throw_on_error r;;
  submission ← row_of r;
  assignments ← GradingService.joined_assignment submission;
  match assignments with
  | None => throw (null_reading "title")
  | Some a =>
      send_notification (GradingService.graded_notice js submission a);;
      mret (respond 200 (Success (submission, a)))
  end.

(** The body that carries the three keys. *)
Definition complete (data : GradingService.GradeData) : GradeData :=
  {| submission_id := GradingService.submission_id data;
     grade :=
       match GradingService.grade data with
       | Some g => Request.Given g
       | None => Request.Null
       end;
     feedback :=
       match GradingService.feedback data with
       | Some text => Request.Given text
       | None => Request.Null
       end;
     graded_by := Request.Given (GradingService.graded_by data) |}.

End GradeRequest.

(** ** More sample data *)

Module Cases.

(** Ten students enrolled in the course, four assignments, and one
    submission per student and assignment, in the order of the students,
    with the grades of the list. *)
Definition students : list Id := map (fun n => "s" +:+ pretty n) (seq 1 10).

Definition homeworks : list Id := ["a1"; "a2"; "a3"; "a4"].

Definition pairs : list (Id * Id) :=
  flat_map (fun s => map (fun a => (s, a)) homeworks) students.

Fixpoint marked (n : nat) (pairs : list (Id * Id)) (grades : list (option Q))
  : list Submission.t :=
  match pairs, grades with
  | (s, a) :: pairs, g :: grades =>
      Example.handed_in ("u" +:+ pretty n) a s g :: marked (S n) pairs grades
  | _, _ => []
  end.

Definition course (grades : list (option Q)) : Store.t :=
  {| Store.courses := [Example.algebra];
     Store.user_roles := [];
     Store.enrollments :=
       map (fun s => Example.enrolled ("e-" +:+ s) s "active") students;
     Store.assignments := map Example.homework homeworks;
     Store.submissions := marked 1 pairs grades |}.

(** 23 of the 40 submissions are graded. *)
Definition half_marked : Store.t :=
  course (repeat (Some (1 # 1)) 23 ++ repeat None 17).

(** All 40 are graded: 23 with 1 and 17 with 0. *)
Definition pass_fail : Store.t :=
  course (repeat (Some (1 # 1)) 23 ++ repeat (Some (0 # 1)) 17).

(** Forty assignments with the maximum grade 40; the student s1 handed in
    23 of them, of which the first is graded, with 23. *)
Definition forty_assignments : list StudentProgressPage.AssignmentRow.t :=
  map (fun n =>
         {| StudentProgressPage.AssignmentRow.id := "a" +:+ pretty n;
            StudentProgressPage.AssignmentRow.title :=
              "Homework a" +:+ pretty n;
            StudentProgressPage.AssignmentRow.max_grade := 40 # 1;
            StudentProgressPage.AssignmentRow.due_date := "2025-12-01" |})
    (seq 1 40).

Definition handed_in_23 : list StudentProgressPage.SubmissionRow.t :=
  map (fun n =>
         {| StudentProgressPage.SubmissionRow.student_id := "s1";
            StudentProgressPage.SubmissionRow.assignment_id :=
              "a" +:+ pretty n;
            StudentProgressPage.SubmissionRow.grade :=
              if Nat.eqb n 1 then Some (23 # 1) else None |})
    (seq 1 23).



(** The table after the student s1, whose submission u1 for a1 exists,
    submitted the form of a page that held no submission. *)
Definition handed_in_twice : World :=
  snd (SubmissionForm.handleSubmit Example.supabase (Some "a1") (Some "s1")
         Sample.blank_page (Example.world Example.three_grades)).

End Cases.

(** * Facts *)

(** ** Arithmetic of the number model *)

Section JsFacts.

Local Open Scope Q_scope.

Lemma sgn_Q_of_nat_S (n : nat) : Js.sgn (Spec.Q_of_nat (S n)) = Gt.
Proof.
  unfold Js.sgn, Spec.Q_of_nat. simpl Qnum.
  apply Z.compare_gt_iff. lia.
Qed.

Lemma len_cons {A : Type} (x : A) (xs : list A) :
  Js.len (x :: xs) = Js.Num (Spec.Q_of_nat (S (length xs))).
Proof. reflexivity. Qed.

Lemma len_Q_of_nat {A : Type} (xs : list A) :
  Js.len xs = Js.Num (Spec.Q_of_nat (length xs)).
Proof. reflexivity. Qed.

Lemma gt_len_0 {A : Type} (xs : list A) :
  Js.gt (Js.len xs) (Js.of_Z 0) = negb (Nat.eqb (length xs) 0).
Proof.
  unfold Js.gt, Js.lt, Js.len, Js.of_Z, Qle_bool. simpl.
  destruct (length xs) as [|n]; [reflexivity|].
  simpl. reflexivity.
Qed.

Lemma truthy_len {A : Type} (xs : list A) :
  Js.truthy (Js.Numeric (Js.len xs)) = negb (Nat.eqb (length xs) 0).
Proof.
  unfold Js.truthy, Js.len, Js.of_Z, Qeq_bool. simpl.
  destruct (length xs) as [|n]; reflexivity.
Qed.

Lemma length_or_Some {A : Type} (xs : list A) (d : Js.Number) :
  Js.length_or (Some xs) d =
  match length xs with
  | O => d
  | _ => Js.len xs
  end.
Proof.
  unfold Js.length_or, Js.or. rewrite truthy_len.
  destruct (length xs); reflexivity.
Qed.

Lemma length_or_None {A : Type} (d : Js.Number) :
  Js.length_or (@None (list A)) d = d.
Proof. reflexivity. Qed.

Lemma div_by_positive (x : Q) (n : nat) :
  Js.div (Js.Num x) (Js.Num (Spec.Q_of_nat (S n))) =
  Js.Num (Qred (x / Spec.Q_of_nat (S n))).
Proof. unfold Js.div. rewrite sgn_Q_of_nat_S. reflexivity. Qed.

Lemma round_times_100 (x y : Q) :
  x == y ->
  Js.Math_round (Js.mul (Js.Num x) (Js.of_Z 100)) =
  Js.of_Z (Spec.round_half_up (y * 100)).
Proof.
  intros H. unfold Js.Math_round, Js.mul, Js.of_Z, Spec.round_half_up.
  do 2 f_equal. apply Qfloor_comp.
  rewrite Qred_correct, H. reflexivity.
Qed.

End JsFacts.

(** ** analytics-service *)

Section AnalyticsFacts.

Import AnalyticsService.
Local Open Scope Q_scope.

(** The completion rate of the computation proper, on arrays that may be
    null: a null array counts as empty. *)
Lemma course_analytics_completion_rate
    (enrollments : option (list Enrollment.t))
    (assignments : option (list Assignment.t))
    (submissions : option (list Submission.t)) :
  completion_rate (course_analytics enrollments assignments submissions) =
  Js.of_Z
    (Spec.completion_rate
       (length (List.filter graded (default [] submissions)))
       (length (default [] enrollments))
       (length (default [] assignments))).
Proof.
  unfold course_analytics; cbn [completion_rate].
  replace (match submissions with
           | Some l => List.filter graded l
           | None => []
           end)
    with (List.filter graded (default [] submissions))
    by (destruct submissions; reflexivity).
  set (g := List.filter graded (default [] submissions)).
  destruct assignments as [l|]; [|reflexivity].
  rewrite gt_len_0. change (default [] (Some l)) with l.
  destruct l as [|a l]; [reflexivity|]. cbn [length Nat.eqb negb].
  assert (He : Js.length_or enrollments (Js.of_Z 1) =
               Js.Num (Spec.Q_of_nat
                         (match length (default [] enrollments) with
                          | O => 1
                          | S n => S n
                          end))).
  { destruct enrollments as [es|]; [|reflexivity].
    rewrite length_or_Some.
    change (default [] (Some es)) with es.
    destruct (length es) eqn:E; [reflexivity|].
    rewrite len_Q_of_nat, E. reflexivity. }
  rewrite He. rewrite (len_Q_of_nat g), len_cons.
  destruct (length (default [] enrollments)) as [|n];
    rewrite !div_by_positive;
    unfold Spec.completion_rate;
    apply round_times_100;
    rewrite !Qred_correct; reflexivity.
Qed.

Lemma getCourseAnalytics_run (supabase : Supabase) (courseId : Id)
    (w : World) :
  getCourseAnalytics supabase courseId w =
  (Return
     (respond 200
        (Success
           (course_analytics
              (Some (List.filter (of_course courseId)
                       (Store.enrollments (db w))))
              (Some (List.filter (for_course courseId)
                       (Store.assignments (db w))))
              (Some (List.filter (in_course courseId (db w))
                       (Store.submissions (db w))))))),
   w).
Proof. reflexivity. Qed.

End AnalyticsFacts.

Section AverageGradeFacts.

Import AnalyticsService.
Local Open Scope Q_scope.

Lemma omap_grade_graded (l : list Submission.t) :
  omap Submission.grade (List.filter graded l) = omap Submission.grade l.
Proof.
  induction l as [|s l IH]; [reflexivity|].
  cbn [List.filter]. unfold graded at 1.
  destruct (Submission.grade s) as [g|] eqn:E.
  - change (omap Submission.grade (s :: List.filter graded l))
      with (match Submission.grade s with
            | Some y => y :: omap Submission.grade (List.filter graded l)
            | None => omap Submission.grade (List.filter graded l)
            end).
    change (omap Submission.grade (s :: l))
      with (match Submission.grade s with
            | Some y => y :: omap Submission.grade l
            | None => omap Submission.grade l
            end).
    rewrite E, IH. reflexivity.
  - change (omap Submission.grade (s :: l))
      with (match Submission.grade s with
            | Some y => y :: omap Submission.grade l
            | None => omap Submission.grade l
            end).
    rewrite E. exact IH.
Qed.

Lemma length_graded (l : list Submission.t) :
  length (List.filter graded l) = length (omap Submission.grade l).
Proof.
  induction l as [|s l IH]; [reflexivity|].
  cbn [List.filter]. unfold graded at 1.
  change (omap Submission.grade (s :: l))
    with (match Submission.grade s with
          | Some y => y :: omap Submission.grade l
          | None => omap Submission.grade l
          end).
  destruct (Submission.grade s); cbn [length]; congruence.
Qed.

End AverageGradeFacts.

(** ** analytics-service in the arithmetic of the engine *)

Section DoubleAnalyticsFacts.

Lemma getCourseAnalytics_double_run (supabase : Supabase) (courseId : Id)
    (w : World) :
  DoubleAnalytics.getCourseAnalytics supabase courseId w =
  (Return
     (respond 200
        (Success
           (DoubleAnalytics.course_analytics
              (Some (List.filter (AnalyticsService.of_course courseId)
                       (Store.enrollments (db w))))
              (Some (List.filter (AnalyticsService.for_course courseId)
                       (Store.assignments (db w))))
              (Some (List.filter (AnalyticsService.in_course courseId (db w))
                       (Store.submissions (db w))))))),
   w).
Proof. reflexivity. Qed.

Lemma length_or_count {A : Type} (xs : option (list A)) :
  Js.length_or xs (Js.of_Z 1) =
  DoubleSpec.count
    (match length (default [] xs) with
     | O => 1
     | S n => S n
     end).
Proof.
  destruct xs as [l|]; [|reflexivity].
  rewrite length_or_Some. change (default [] (Some l)) with l.
  destruct (length l) eqn:E; [reflexivity|].
  unfold Js.len. rewrite E. reflexivity.
Qed.

Lemma course_analytics_double_completion_rate
    (enrollments : option (list Enrollment.t))
    (assignments : option (list Assignment.t))
    (submissions : option (list Submission.t)) :
  AnalyticsService.completion_rate
    (DoubleAnalytics.course_analytics enrollments assignments submissions) =
  DoubleSpec.completion_rate
    (length (List.filter AnalyticsService.graded (default [] submissions)))
    (length (default [] enrollments))
    (length (default [] assignments)).
Proof.
  unfold DoubleAnalytics.course_analytics.
  cbn [AnalyticsService.completion_rate].
  replace (match submissions with
           | Some l => List.filter AnalyticsService.graded l
           | None => []
           end)
    with (List.filter AnalyticsService.graded (default [] submissions))
    by (destruct submissions; reflexivity).
  destruct assignments as [l|]; [|reflexivity].
  rewrite gt_len_0. change (default [] (Some l)) with l.
  destruct l as [|a l]; [reflexivity|]. cbn [length Nat.eqb negb].
  rewrite length_or_count. unfold DoubleSpec.completion_rate.
  destruct (length (default [] enrollments)); reflexivity.
Qed.

(** The reduce over the graded submissions adds up the non-null grades. *)
Lemma reduce_grades_double (l : list Submission.t) (sum : Js.Number) :
  fold_left (fun sum s => Binary64.add sum (DoubleAnalytics.grade_operand s))
    (List.filter AnalyticsService.graded l) sum =
  fold_left (fun sum g => Binary64.add sum (Binary64.of_Q g))
    (omap Submission.grade l) sum.
Proof.
  revert sum. induction l as [|s l IH]; intros sum; [reflexivity|].
  cbn [List.filter]. unfold AnalyticsService.graded at 1.
  change (omap Submission.grade (s :: l))
    with (match Submission.grade s with
          | Some y => y :: omap Submission.grade l
          | None => omap Submission.grade l
          end).
  destruct (Submission.grade s) as [g|] eqn:E; [|apply IH].
  cbn [fold_left]. unfold DoubleAnalytics.grade_operand at 2. rewrite E.
  apply IH.
Qed.

Lemma course_analytics_double_average_grade
    (enrollments : option (list Enrollment.t))
    (assignments : option (list Assignment.t))
    (submissions : option (list Submission.t)) :
  AnalyticsService.average_grade
    (DoubleAnalytics.course_analytics enrollments assignments submissions) =
  DoubleSpec.average_grade (omap Submission.grade (default [] submissions)).
Proof.
  unfold DoubleAnalytics.course_analytics.
  cbn [AnalyticsService.average_grade].
  replace (match submissions with
           | Some l => List.filter AnalyticsService.graded l
           | None => []
           end)
    with (List.filter AnalyticsService.graded (default [] submissions))
    by (destruct submissions; reflexivity).
  set (subs := default [] submissions).
  rewrite gt_len_0, reduce_grades_double. unfold Js.len.
  rewrite length_graded. unfold DoubleSpec.average_grade.
  destruct (omap Submission.grade subs) as [|g gs]; reflexivity.
Qed.

End DoubleAnalyticsFacts.

(** C1. For every course-analytics request the handler answers 200 with
    analytics whose completion_rate is
    Math.round(graded_count / (enrollment_count, or 1 when that is zero)
               / assignment_count * 100),
    the two divisions and the product each rounded to the nearest double,
    when the course has at least one assignment, and 0 when it has none
    ([DoubleSpec.completion_rate]); the counts are those of the enrollments
    and assignments of the course and of the graded submissions to them.
    With one graded submission of four (two enrollments, two assignments)
    this is 25; with 23 graded, 10 enrollments and 4 assignments it is
    57. *)
Theorem getCourseAnalytics_completion_rate
    (supabase : Supabase) (courseId : Id) (w : World) :
  let graded_count :=
    length
      (List.filter AnalyticsService.graded
         (List.filter (AnalyticsService.in_course courseId (db w))
            (Store.submissions (db w)))) in
  let enrollment_count :=
    length
      (List.filter (AnalyticsService.of_course courseId)
         (Store.enrollments (db w))) in
  let assignment_count :=
    length
      (List.filter (AnalyticsService.for_course courseId)
         (Store.assignments (db w))) in
  (exists analytics : AnalyticsService.CourseAnalytics,
     DoubleAnalytics.getCourseAnalytics supabase courseId w =
       (Return (respond 200 (Success analytics)), w)
     /\ AnalyticsService.completion_rate analytics =
        DoubleSpec.completion_rate graded_count enrollment_count
          assignment_count
     /\ (assignment_count = 0%nat ->
         AnalyticsService.completion_rate analytics = Js.of_Z 0)
     /\ (assignment_count <> 0%nat ->
         AnalyticsService.completion_rate analytics =
         Js.Math_round
           (Binary64.mul
              (Binary64.div
                 (Binary64.div (DoubleSpec.count graded_count)
                    (DoubleSpec.count
                       (if Nat.eqb enrollment_count 0 then 1%nat
                        else enrollment_count)))
                 (DoubleSpec.count assignment_count))
              (Js.of_Z 100))))
  /\ DoubleSpec.completion_rate 1 2 2 = Js.of_Z 25
  /\ DoubleSpec.completion_rate 23 10 4 = Js.of_Z 57.
Proof.
  cbv zeta. split; [|split; vm_compute; reflexivity].
  eexists. split; [apply getCourseAnalytics_double_run|].
  rewrite course_analytics_double_completion_rate.
  change (default [] (Some ?l)) with l.
  split; [reflexivity|]. split.
  - intros ->. reflexivity.
  - intros Hne. unfold DoubleSpec.completion_rate.
    destruct (length (List.filter (AnalyticsService.for_course courseId) _))
      as [|a]; [destruct (Hne eq_refl)|].
    destruct (length (List.filter (AnalyticsService.of_course courseId) _));
      reflexivity.
Qed.

(** C1 as first stated fails: with 23 graded submissions, 10 enrollments
    and 4 assignments the percentage is 57.5, which rounds to 58, and the
    handler answers 57, the doubles of 23 / 10 / 4 * 100 ending below the
    half. *)
Lemma getCourseAnalytics_completion_rate_counterexample :
  exists analytics : AnalyticsService.CourseAnalytics,
    DoubleAnalytics.getCourseAnalytics Example.supabase "c1"
      (Example.world Cases.half_marked) =
      (Return (respond 200 (Success analytics)),
       Example.world Cases.half_marked)
    /\ AnalyticsService.graded_submissions analytics = Js.of_Z 23
    /\ AnalyticsService.total_students analytics = Js.of_Z 10
    /\ AnalyticsService.total_assignments analytics = Js.of_Z 4
    /\ AnalyticsService.completion_rate analytics = Js.of_Z 57
    /\ Spec.completion_rate 23 10 4 = 58%Z
    /\ AnalyticsService.completion_rate analytics
       <> Js.of_Z (Spec.completion_rate 23 10 4).
Proof.
  eexists. split; [apply getCourseAnalytics_double_run|].
  repeat (split; [vm_compute; reflexivity|]).
  vm_compute. discriminate.
Qed.

(** C2. For every course-analytics request the handler answers 200 with
    analytics whose average_grade is Math.round(mean * 100) / 100, the mean
    being the non-null grades of the submissions of the course added up in
    their order and divided by their number, every operation rounded to the
    nearest double, and 0 when no submission is graded
    ([DoubleSpec.average_grade]); for the grades 70, 80 and 90 it is 80. *)
Theorem getCourseAnalytics_average_grade
    (supabase : Supabase) (courseId : Id) (w : World) :
  let grades :=
    omap Submission.grade
      (List.filter (AnalyticsService.in_course courseId (db w))
         (Store.submissions (db w))) in
  (exists analytics : AnalyticsService.CourseAnalytics,
     DoubleAnalytics.getCourseAnalytics supabase courseId w =
       (Return (respond 200 (Success analytics)), w)
     /\ AnalyticsService.average_grade analytics =
        DoubleSpec.average_grade grades
     /\ (grades = [] ->
         AnalyticsService.average_grade analytics = Js.of_Z 0)
     /\ (grades <> [] ->
         AnalyticsService.average_grade analytics =
         Binary64.div
           (Js.Math_round
              (Binary64.mul
                 (Binary64.div (DoubleSpec.total grades)
                    (DoubleSpec.count (length grades)))
                 (Js.of_Z 100)))
           (Js.of_Z 100)))
  /\ (exists analytics : AnalyticsService.CourseAnalytics,
        DoubleAnalytics.getCourseAnalytics Example.supabase "c1"
          (Example.world Example.three_grades) =
          (Return (respond 200 (Success analytics)),
           Example.world Example.three_grades)
        /\ AnalyticsService.average_grade analytics = Js.of_Z 80).
Proof.
  cbv zeta. split.
  - eexists. split; [apply getCourseAnalytics_double_run|].
    rewrite course_analytics_double_average_grade.
    change (default [] (Some ?l)) with l.
    split; [reflexivity|]. split.
    + intros ->. reflexivity.
    + intros Hne.
      destruct (omap Submission.grade _) as [|g gs];
        [destruct (Hne eq_refl)|reflexivity].
  - eexists. split; [apply getCourseAnalytics_double_run|].
    vm_compute. reflexivity.
Qed.

(** C2 as first stated fails: the mean of 23 grades of 1 and 17 of 0 is
    0.575, which is 0.58 to two decimals, and the handler answers 0.57,
    the double of 23 / 40 times 100 ending below 57.5. *)
Lemma getCourseAnalytics_average_grade_counterexample :
  exists analytics : AnalyticsService.CourseAnalytics,
    DoubleAnalytics.getCourseAnalytics Example.supabase "c1"
      (Example.world Cases.pass_fail) =
      (Return (respond 200 (Success analytics)), Example.world Cases.pass_fail)
    /\ omap Submission.grade (Store.submissions Cases.pass_fail) =
       (repeat (1 # 1)%Q 23 ++ repeat (0 # 1)%Q 17)%list
    /\ AnalyticsService.average_grade analytics = Binary64.of_Q (57 # 100)
    /\ (Spec.average_grade (repeat (1 # 1)%Q 23 ++ repeat (0 # 1)%Q 17)
        == 58 # 100)%Q
    /\ AnalyticsService.average_grade analytics <> Binary64.of_Q (58 # 100).
Proof.
  eexists. split; [apply getCourseAnalytics_double_run|].
  repeat (split; [vm_compute; reflexivity|]).
  vm_compute. discriminate.
Qed.

(** C8. A system-metrics request made when every entity table is empty
    is answered 200 with [success] and each of the six counts
    (total_courses, total_students, total_lecturers, total_assignments,
    total_submissions, total_enrollments) equal to the number 0; nothing is
    thrown and no count is null. *)
Theorem getSystemMetrics_empty (supabase : Supabase) (w : World) :
  Store.courses (db w) = [] ->
  Store.user_roles (db w) = [] ->
  Store.assignments (db w) = [] ->
  Store.submissions (db w) = [] ->
  Store.enrollments (db w) = [] ->
  AnalyticsService.getSystemMetrics supabase w =
  (Return
     (respond 200
        (Success
           {| AnalyticsService.total_courses := Js.of_Z 0;
              AnalyticsService.metrics_total_students := Js.of_Z 0;
              AnalyticsService.total_lecturers := Js.of_Z 0;
              AnalyticsService.metrics_total_assignments := Js.of_Z 0;
              AnalyticsService.metrics_total_submissions := Js.of_Z 0;
              AnalyticsService.total_enrollments := Js.of_Z 0 |})),
   w).
Proof.
  intros Hc Hr Ha Hs He.
  unfold AnalyticsService.getSystemMetrics, select, mbind, M_bind, bind.
  rewrite Hc, Hr, Ha, Hs, He. reflexivity.
Qed.

Lemma getSystemMetrics_empty_witness :
  AnalyticsService.getSystemMetrics Example.supabase
    (Example.world Example.empty_store) =
  (Return
     (respond 200
        (Success
           {| AnalyticsService.total_courses := Js.of_Z 0;
              AnalyticsService.metrics_total_students := Js.of_Z 0;
              AnalyticsService.total_lecturers := Js.of_Z 0;
              AnalyticsService.metrics_total_assignments := Js.of_Z 0;
              AnalyticsService.metrics_total_submissions := Js.of_Z 0;
              AnalyticsService.total_enrollments := Js.of_Z 0 |})),
   Example.world Example.empty_store).
Proof.
  apply (getSystemMetrics_empty Example.supabase
           (Example.world Example.empty_store)); reflexivity.
Defined.

(** ** The data layer *)

Section DataLayerFacts.

Context (supabase : Supabase).

Lemma bind_run {A B : Type} (c : M A) (k : A -> M B) (w : World) :
  (c ≫= k) w =
  match c w with
  | (Return a, w') => k a w'
  | (Throw e, w') => (Throw e, w')
  end.
Proof. reflexivity. Qed.

Lemma write_accepted {A : Type} (wr : Write)
    (apply : Store.t -> Query.Result A * Store.t) (w : World) :
  policy supabase wr (db w) = None ->
  write supabase wr apply w =
  (Return (fst (apply (db w))), with_db (snd (apply (db w))) (log wr w)).
Proof.
  intros H. unfold write. rewrite H. destruct (apply (db w)); reflexivity.
Qed.

Lemma write_refused {A : Type} (wr : Write)
    (apply : Store.t -> Query.Result A * Store.t) (w : World) (e : ErrorMsg) :
  policy supabase wr (db w) = Some e ->
  write supabase wr apply w = (Return (Query.failed e), log wr w).
Proof. intros H. unfold write. rewrite H. reflexivity. Qed.

Lemma for_each_send {A : Type} (f : A -> Notification.t) (xs : list A)
    (w : World) :
  AssignmentService.for_each xs (fun x => send_notification (f x)) w =
  (Return tt,
   {| db := db w; outbox := outbox w ++ map f xs; journal := journal w |}).
Proof.
  revert w. induction xs as [|x xs IH]; intros w.
  - cbn. rewrite app_nil_r. destruct w; reflexivity.
  - cbn [AssignmentService.for_each]. rewrite bind_run.
    unfold send_notification at 1. rewrite IH. cbn [db outbox journal map].
    rewrite <- app_assoc. reflexivity.
Qed.

End DataLayerFacts.

(** ** assignment-service *)

Section AssignmentFacts.

Import AssignmentService.
Context (supabase : Supabase).

(** The row [createAssignment] inserts. *)
Lemma createAssignment_run (data : CreateData) (w : World) :
  policy supabase (InsertAssignment (new_assignment data)) (db w) = None ->
  exists w' : World,
    createAssignment supabase data w =
      (Return
         (respond 200
            (Success
               {| Assignment.id := fresh_id supabase (db w);
                  Assignment.title := title data;
                  Assignment.description := description data;
                  Assignment.course_id := course_id data;
                  Assignment.due_date := due_date data;
                  Assignment.max_grade :=
                    Js.or (max_grade data) (Js.Numeric (Js.of_Z 100));
                  Assignment.created_by := created_by data |})),
       w')
    /\ Store.assignments (db w') =
       (Store.assignments (db w)
        ++ [{| Assignment.id := fresh_id supabase (db w);
               Assignment.title := title data;
               Assignment.description := description data;
               Assignment.course_id := course_id data;
               Assignment.due_date := due_date data;
               Assignment.max_grade :=
                 Js.or (max_grade data) (Js.Numeric (Js.of_Z 100));
               Assignment.created_by := created_by data |}])%list.
Proof.
  intros Hpol. unfold createAssignment.
  rewrite bind_run. unfold insert_assignment.
  rewrite (write_accepted supabase _ _ _ Hpol). cbn [fst snd].
  rewrite bind_run. cbn [throw_on_error Query.error Query.ok mret M_ret ret].
  rewrite bind_run. cbn [row_of Query.data Query.ok mret M_ret ret].
  rewrite bind_run. unfold select at 1. cbn [Query.data Query.ok].
  rewrite bind_run.
  match goal with
  | |- context [Js.gt (Js.len ?l) _] => destruct (Js.gt (Js.len l) (Js.of_Z 0))
  end.
  - rewrite for_each_send. eexists. split; [reflexivity|reflexivity].
  - eexists. split; [reflexivity|reflexivity].
Qed.

End AssignmentFacts.

(** C10. A create-assignment request whose max_grade is absent or falsy
    (undefined, null, the number 0, ...) inserts the assignment with
    max_grade 100, and one whose max_grade is truthy stores the value as
    given; this is what the request inserts whenever the data layer accepts
    the write. *)
Theorem createAssignment_max_grade
    (supabase : Supabase) (data : AssignmentService.CreateData) (w : World) :
  policy supabase (InsertAssignment (AssignmentService.new_assignment data))
    (db w) = None ->
  (exists (assignment : Assignment.t) (w' : World),
     AssignmentService.createAssignment supabase data w =
       (Return (respond 200 (Success assignment)), w')
     /\ Store.assignments (db w') =
        (Store.assignments (db w) ++ [assignment])%list
     /\ (Js.truthy (AssignmentService.max_grade data) = false ->
         Assignment.max_grade assignment = Js.Numeric (Js.of_Z 100))
     /\ (Js.truthy (AssignmentService.max_grade data) = true ->
         Assignment.max_grade assignment = AssignmentService.max_grade data))
  /\ Js.truthy Js.Undefined = false
  /\ Js.truthy Js.Null = false
  /\ Js.truthy (Js.Numeric (Js.of_Z 0)) = false.
Proof.
  intros Hpol. split; [|repeat split].
  destruct (createAssignment_run supabase data w Hpol) as (w' & Hrun & Hdb).
  eexists. exists w'. split; [exact Hrun|]. split; [exact Hdb|].
  cbn [Assignment.max_grade]. unfold Js.or.
  split; intros ->; reflexivity.
Qed.

Lemma createAssignment_max_grade_witness :
  exists (assignment : Assignment.t) (w' : World),
    AssignmentService.createAssignment Example.supabase Example.ungraded_quiz
      (Example.world Example.three_grades) =
      (Return (respond 200 (Success assignment)), w')
    /\ Assignment.max_grade assignment = Js.Numeric (Js.of_Z 100).
Proof.
  destruct (createAssignment_max_grade Example.supabase Example.ungraded_quiz
              (Example.world Example.three_grades) eq_refl)
    as [(a & w' & Hrun & _ & Hfalsy & _) _].
  exists a, w'. split; [exact Hrun|]. apply Hfalsy. reflexivity.
Defined.

(** ** Existence checks by [.single()] *)

Section SingleFacts.

Context {A : Type} (pair : A -> bool).

Lemma existsb_filter_nil (rows : list A) :
  existsb pair rows = false <-> List.filter pair rows = [].
Proof.
  induction rows as [|r rows IH]; cbn; [tauto|].
  destruct (pair r); cbn; [split; discriminate|exact IH].
Qed.

Lemma at_most_one_cases (rows : list A) :
  Spec.at_most_one pair rows ->
  (existsb pair rows = false /\ List.filter pair rows = [])
  \/ (existsb pair rows = true /\ exists r, List.filter pair rows = [r]).
Proof.
  unfold Spec.at_most_one. intros H.
  destruct (List.filter pair rows) as [|r [|r' rest]] eqn:E.
  - left. split; [apply existsb_filter_nil|]; trivial.
  - right. split; [|eauto].
    destruct (existsb pair rows) eqn:Ex; [reflexivity|].
    apply existsb_filter_nil in Ex. congruence.
  - cbn in H. lia.
Qed.

Lemma filter_snoc_hit (rows : list A) (r : A) :
  pair r = true ->
  List.filter pair (rows ++ [r]) = (List.filter pair rows ++ [r])%list.
Proof. intros H. rewrite List.filter_app. cbn. rewrite H. reflexivity. Qed.

End SingleFacts.

(** ** enrollment-service *)

Section EnrollmentFacts.

Import EnrollmentService.
Context (supabase : Supabase).

(** Every path of [enrollStudent]. *)
Lemma enrollStudent_run (data : EnrollData) (w : World) :
  enrollStudent supabase data w =
  match List.filter (same_pair data) (Store.enrollments (db w)) with
  | [_] => (Return (respond 400 (Failure duplicate)), w)
  | _ =>
      let wr := InsertEnrollment (student_id data) (course_id data) "active" in
      match policy supabase wr (db w) with
      | Some e => (Throw e, log wr w)
      | None =>
          let row :=
            {| Enrollment.id := fresh_id supabase (db w);
               Enrollment.student_id := student_id data;
               Enrollment.course_id := course_id data;
               Enrollment.status := "active";
               Enrollment.enrolled_at := db_now supabase |} in
          (Return (respond 200 (Success row)),
           {| db := Store.with_enrollments
                      (Store.enrollments (db w) ++ [row]) (db w);
              outbox :=
                outbox w
                ++ [enrolled_notice data
                      (Query.data
                         (Query.single
                            (List.filter
                               (fun c =>
                                  String.eqb (Course.id c) (course_id data))
                               (Store.courses (db w)))))];
              journal := journal w ++ [wr] |})
      end
  end.
Proof.
  unfold enrollStudent. rewrite bind_run. unfold select_single at 1.
  destruct (List.filter (same_pair data) (Store.enrollments (db w)))
    as [|e [|e' rest]];
    cbn [Query.single Query.data Query.ok Query.failed];
    try reflexivity;
    rewrite bind_run; unfold insert_enrollment; cbv zeta;
    (destruct (policy supabase
                 (InsertEnrollment (student_id data) (course_id data) "active")
                 (db w)) as [err|] eqn:Hpol;
     [rewrite (write_refused supabase _ _ _ _ Hpol)
     |rewrite (write_accepted supabase _ _ _ Hpol)]);
    reflexivity.
Qed.

End EnrollmentFacts.

(** C3 (amended). On a table with at most one enrollment per (student,
    course) pair: if an enrollment of any status exists for the pair of
    the request, [enrollStudent] answers 400 with the duplicate error and
    leaves the world as it was (nothing is inserted); if none exists and the
    data layer accepts the write, it appends exactly one enrollment for the
    pair, with status active, and answers 200 with it.  In particular,
    after a call that returned, a second call for the same pair fails with
    the duplicate error, changes nothing, and the table holds exactly one
    enrollment for the pair. *)
Theorem enrollStudent_duplicate_check
    (supabase : Supabase) (data : EnrollmentService.EnrollData) (w : World) :
  Spec.at_most_one (EnrollmentService.same_pair data)
    (Store.enrollments (db w)) ->
  (existsb (EnrollmentService.same_pair data) (Store.enrollments (db w))
     = true ->
   EnrollmentService.enrollStudent supabase data w =
   (Return (respond 400 (Failure EnrollmentService.duplicate)), w))
  /\ (existsb (EnrollmentService.same_pair data) (Store.enrollments (db w))
        = false ->
      policy supabase
        (InsertEnrollment (EnrollmentService.student_id data)
           (EnrollmentService.course_id data) "active") (db w) = None ->
      exists (row : Enrollment.t) (w' : World),
        EnrollmentService.enrollStudent supabase data w =
          (Return (respond 200 (Success row)), w')
        /\ Store.enrollments (db w') =
           (Store.enrollments (db w) ++ [row])%list
        /\ Enrollment.status row = "active"
        /\ Enrollment.student_id row = EnrollmentService.student_id data
        /\ Enrollment.course_id row = EnrollmentService.course_id data)
  /\ (forall (first : Response Enrollment.t) (w1 : World),
        EnrollmentService.enrollStudent supabase data w = (Return first, w1) ->
        EnrollmentService.enrollStudent supabase data w1 =
          (Return (respond 400 (Failure EnrollmentService.duplicate)), w1)
        /\ length
             (List.filter (EnrollmentService.same_pair data)
                (Store.enrollments (db w1))) = 1%nat).
Proof.
  intros Huniq.
  destruct (at_most_one_cases _ _ Huniq) as [[Hex Hnil]|[Hex [r Hone]]];
    rewrite Hex; (split; [|split]).
  - discriminate.
  - intros _ Hpol. rewrite enrollStudent_run, Hnil. cbv zeta. rewrite Hpol.
    eexists. eexists. split; [reflexivity|]. cbn. repeat split.
  - intros first w1. rewrite enrollStudent_run, Hnil. cbv zeta.
    destruct (policy supabase _ (db w)); [discriminate|].
    intros [= _ <-]. rewrite enrollStudent_run.
    cbn [db Store.with_enrollments Store.enrollments].
    rewrite filter_snoc_hit, Hnil.
    + split; reflexivity.
    + unfold EnrollmentService.same_pair. cbn.
      rewrite !String.eqb_refl. reflexivity.
  - intros _. rewrite enrollStudent_run, Hone. reflexivity.
  - discriminate.
  - intros first w1. rewrite enrollStudent_run, Hone. intros [= _ <-].
    rewrite enrollStudent_run, Hone. split; reflexivity.
Qed.

Lemma enrollStudent_duplicate_check_witness :
  EnrollmentService.enrollStudent Example.supabase Example.enroll_s1
    (Example.world Example.three_grades) =
  (Return (respond 400 (Failure EnrollmentService.duplicate)),
   Example.world Example.three_grades).
Proof.
  refine (proj1
            (enrollStudent_duplicate_check Example.supabase Example.enroll_s1
               (Example.world Example.three_grades) _) _).
  - unfold Spec.at_most_one. vm_compute. lia.
  - reflexivity.
Defined.

(** C3 as first stated fails: the only enrollment of the pair is not
    active, and the request is answered with the duplicate error and
    inserts nothing. *)
Lemma enrollStudent_inactive_counterexample :
  existsb
    (fun e =>
       EnrollmentService.same_pair Example.enroll_s1 e
       && String.eqb (Enrollment.status e) "active")
    (Store.enrollments Example.dropped_out) = false
  /\ EnrollmentService.enrollStudent Example.supabase Example.enroll_s1
       (Example.world Example.dropped_out) =
     (Return (respond 400 (Failure EnrollmentService.duplicate)),
      Example.world Example.dropped_out).
Proof. split; reflexivity. Qed.


(** ** submission-service *)

Section SubmissionFacts.

Import SubmissionService.
Context (supabase : Supabase).

(** Every path of [createSubmission]. *)
Lemma createSubmission_run (data : CreateData) (w : World) :
  createSubmission supabase data w =
  match List.filter (same_pair data) (Store.submissions (db w)) with
  | [_] => (Return (respond 400 (Failure duplicate)), w)
  | _ =>
      let wr := InsertSubmission (assignment_id data) (student_id data)
                  (content data) (file_url data) in
      match policy supabase wr (db w) with
      | Some e => (Throw e, log wr w)
      | None =>
          let row :=
            {| Submission.id := fresh_id supabase (db w);
               Submission.assignment_id := assignment_id data;
               Submission.student_id := student_id data;
               Submission.content := content data;
               Submission.file_url := file_url data;
               Submission.grade := None;
               Submission.feedback := None;
               Submission.graded_by := None;
               Submission.graded_at := None;
               Submission.submitted_at := db_now supabase |} in
          (Return (respond 200 (Success row)),
           {| db := Store.with_submissions
                      (Store.submissions (db w) ++ [row]) (db w);
              outbox :=
                outbox w
                ++ match lecturer_of
                           (Query.single
                              (map (fun a => (a, course_of (db w) a))
                                 (List.filter
                                    (fun a =>
                                       String.eqb (Assignment.id a)
                                         (assignment_id data))
                                    (Store.assignments (db w))))) with
                   | Some (a, lecturer) => [submitted_notice a lecturer]
                   | None => []
                   end;
              journal := journal w ++ [wr] |})
      end
  end.
Proof.
  unfold createSubmission. rewrite bind_run. unfold select_single at 1.
  destruct (List.filter (same_pair data) (Store.submissions (db w)))
    as [|e [|e' rest]];
    cbn [Query.single Query.data Query.ok Query.failed];
    try reflexivity;
    rewrite bind_run; unfold insert_submission; cbv zeta;
    (destruct (policy supabase
                 (InsertSubmission (assignment_id data) (student_id data)
                    (content data) (file_url data))
                 (db w)) as [err|] eqn:Hpol;
     [rewrite (write_refused supabase _ _ _ _ Hpol); reflexivity
     |rewrite (write_accepted supabase _ _ _ Hpol)]);
    cbn [fst snd];
    rewrite bind_run;
    cbn [throw_on_error Query.error Query.ok mret M_ret ret];
    rewrite bind_run;
    cbn [row_of Query.data Query.ok mret M_ret ret];
    rewrite bind_run; unfold select_assignment_with_course at 1;
    rewrite bind_run;
    cbn [db with_db log Store.with_submissions Store.assignments];
    unfold course_of; cbn [Store.courses Store.with_submissions];
    fold (course_of (db w));
    match goal with
    | |- context [lecturer_of ?r] => destruct (lecturer_of r) as [[a l]|]
    end;
    cbn [send_notification mret M_ret ret db outbox journal with_db log];
    rewrite ?app_nil_r; reflexivity.
Qed.

End SubmissionFacts.

(** On a table with at most one submission per (student, assignment)
    pair [createSubmission] rejects a duplicate: if a submission exists for
    the pair of the request, it answers 400 with the duplicate error and
    leaves the world as it was (nothing is inserted); if none exists and
    the data layer accepts the write, it appends exactly one submission and
    answers 200 with it.  In particular, after a call that returned, a
    second call for the same pair fails with the duplicate error, changes
    nothing, and the table holds exactly one submission for the pair. *)
Theorem createSubmission_duplicate_check
    (supabase : Supabase) (data : SubmissionService.CreateData) (w : World) :
  Spec.at_most_one (SubmissionService.same_pair data)
    (Store.submissions (db w)) ->
  (existsb (SubmissionService.same_pair data) (Store.submissions (db w))
     = true ->
   SubmissionService.createSubmission supabase data w =
   (Return (respond 400 (Failure SubmissionService.duplicate)), w))
  /\ (existsb (SubmissionService.same_pair data) (Store.submissions (db w))
        = false ->
      policy supabase
        (InsertSubmission (SubmissionService.assignment_id data)
           (SubmissionService.student_id data)
           (SubmissionService.content data)
           (SubmissionService.file_url data)) (db w) = None ->
      exists (row : Submission.t) (w' : World),
        SubmissionService.createSubmission supabase data w =
          (Return (respond 200 (Success row)), w')
        /\ Store.submissions (db w') =
           (Store.submissions (db w) ++ [row])%list
        /\ Submission.student_id row = SubmissionService.student_id data
        /\ Submission.assignment_id row = SubmissionService.assignment_id data
        /\ Submission.content row = SubmissionService.content data)
  /\ (forall (first : Response Submission.t) (w1 : World),
        SubmissionService.createSubmission supabase data w =
          (Return first, w1) ->
        SubmissionService.createSubmission supabase data w1 =
          (Return (respond 400 (Failure SubmissionService.duplicate)), w1)
        /\ length
             (List.filter (SubmissionService.same_pair data)
                (Store.submissions (db w1))) = 1%nat).
Proof.
  intros Huniq.
  destruct (at_most_one_cases _ _ Huniq) as [[Hex Hnil]|[Hex [r Hone]]];
    rewrite Hex; (split; [|split]).
  - discriminate.
  - intros _ Hpol. rewrite createSubmission_run, Hnil. cbv zeta. rewrite Hpol.
    eexists. eexists. split; [reflexivity|]. cbn. repeat split.
  - intros first w1. rewrite createSubmission_run, Hnil. cbv zeta.
    destruct (policy supabase _ (db w)); [discriminate|].
    intros [= _ <-]. rewrite createSubmission_run.
    cbn [db Store.with_submissions Store.submissions].
    rewrite filter_snoc_hit, Hnil.
    + split; reflexivity.
    + unfold SubmissionService.same_pair. cbn.
      rewrite !String.eqb_refl. reflexivity.
  - intros _. rewrite createSubmission_run, Hone. reflexivity.
  - discriminate.
  - intros first w1. rewrite createSubmission_run, Hone. intros [= _ <-].
    rewrite createSubmission_run, Hone. split; reflexivity.
Qed.

Lemma createSubmission_duplicate_check_witness :
  SubmissionService.createSubmission Example.supabase Example.submit_s1
    (Example.world Example.three_grades) =
  (Return (respond 400 (Failure SubmissionService.duplicate)),
   Example.world Example.three_grades).
Proof.
  refine (proj1
            (createSubmission_duplicate_check Example.supabase
               Example.submit_s1 (Example.world Example.three_grades) _) _).
  - unfold Spec.at_most_one. vm_compute. lia.
  - reflexivity.
Defined.

(** C4. The existence check of [createSubmission] misses the duplicate
    when the table already holds two or more submissions of the pair: the
    singular read then yields no row, and the handler, when the data layer
    accepts the write, answers 200 and appends one more submission of the
    pair, where a submission that exists for the pair calls for the 400
    duplicate error and no insert. *)
Theorem createSubmission_misses_duplicate
    (supabase : Supabase) (data : SubmissionService.CreateData) (w : World) :
  (2 <= length
          (List.filter (SubmissionService.same_pair data)
             (Store.submissions (db w))))%nat ->
  policy supabase
    (InsertSubmission (SubmissionService.assignment_id data)
       (SubmissionService.student_id data)
       (SubmissionService.content data)
       (SubmissionService.file_url data)) (db w) = None ->
  existsb (SubmissionService.same_pair data) (Store.submissions (db w))
    = true
  /\ exists (row : Submission.t) (w' : World),
       SubmissionService.createSubmission supabase data w =
         (Return (respond 200 (Success row)), w')
       /\ Store.submissions (db w') =
          (Store.submissions (db w) ++ [row])%list
       /\ Submission.student_id row = SubmissionService.student_id data
       /\ Submission.assignment_id row =
          SubmissionService.assignment_id data
       /\ length
            (List.filter (SubmissionService.same_pair data)
               (Store.submissions (db w'))) =
          S (length
               (List.filter (SubmissionService.same_pair data)
                  (Store.submissions (db w)))).
Proof.
  intros Htwo Hpol. split.
  - destruct (existsb _ _) eqn:E; [reflexivity|].
    apply existsb_filter_nil in E. rewrite E in Htwo. cbn in Htwo. lia.
  - rewrite createSubmission_run.
    destruct (List.filter (SubmissionService.same_pair data)
                (Store.submissions (db w))) as [|r [|r' rest]] eqn:E;
      [cbn in Htwo; lia|cbn in Htwo; lia|].
    cbv zeta. rewrite Hpol.
    eexists. eexists. split; [reflexivity|].
    cbn [db Store.with_submissions Store.submissions].
    split; [reflexivity|]. split; [reflexivity|]. split; [reflexivity|].
    rewrite filter_snoc_hit, E, length_app.
    + cbn [length]. lia.
    + unfold SubmissionService.same_pair. cbn.
      rewrite !String.eqb_refl. reflexivity.
Qed.

Lemma createSubmission_misses_duplicate_witness :
  map Submission.id
    (List.filter (SubmissionService.same_pair Example.submit_s1)
       (Store.submissions (db Cases.handed_in_twice))) = ["u1"; "row-7"]
  /\ exists (row : Submission.t) (w' : World),
       SubmissionService.createSubmission Example.supabase Example.submit_s1
         Cases.handed_in_twice =
         (Return (respond 200 (Success row)), w')
       /\ map Submission.id
            (List.filter (SubmissionService.same_pair Example.submit_s1)
               (Store.submissions (db w'))) = ["u1"; "row-7"; "row-8"].
Proof.
  split; [reflexivity|].
  destruct (createSubmission_misses_duplicate Example.supabase
              Example.submit_s1 Cases.handed_in_twice)
    as (_ & row & w' & Hrun & Hrows & _).
  - vm_compute. lia.
  - reflexivity.
  - exists row, w'. split; [exact Hrun|].
    rewrite Hrows. vm_compute in Hrun. injection Hrun as <- _.
    reflexivity.
Defined.

(** ** Updates of a submission *)

Section UpdateFacts.

Context (supabase : Supabase).

(** The row an update rewrites, and the table afterwards. *)
Lemma update_submission_run (id : Id) (patch : Submission.Patch) (w : World) :
  update_submission supabase id patch w =
  match policy supabase (UpdateSubmission id patch) (db w) with
  | Some e => (Return (Query.failed e), log (UpdateSubmission id patch) w)
  | None =>
      match List.filter (has_id id) (Store.submissions (db w)) with
      | [r] =>
          (Return (Query.ok (Submission.apply patch r)),
           {| db := Store.with_submissions
                      (map (fun r => if has_id id r
                                     then Submission.apply patch r else r)
                         (Store.submissions (db w))) (db w);
              outbox := outbox w;
              journal := journal w ++ [UpdateSubmission id patch] |})
      | _ =>
          (Return (Query.failed Query.not_single),
           log (UpdateSubmission id patch) w)
      end
  end.
Proof.
  unfold update_submission.
  destruct (policy supabase (UpdateSubmission id patch) (db w)) as [e|] eqn:H.
  - rewrite (write_refused supabase _ _ _ _ H). reflexivity.
  - rewrite (write_accepted supabase _ _ _ H).
    destruct (List.filter (has_id id) (Store.submissions (db w)))
      as [|r [|r' rest]]; reflexivity.
Qed.

Lemma updateSubmission_run (data : SubmissionService.UpdateData) (w : World)
    (r : Submission.t) :
  policy supabase
    (UpdateSubmission (SubmissionService.id data)
       (SubmissionService.updates data)) (db w) = None ->
  List.filter (has_id (SubmissionService.id data)) (Store.submissions (db w))
    = [r] ->
  SubmissionService.updateSubmission supabase data w =
  (Return
     (respond 200
        (Success (Submission.apply (SubmissionService.updates data) r))),
   {| db := Store.with_submissions
              (map (fun r => if has_id (SubmissionService.id data) r
                             then Submission.apply
                                    (SubmissionService.updates data) r
                             else r)
                 (Store.submissions (db w))) (db w);
      outbox := outbox w;
      journal :=
        journal w
        ++ [UpdateSubmission (SubmissionService.id data)
              (SubmissionService.updates data)] |}).
Proof.
  intros Hpol Hone. unfold SubmissionService.updateSubmission.
  rewrite bind_run, update_submission_run, Hpol, Hone. reflexivity.
Qed.

Lemma gradeSubmission_run (js : Runtime) (data : GradingService.GradeData)
    (w : World) (r : Submission.t) (a : Assignment.t) :
  policy supabase
    (UpdateSubmission (GradingService.submission_id data)
       (GradingService.grading_patch supabase data)) (db w) = None ->
  List.filter (has_id (GradingService.submission_id data))
    (Store.submissions (db w)) = [r] ->
  List.find
    (fun a => String.eqb (Assignment.id a) (Submission.assignment_id r))
    (Store.assignments (db w)) = Some a ->
  let graded :=
    Submission.apply (GradingService.grading_patch supabase data) r in
  GradingService.gradeSubmission js supabase data w =
  (Return (respond 200 (Success (graded, a))),
   {| db := Store.with_submissions
              (map (fun r => if has_id (GradingService.submission_id data) r
                             then Submission.apply
                                    (GradingService.grading_patch supabase
                                       data) r
                             else r)
                 (Store.submissions (db w))) (db w);
      outbox := outbox w ++ [GradingService.graded_notice js graded a];
      journal :=
        journal w
        ++ [UpdateSubmission (GradingService.submission_id data)
              (GradingService.grading_patch supabase data)] |}).
Proof.
  intros Hpol Hone Hfind. cbv zeta. unfold GradingService.gradeSubmission.
  rewrite bind_run, update_submission_run, Hpol, Hone.
  rewrite bind_run. cbn [throw_on_error Query.error Query.ok mret M_ret ret].
  rewrite bind_run. cbn [row_of Query.data Query.ok mret M_ret ret].
  rewrite bind_run. unfold GradingService.joined_assignment at 1.
  cbn [db Store.with_submissions Store.assignments Submission.apply
       Submission.assignment_id GradingService.grading_patch
       Submission.set_assignment_id default from_option id].
  cbn [id] in *. rewrite Hfind. reflexivity.
Qed.

End UpdateFacts.

(** ** grading-service *)



(** On a body that carries the three keys the write is the one of
    [GradingService]. *)
Lemma grading_patch_complete (supabase : Supabase)
    (data : GradingService.GradeData) :
  GradeRequest.grading_patch supabase (GradeRequest.complete data) =
  GradingService.grading_patch supabase data.
Proof.
  unfold GradeRequest.grading_patch, GradingService.grading_patch,
    GradeRequest.complete.
  cbn [GradeRequest.grade GradeRequest.feedback GradeRequest.graded_by].
  destruct (GradingService.grade data), (GradingService.feedback data);
    reflexivity.
Qed.




(** C6. A grade below 0 or above the assignment's max_grade is refused by
    the lecturer's page: [handleGrade] issues no update, changes nothing
    and reports the invalid-grade error.  The grading handler of the server
    has no such check: on an existing submission it writes whatever grade
    the request carries. *)
Theorem grade_range_checked_by_caller_only :
  (forall (js : Runtime) (supabase : Supabase) (user : option Id)
          (st : LecturerSubmissionsPage.State)
          (sub : LecturerSubmissionsPage.Submission)
          (a : LecturerSubmissionsPage.Assignment) (w : World),
     LecturerSubmissionsPage.gradingSubmission st = Some sub ->
     LecturerSubmissionsPage.assignment st = Some a ->
     Js.lt (parseInt js (LecturerSubmissionsPage.grade st)) (Js.of_Z 0) = true
     \/ Js.gt (parseInt js (LecturerSubmissionsPage.grade st))
          (Js.Num (LecturerSubmissionsPage.max_grade a)) = true ->
     LecturerSubmissionsPage.handleGrade js supabase user st w =
     (Return
        [LecturerSubmissionsPage.Toast "Invalid Grade"
           (Some ("Grade must be between 0 and "
                  +:+ number_to_string js
                        (Js.Num (LecturerSubmissionsPage.max_grade a))))
           true],
      w))
  /\ (forall (js : Runtime) (supabase : Supabase)
             (data : GradingService.GradeData) (w : World)
             (r : Submission.t) (a : Assignment.t),
        policy supabase
          (UpdateSubmission (GradingService.submission_id data)
             (GradingService.grading_patch supabase data)) (db w) = None ->
        List.filter (has_id (GradingService.submission_id data))
          (Store.submissions (db w)) = [r] ->
        List.find
          (fun a => String.eqb (Assignment.id a) (Submission.assignment_id r))
          (Store.assignments (db w)) = Some a ->
        exists (graded : Submission.t) (w' : World),
          GradingService.gradeSubmission js supabase data w =
            (Return (respond 200 (Success (graded, a))), w')
          /\ Submission.id graded = Submission.id r
          /\ Submission.grade graded = GradingService.grade data
          /\ In graded (Store.submissions (db w'))).
Proof.
  split.
  - intros js supabase user st sub a w Hsub Ha Hrange.
    unfold LecturerSubmissionsPage.handleGrade. rewrite Hsub, Ha. cbv zeta.
    replace (Js.isNaN (parseInt js (LecturerSubmissionsPage.grade st))
             || Js.lt (parseInt js (LecturerSubmissionsPage.grade st))
                  (Js.of_Z 0)
             || Js.gt (parseInt js (LecturerSubmissionsPage.grade st))
                  (Js.Num (LecturerSubmissionsPage.max_grade a)))
      with true; [reflexivity|].
    destruct Hrange as [-> | ->]; rewrite ?orb_true_r; reflexivity.
  - intros js supabase data w r a Hpol Hone Hfind.
    pose proof (gradeSubmission_run supabase js data w r a Hpol Hone Hfind)
      as Hrun.
    cbv zeta in Hrun.
    eexists. eexists. split; [exact Hrun|].
    split; [reflexivity|]. split; [reflexivity|].
    cbn [db Store.with_submissions Store.submissions].
    apply in_map_iff. exists r. split.
    + assert (Hin : In r [r]) by (left; reflexivity).
      rewrite <- Hone in Hin. apply filter_In in Hin as [_ ->]. reflexivity.
    + assert (Hin : In r [r]) by (left; reflexivity).
      rewrite <- Hone in Hin. apply filter_In in Hin as [Hin _]. exact Hin.
Qed.

Lemma grade_range_checked_by_caller_only_witness :
  LecturerSubmissionsPage.handleGrade Example.js Example.supabase
    (Some "lecturer-1") (Example.grading_dialog "150")
    (Example.world Example.three_grades) =
  (Return
     [LecturerSubmissionsPage.Toast "Invalid Grade"
        (Some "Grade must be between 0 and 100") true],
   Example.world Example.three_grades)
  /\ exists (graded : Submission.t) (w' : World),
       GradingService.gradeSubmission Example.js Example.supabase
         Example.grade_u1 (Example.world Example.three_grades) =
         (Return (respond 200 (Success (graded, Example.homework "a1"))), w')
       /\ Submission.grade graded = Some (150 # 1)
       /\ In graded (Store.submissions (db w')).
Proof.
  split.
  - apply (proj1 grade_range_checked_by_caller_only Example.js
             Example.supabase (Some "lecturer-1")
             (Example.grading_dialog "150") _ _
             (Example.world Example.three_grades) eq_refl eq_refl).
    right. reflexivity.
  - destruct (proj2 grade_range_checked_by_caller_only Example.js
                Example.supabase Example.grade_u1
                (Example.world Example.three_grades)
                (Example.handed_in "u1" "a1" "s1" (Some (70 # 1)))
                (Example.homework "a1") eq_refl eq_refl eq_refl)
      as (graded & w' & Hrun & _ & Hgrade & Hin).
    exists graded, w'. split; [exact Hrun|]. split; [exact Hgrade|exact Hin].
Defined.

(** ** Graded submissions *)

(** C9 (amended). Once the grade of a submission is non-null the student's
    submission page shows it read-only: [canEdit] is false, the text area
    is disabled and no submit button is rendered.  The update handler of the
    submission service makes no such check: on an existing submission,
    graded or not, it applies the requested changes whenever the data layer
    accepts the write. *)
Theorem graded_submission_locked_on_page_only :
  (forall (st : SubmissionPage.State) (s : SubmissionPage.Submission) (g : Q),
     SubmissionPage.submission st = Some s ->
     SubmissionPage.grade s = Some g ->
     SubmissionPage.canEdit st = false
     /\ forall (badge : option (Q * Q)) (fb : option string)
               (form : SubmissionPage.Form) (on : option Timestamp),
          SubmissionPage.render st = SubmissionPage.Page badge fb form on ->
          SubmissionPage.textarea_disabled form = true
          /\ SubmissionPage.submit_button form = None)
  /\ (forall (supabase : Supabase) (data : SubmissionService.UpdateData)
             (w : World) (r : Submission.t),
        policy supabase
          (UpdateSubmission (SubmissionService.id data)
             (SubmissionService.updates data)) (db w) = None ->
        List.filter (has_id (SubmissionService.id data))
          (Store.submissions (db w)) = [r] ->
        exists (changed : Submission.t) (w' : World),
          SubmissionService.updateSubmission supabase data w =
            (Return (respond 200 (Success changed)), w')
          /\ changed = Submission.apply (SubmissionService.updates data) r
          /\ In changed (Store.submissions (db w'))
          /\ forall text : string,
               Submission.set_content (SubmissionService.updates data)
                 = Some text ->
               Submission.content changed = text).
Proof.
  split.
  - intros st s g Hs Hg.
    assert (Hedit : SubmissionPage.canEdit st = false).
    { unfold SubmissionPage.canEdit, SubmissionPage.isGraded.
      rewrite Hs, Hg. reflexivity. }
    split; [exact Hedit|].
    intros badge fb form on. unfold SubmissionPage.render.
    destruct (SubmissionPage.loading st); [discriminate|].
    destruct (SubmissionPage.assignment st); [|discriminate].
    destruct (String.eqb _ _); [|discriminate].
    intros [= _ _ <- _]. cbn. rewrite Hedit. split; reflexivity.
  - intros supabase data w r Hpol Hone.
    eexists. eexists.
    split; [apply (updateSubmission_run supabase data w r Hpol Hone)|].
    split; [reflexivity|]. split.
    + cbn [db Store.with_submissions Store.submissions].
      assert (Hin : In r [r]) by (left; reflexivity).
      rewrite <- Hone in Hin. apply filter_In in Hin as [Hin Hid].
      apply in_map_iff. exists r. rewrite Hid. split; [reflexivity|exact Hin].
    + intros text Htext. cbn. rewrite Htext. reflexivity.
Qed.

Lemma graded_submission_locked_on_page_only_witness :
  SubmissionPage.canEdit Example.graded_page = false
  /\ exists (changed : Submission.t) (w' : World),
       SubmissionService.updateSubmission Example.supabase Example.rewrite_u1
         (Example.world Example.three_grades) =
         (Return (respond 200 (Success changed)), w')
       /\ In changed (Store.submissions (db w')).
Proof.
  split.
  - exact (proj1 (proj1 graded_submission_locked_on_page_only
                    Example.graded_page _ (70 # 1)%Q eq_refl eq_refl)).
  - destruct (proj2 graded_submission_locked_on_page_only Example.supabase
                Example.rewrite_u1 (Example.world Example.three_grades)
                (Example.handed_in "u1" "a1" "s1" (Some (70 # 1)%Q))
                eq_refl eq_refl)
      as (changed & w' & Hrun & _ & Hin & _).
    exists changed, w'. split; [exact Hrun|exact Hin].
Defined.

(** C9 as first stated fails: the submission u1 is graded, and an update
    request for it is answered 200 and replaces its content while the grade
    stays non-null. *)
Lemma updateSubmission_graded_counterexample :
  exists (original changed : Submission.t) (w' : World),
    In original (Store.submissions Example.three_grades)
    /\ Submission.grade original = Some (70 # 1)%Q
    /\ Submission.content original = "my answer"
    /\ SubmissionService.updateSubmission Example.supabase Example.rewrite_u1
         (Example.world Example.three_grades) =
       (Return (respond 200 (Success changed)), w')
    /\ In changed (Store.submissions (db w'))
    /\ Submission.id changed = Submission.id original
    /\ Submission.grade changed = Some (70 # 1)%Q
    /\ Submission.content changed = "rewritten after grading".
Proof.
  exists (Example.handed_in "u1" "a1" "s1" (Some (70 # 1)%Q)).
  eexists. eexists.
  split; [left; reflexivity|].
  split; [reflexivity|]. split; [reflexivity|].
  split; [reflexivity|].
  split; [left; reflexivity|].
  repeat split.
Qed.

(** ** The student-progress page *)

Section ProgressFacts.

Import StudentProgressPage.

Lemma submission_of_record (m : gmap string (gmap string (option Q)))
    (r : SubmissionRow.t) (student assignment : Id) :
  submission_of (record_submission m r) student assignment =
  if Spec.is_for student assignment r then Some (SubmissionRow.grade r)
  else submission_of m student assignment.
Proof.
  unfold submission_of, record_submission, Spec.is_for.
  destruct (String.eqb_spec (SubmissionRow.student_id r) student) as [Hs|Hs].
  - rewrite Hs, lookup_insert_eq. cbn [mbind option_bind andb].
    destruct (String.eqb_spec (SubmissionRow.assignment_id r) assignment)
      as [Ha|Ha].
    + rewrite Ha, lookup_insert_eq. reflexivity.
    + rewrite lookup_insert_ne by exact Ha.
      destruct (m !! student); [reflexivity|]. cbn. apply lookup_empty.
  - rewrite lookup_insert_ne by exact Hs. reflexivity.
Qed.

Lemma submission_of_fold (rows : list SubmissionRow.t)
    (m : gmap string (gmap string (option Q))) (student assignment : Id) :
  submission_of (fold_left record_submission rows m) student assignment =
  fold_left
    (fun found r =>
       if Spec.is_for student assignment r then Some (SubmissionRow.grade r)
       else found)
    rows (submission_of m student assignment).
Proof.
  revert m. induction rows as [|r rows IH]; intros m; [reflexivity|].
  cbn [fold_left]. rewrite IH, submission_of_record. reflexivity.
Qed.

Lemma mem_true (x : Id) (xs : list Id) : In x xs -> mem x xs = true.
Proof.
  intros H. unfold mem. apply existsb_exists. exists x.
  split; [exact H|apply String.eqb_refl].
Qed.

(** The filters of the query keep every row of a listed student for a
    listed assignment. *)
Lemma fold_fetch (assignmentIds studentIds : list Id)
    (table : list SubmissionRow.t) (student assignment : Id)
    (found : option (option Q)) :
  In student studentIds ->
  In assignment assignmentIds ->
  fold_left
    (fun found r =>
       if Spec.is_for student assignment r then Some (SubmissionRow.grade r)
       else found)
    (fetch_submissions assignmentIds studentIds table) found =
  fold_left
    (fun found r =>
       if Spec.is_for student assignment r then Some (SubmissionRow.grade r)
       else found)
    table found.
Proof.
  intros Hs Ha. revert found.
  induction table as [|r table IH]; intros found; [reflexivity|].
  unfold fetch_submissions in *. cbn [List.filter fold_left].
  destruct (mem (SubmissionRow.assignment_id r) assignmentIds
            && mem (SubmissionRow.student_id r) studentIds) eqn:Hkeep.
  - cbn [fold_left]. apply IH.
  - rewrite IH. f_equal.
    unfold Spec.is_for.
    destruct (String.eqb_spec (SubmissionRow.student_id r) student) as [E1|];
      [|reflexivity].
    destruct (String.eqb_spec (SubmissionRow.assignment_id r) assignment)
      as [E2|]; [|reflexivity].
    rewrite E1, E2, (mem_true _ _ Hs), (mem_true _ _ Ha) in Hkeep.
    discriminate.
Qed.

Lemma fold_found (table : list SubmissionRow.t) (student assignment : Id)
    (found : option (option Q)) :
  match fold_left
          (fun found r =>
             if Spec.is_for student assignment r
             then Some (SubmissionRow.grade r)
             else found)
          table found with
  | Some _ => true
  | None => false
  end =
  existsb (Spec.is_for student assignment) table
  || match found with
     | Some _ => true
     | None => false
     end.
Proof.
  revert found. induction table as [|r table IH]; intros found;
    [reflexivity|].
  cbn [fold_left existsb]. rewrite IH.
  destruct (Spec.is_for student assignment r); cbn.
  - rewrite orb_true_r. reflexivity.
  - reflexivity.
Qed.

End ProgressFacts.

Section ProgressReport.

Import StudentProgressPage.

Context (studentIds : list Id) (profiles : list Profile.t)
  (assignments : option (list AssignmentRow.t))
  (table : list SubmissionRow.t).

(** The map built from the fetched rows answers as the table does, for a
    listed student and an assignment of the course. *)
Lemma submissionsMap_lookup (student : Id) (a : AssignmentRow.t) :
  In student studentIds ->
  In a (default [] assignments) ->
  let assignmentIds := map AssignmentRow.id (default [] assignments) in
  submission_of
    (if Js.gt (Js.len assignmentIds) (Js.of_Z 0)
     then build_submissionsMap
            (fetch_submissions assignmentIds studentIds table)
     else ∅)
    student (AssignmentRow.id a) =
  fold_left
    (fun found r =>
       if Spec.is_for student (AssignmentRow.id a) r
       then Some (SubmissionRow.grade r)
       else found)
    table None.
Proof.
  intros Hs Ha. cbv zeta. rewrite gt_len_0, length_map.
  destruct (default [] assignments) as [|a0 l] eqn:E; [destruct Ha|].
  cbn [length Nat.eqb negb]. unfold build_submissionsMap.
  rewrite submission_of_fold, fold_fetch.
  - reflexivity.
  - exact Hs.
  - apply in_map. exact Ha.
Qed.

Lemma report_lines (student : Id) :
  In student studentIds ->
  let assignmentIds := map AssignmentRow.id (default [] assignments) in
  map (fun a =>
         let submission :=
           submission_of
             (if Js.gt (Js.len assignmentIds) (Js.of_Z 0)
              then build_submissionsMap
                     (fetch_submissions assignmentIds studentIds table)
              else ∅)
             student (AssignmentRow.id a) in
         {| Item.assignment_id := AssignmentRow.id a;
            Item.assignment_title := AssignmentRow.title a;
            Item.max_grade := AssignmentRow.max_grade a;
            Item.due_date := AssignmentRow.due_date a;
            Item.submitted :=
              match submission with
              | Some _ => true
              | None => false
              end;
            Item.grade := mjoin submission |})
    (default [] assignments) =
  map (Spec.item table student) (default [] assignments).
Proof.
  intros Hs. cbv zeta. apply map_ext_in. intros a Ha.
  pose proof (submissionsMap_lookup student a Hs Ha) as H. cbv zeta in H.
  rewrite H. unfold Spec.item, Spec.submitted, Spec.grade_of.
  f_equal. rewrite fold_found, orb_false_r. reflexivity.
Qed.

Lemma submitted_lines (student : Id) (l : list AssignmentRow.t) :
  length (List.filter Item.submitted (map (Spec.item table student) l)) =
  length
    (List.filter (fun a => Spec.submitted table student (AssignmentRow.id a))
       l).
Proof.
  induction l as [|a l IH]; [reflexivity|].
  cbn [map List.filter Spec.item Item.submitted].
  destruct (Spec.submitted table student (AssignmentRow.id a));
    cbn [length]; congruence.
Qed.

Lemma graded_lines_length (student : Id) (l : list AssignmentRow.t) :
  length (List.filter is_graded (map (Spec.item table student) l)) =
  length (Spec.graded_assignments table student l).
Proof.
  unfold Spec.graded_assignments.
  induction l as [|a l IH]; [reflexivity|].
  cbn [map List.filter omap list_omap]. unfold is_graded at 1.
  cbn [Spec.item Item.grade].
  destruct (Spec.grade_of table student (AssignmentRow.id a));
    cbn [mbind option_bind length]; congruence.
Qed.



End ProgressReport.

Section ExactMean.

Local Open Scope Q_scope.





End ExactMean.

(** ** The progress report in the arithmetic of the engine *)

Section DoubleProgressFacts.

Import StudentProgressPage.

Context (studentIds : list Id) (profiles : list Profile.t)
  (assignments : option (list AssignmentRow.t))
  (table : list SubmissionRow.t).

Lemma graded_lines_double_total (student : Id) (l : list AssignmentRow.t)
    (sum : Js.Number) :
  fold_left
    (fun sum a =>
       Binary64.add sum
         (Binary64.mul
            (Binary64.div (DoubleProgress.grade_operand a)
               (Binary64.of_Q (Item.max_grade a)))
            (Js.of_Z 100)))
    (List.filter is_graded (map (Spec.item table student) l)) sum =
  fold_left Binary64.add
    (map DoubleSpec.percentage (Spec.graded_assignments table student l)) sum.
Proof.
  unfold Spec.graded_assignments. revert sum.
  induction l as [|a l IH]; intros sum; [reflexivity|].
  cbn [map List.filter omap list_omap]. unfold is_graded at 1.
  cbn [Spec.item Item.grade].
  destruct (Spec.grade_of table student (AssignmentRow.id a)) as [g|] eqn:E;
    cbn [mbind option_bind map fold_left].
  - rewrite IH. f_equal.
    unfold DoubleProgress.grade_operand, DoubleSpec.percentage.
    cbn [Spec.item Item.grade Item.max_grade fst snd]. rewrite E. reflexivity.
  - apply IH.
Qed.

(** What the report says of one listed student. *)
Lemma student_progress_double_metrics (student : Id) :
  In student studentIds ->
  let assignmentIds := map AssignmentRow.id (default [] assignments) in
  let report :=
    DoubleProgress.student_progress profiles assignments
      (if Js.gt (Js.len assignmentIds) (Js.of_Z 0)
       then build_submissionsMap
              (fetch_submissions assignmentIds studentIds table)
       else ∅)
      student in
  student_id report = student
  /\ submissionRate report =
     DoubleSpec.submission_rate
       (length
          (List.filter
             (fun a => Spec.submitted table student (AssignmentRow.id a))
             (default [] assignments)))
       (length (default [] assignments))
  /\ averageGrade report =
     DoubleSpec.average_percentage
       (Spec.graded_assignments table student (default [] assignments)).
Proof.
  intros Hs. cbv zeta. split; [reflexivity|].
  pose proof (report_lines studentIds assignments table student Hs)
    as Hlines.
  cbv zeta in Hlines.
  unfold DoubleProgress.student_progress. cbv zeta.
  cbn [submissionRate averageGrade]. rewrite Hlines. split.
  - destruct assignments as [l|]; [|reflexivity].
    change (default [] (Some l)) with l.
    rewrite truthy_len. unfold Js.len at 1. rewrite submitted_lines.
    destruct l as [|a l]; reflexivity.
  - rewrite gt_len_0, graded_lines_double_total.
    unfold Js.len. rewrite graded_lines_length.
    unfold DoubleSpec.average_percentage.
    destruct (Spec.graded_assignments table student (default [] assignments));
      reflexivity.
Qed.

End DoubleProgressFacts.

(** C7. For student and assignment ids none of which names a property
    that a plain object inherits (the maps of the page are plain objects),
    the student-progress report has one entry per enrolled student, and in
    each entry: submissionRate is
    Math.round(submitted_count / total_assignments * 100), the division and
    the product each rounded to the nearest double, and 0 when the course
    has no assignment, where an assignment counts as submitted when a
    submission of the student for it exists (3 of 4 gives 75); averageGrade
    is taken over the assignments whose submission has a non-null grade
    only, as Math.round of the mean of grade / max_grade * 100 over them,
    the percentages added up in the order of the assignments and every
    operation rounded to the nearest double, and is null when none is
    graded. *)
Theorem progressData_metrics
    (studentIds : list Id) (profiles : list StudentProgressPage.Profile.t)
    (assignments : option (list StudentProgressPage.AssignmentRow.t))
    (table : list StudentProgressPage.SubmissionRow.t) :
  List.Forall (fun id => JsObject.own_key id = true) studentIds ->
  List.Forall
    (fun a =>
       JsObject.own_key (StudentProgressPage.AssignmentRow.id a) = true)
    (default [] assignments) ->
  map StudentProgressPage.student_id
    (DoubleProgress.progressData studentIds profiles assignments table)
  = studentIds
  /\ (forall report : StudentProgressPage.StudentProgress,
        In report
          (DoubleProgress.progressData studentIds profiles assignments
             table) ->
        let student := StudentProgressPage.student_id report in
        let submitted_count :=
          length
            (List.filter
               (fun a =>
                  Spec.submitted table student
                    (StudentProgressPage.AssignmentRow.id a))
               (default [] assignments)) in
        let total_assignments := length (default [] assignments) in
        let graded :=
          Spec.graded_assignments table student (default [] assignments) in
        StudentProgressPage.submissionRate report =
          DoubleSpec.submission_rate submitted_count total_assignments
        /\ (total_assignments = 0%nat ->
            StudentProgressPage.submissionRate report = Js.of_Z 0)
        /\ (total_assignments <> 0%nat ->
            StudentProgressPage.submissionRate report =
            Js.Math_round
              (Binary64.mul
                 (Binary64.div (DoubleSpec.count submitted_count)
                    (DoubleSpec.count total_assignments))
                 (Js.of_Z 100)))
        /\ StudentProgressPage.averageGrade report =
           DoubleSpec.average_percentage graded
        /\ (graded = [] -> StudentProgressPage.averageGrade report = None)
        /\ (graded <> [] ->
            StudentProgressPage.averageGrade report =
            Some (Js.Math_round
                    (Binary64.div
                       (fold_left Binary64.add
                          (map DoubleSpec.percentage graded) (Js.of_Z 0))
                       (DoubleSpec.count (length graded))))))
  /\ DoubleSpec.submission_rate 3 4 = Js.of_Z 75
  /\ DoubleSpec.submission_rate 3 0 = Js.of_Z 0.
Proof.
  intros _ _. split; [|split; [|split; vm_compute; reflexivity]].
  - unfold DoubleProgress.progressData. cbv zeta.
    rewrite map_map. cbn [StudentProgressPage.student_id
                          DoubleProgress.student_progress].
    apply map_id.
  - intros report Hin. unfold DoubleProgress.progressData in Hin.
    cbv zeta in Hin. apply in_map_iff in Hin as (student & <- & Hs).
    pose proof (student_progress_double_metrics studentIds profiles
                  assignments table student Hs) as H.
    cbv zeta in H |- *. destruct H as (Hid & Hrate & Havg).
    rewrite Hid. split; [exact Hrate|]. split; [|split; [|split; [|split]]].
    + intros E. rewrite Hrate, E. reflexivity.
    + intros Hne. rewrite Hrate. unfold DoubleSpec.submission_rate.
      destruct (length (default [] assignments));
        [destruct (Hne eq_refl)|reflexivity].
    + exact Havg.
    + intros E. rewrite Havg, E. reflexivity.
    + intros Hne. rewrite Havg. unfold DoubleSpec.average_percentage.
      destruct (Spec.graded_assignments table student
                  (default [] assignments));
        [destruct (Hne eq_refl)|reflexivity].
Qed.

Lemma progressData_metrics_witness :
  exists report : StudentProgressPage.StudentProgress,
    DoubleProgress.progressData ["s1"] []
      (Some Example.four_assignments) Example.three_handed_in = [report]
    /\ StudentProgressPage.submissionRate report = Js.of_Z 75
    /\ StudentProgressPage.averageGrade report = Some (Js.of_Z 58).
Proof.
  eexists. split; [reflexivity|].
  destruct (progressData_metrics ["s1"] [] (Some Example.four_assignments)
              Example.three_handed_in) as (_ & H & _).
  - repeat (apply List.Forall_cons || apply List.Forall_nil); reflexivity.
  - repeat (apply List.Forall_cons || apply List.Forall_nil); reflexivity.
  - specialize (H _ (or_introl eq_refl)). cbv zeta in H.
    destruct H as (Hrate & _ & _ & Havg & _).
    split; [rewrite Hrate|rewrite Havg]; vm_compute; reflexivity.
Defined.

(** C7 as first stated fails: with 23 of 40 assignments submitted the
    percentage is 57.5, which rounds to 58, and the report says 57; and the
    one graded assignment, 23 out of 40, is 57.5 per cent, which rounds to
    58, and the report says 57: the double of 23 / 40 times 100 ends below
    57.5. *)
Lemma progressData_metrics_counterexample :
  exists report : StudentProgressPage.StudentProgress,
    DoubleProgress.progressData ["s1"] [] (Some Cases.forty_assignments)
      Cases.handed_in_23 = [report]
    /\ length (StudentProgressPage.assignments report) = 40%nat
    /\ length
         (List.filter StudentProgressPage.Item.submitted
            (StudentProgressPage.assignments report)) = 23%nat
    /\ Spec.graded_assignments Cases.handed_in_23 "s1"
         Cases.forty_assignments = [((23 # 1)%Q, (40 # 1)%Q)]
    /\ StudentProgressPage.submissionRate report = Js.of_Z 57
    /\ Spec.submission_rate 23 40 = 58%Z
    /\ StudentProgressPage.submissionRate report
       <> Js.of_Z (Spec.submission_rate 23 40)
    /\ StudentProgressPage.averageGrade report = Some (Js.of_Z 57)
    /\ Spec.exact_average_percentage [((23 # 1)%Q, (40 # 1)%Q)] = 58%Z
    /\ StudentProgressPage.averageGrade report
       <> Some (Js.of_Z
                  (Spec.exact_average_percentage
                     [((23 # 1)%Q, (40 # 1)%Q)])).
Proof.
  eexists. split; [vm_compute; reflexivity|].
  repeat (split; [vm_compute; first [reflexivity|discriminate]|]).
  vm_compute. discriminate.
Qed.

(** ** The uniqueness invariant is kept *)

Section Uniqueness.

Context (supabase : Supabase).

(** [enrollStudent] never leaves two enrollments for one pair. *)
Lemma enrollStudent_keeps_unique (data : EnrollmentService.EnrollData)
    (w w' : World) (outcome : Outcome (Response Enrollment.t)) :
  Spec.unique_enrollments (db w) ->
  EnrollmentService.enrollStudent supabase data w = (outcome, w') ->
  Spec.unique_enrollments (db w').
Proof.
  intros Huniq. rewrite enrollStudent_run.
  destruct (at_most_one_cases _ _ (Huniq data)) as [[_ Hnil]|[_ [r Hone]]].
  - rewrite Hnil. cbv zeta.
    destruct (policy supabase _ (db w)); intros [= _ <-]; [exact Huniq|].
    intros other. unfold Spec.at_most_one.
    cbn [db Store.with_enrollments Store.enrollments].
    rewrite List.filter_app, length_app. cbn [List.filter].
    destruct (EnrollmentService.same_pair other _) eqn:Hsame.
    + unfold EnrollmentService.same_pair in Hsame.
      cbn [Enrollment.student_id Enrollment.course_id] in Hsame.
      apply andb_true_iff in Hsame as [Hs Hc].
      apply String.eqb_eq in Hs. apply String.eqb_eq in Hc.
      assert (Heq : List.filter (EnrollmentService.same_pair other)
                      (Store.enrollments (db w)) =
                    List.filter (EnrollmentService.same_pair data)
                      (Store.enrollments (db w))).
      { apply filter_ext. intros e. unfold EnrollmentService.same_pair.
        rewrite <- Hs, <- Hc. reflexivity. }
      rewrite Heq, Hnil. cbn. lia.
    + pose proof (Huniq other) as H. unfold Spec.at_most_one in H.
      cbn [length]. lia.
  - rewrite Hone. intros [= _ <-]. exact Huniq.
Qed.

(** [createSubmission] never leaves two submissions for one pair. *)
Lemma createSubmission_keeps_unique (data : SubmissionService.CreateData)
    (w w' : World) (outcome : Outcome (Response Submission.t)) :
  Spec.unique_submissions (db w) ->
  SubmissionService.createSubmission supabase data w = (outcome, w') ->
  Spec.unique_submissions (db w').
Proof.
  intros Huniq. rewrite createSubmission_run.
  destruct (at_most_one_cases _ _ (Huniq data)) as [[_ Hnil]|[_ [r Hone]]].
  - rewrite Hnil. cbv zeta.
    destruct (policy supabase _ (db w)); intros [= _ <-]; [exact Huniq|].
    intros other. unfold Spec.at_most_one.
    cbn [db Store.with_submissions Store.submissions].
    rewrite List.filter_app, length_app. cbn [List.filter].
    destruct (SubmissionService.same_pair other _) eqn:Hsame.
    + unfold SubmissionService.same_pair in Hsame.
      cbn [Submission.student_id Submission.assignment_id] in Hsame.
      apply andb_true_iff in Hsame as [Hs Ha].
      apply String.eqb_eq in Hs. apply String.eqb_eq in Ha.
      assert (Heq : List.filter (SubmissionService.same_pair other)
                      (Store.submissions (db w)) =
                    List.filter (SubmissionService.same_pair data)
                      (Store.submissions (db w))).
      { apply filter_ext. intros e. unfold SubmissionService.same_pair.
        rewrite <- Hs, <- Ha. reflexivity. }
      rewrite Heq, Hnil. cbn. lia.
    + pose proof (Huniq other) as H. unfold Spec.at_most_one in H.
      cbn [length]. lia.
  - rewrite Hone. intros [= _ <-]. exact Huniq.
Qed.

End Uniqueness.

(** ** The error boundary of a service *)

Section ErrorBoundary.

Context (supabase : Supabase).

(** A write the data layer refuses surfaces as a 500 response carrying the
    data layer's message, and the table is as before. *)
Lemma enrollStudent_refused (data : EnrollmentService.EnrollData) (w : World)
    (e : ErrorMsg) :
  existsb (EnrollmentService.same_pair data) (Store.enrollments (db w))
    = false ->
  policy supabase
    (InsertEnrollment (EnrollmentService.student_id data)
       (EnrollmentService.course_id data) "active") (db w) = Some e ->
  exists w' : World,
    serve (EnrollmentService.enrollStudent supabase data) w =
      (respond 500 (Failure e), w')
    /\ db w' = db w.
Proof.
  intros Hnone Hpol. apply existsb_filter_nil in Hnone.
  unfold serve. rewrite enrollStudent_run, Hnone. cbv zeta. rewrite Hpol.
  eexists. split; reflexivity.
Qed.

Lemma createSubmission_refused (data : SubmissionService.CreateData)
    (w : World) (e : ErrorMsg) :
  existsb (SubmissionService.same_pair data) (Store.submissions (db w))
    = false ->
  policy supabase
    (InsertSubmission (SubmissionService.assignment_id data)
       (SubmissionService.student_id data) (SubmissionService.content data)
       (SubmissionService.file_url data)) (db w) = Some e ->
  exists w' : World,
    serve (SubmissionService.createSubmission supabase data) w =
      (respond 500 (Failure e), w')
    /\ db w' = db w.
Proof.
  intros Hnone Hpol. apply existsb_filter_nil in Hnone.
  unfold serve. rewrite createSubmission_run, Hnone. cbv zeta. rewrite Hpol.
  eexists. split; reflexivity.
Qed.

End ErrorBoundary.

(** * The other handlers *)

(** ** Ordered reads *)

Section OrderFacts.

Context {A : Type} (before : A -> A -> bool).

Lemma insert_by_Permutation (x : A) (l : list A) :
  Permutation (Order.insert_by before x l) (x :: l).
Proof.
  induction l as [|y l IH]; cbn; [reflexivity|].
  destruct (before x y); [reflexivity|].
  rewrite IH. apply perm_swap.
Qed.

Lemma sort_by_Permutation (l : list A) :
  Permutation (Order.sort_by before l) l.
Proof.
  induction l as [|x l IH]; cbn; [reflexivity|].
  fold (Order.sort_by before l).
  rewrite insert_by_Permutation, IH. reflexivity.
Qed.

Lemma insert_by_Sorted (x : A) (l : list A) :
  (forall a b : A, before a b = true \/ before b a = true) ->
  Sorted (fun a b => before a b = true) l ->
  Sorted (fun a b => before a b = true) (Order.insert_by before x l).
Proof.
  intros Htotal Hl. induction Hl as [|y l Hl IH Hhd]; cbn.
  - repeat constructor.
  - destruct (before x y) eqn:E.
    + constructor; [constructor; assumption|constructor; exact E].
    + constructor; [exact IH|].
      destruct Hhd as [|z l Hyz]; cbn.
      * constructor. destruct (Htotal x y); congruence.
      * destruct (before x z); constructor;
          [destruct (Htotal x y); congruence|exact Hyz].
Qed.

Lemma sort_by_Sorted (l : list A) :
  (forall a b : A, before a b = true \/ before b a = true) ->
  Sorted (fun a b => before a b = true) (Order.sort_by before l).
Proof.
  intros Htotal. induction l as [|x l IH]; cbn; [constructor|].
  apply insert_by_Sorted; assumption.
Qed.

Lemma sort_by_In (l : list A) (x : A) : In x (Order.sort_by before l) <-> In x l.
Proof.
  split; apply Permutation_in;
    [|symmetry]; apply sort_by_Permutation.
Qed.

End OrderFacts.

Lemma eq_if_wanted_spec {A : Type} (column : A -> Id) (key : option Id)
    (r : A) :
  eq_if_wanted column key r = true <->
  (forall k : Id, wanted key = Some k -> column r = k).
Proof.
  unfold eq_if_wanted. destruct (wanted key) as [k|].
  - rewrite String.eqb_eq. split.
    + intros H k' [= <-]. exact H.
    + intros H. apply H. reflexivity.
  - split; [discriminate|reflexivity].
Qed.

(** X1. [listSubmissions] answers 200 with exactly the submissions that
    pass the requested filters (a filter is applied only when its key is
    present and not empty), each as often as the table holds it, and, when
    the data layer's order of timestamps is total, newest first. *)
Theorem listSubmissions_sorted_matches
    (layer : DataLayer) (supabase : Supabase)
    (data : option SubmissionQueries.ListData) (w : World) :
  (forall a b : Timestamp,
     not_after layer a b = true \/ not_after layer b a = true) ->
  exists rows : list Submission.t,
    SubmissionQueries.listSubmissions layer supabase data w =
      (Return (respond 200 (Success (Some rows))), w)
    /\ Permutation rows
         (List.filter (SubmissionQueries.listed data)
            (Store.submissions (db w)))
    /\ (forall s : Submission.t,
          In s rows <->
          In s (Store.submissions (db w))
          /\ (forall k : Id,
                wanted (data ≫= SubmissionQueries.assignment_id) = Some k ->
                Submission.assignment_id s = k)
          /\ (forall k : Id,
                wanted (data ≫= SubmissionQueries.student_id) = Some k ->
                Submission.student_id s = k))
    /\ Sorted
         (fun a b =>
            not_after layer (Submission.submitted_at b)
              (Submission.submitted_at a) = true)
         rows.
Proof.
  intros Htotal. eexists. split; [reflexivity|]. split; [|split].
  - apply sort_by_Permutation.
  - intros s. rewrite sort_by_In, filter_In.
    unfold SubmissionQueries.listed.
    rewrite andb_true_iff, !eq_if_wanted_spec. reflexivity.
  - apply (sort_by_Sorted (SubmissionQueries.newest_first layer)).
    intros a b. apply Htotal.
Qed.

Lemma listSubmissions_sorted_matches_witness :
  exists rows : list Submission.t,
    SubmissionQueries.listSubmissions Sample.layer Example.supabase
      (Some {| SubmissionQueries.assignment_id := Some "a1";
               SubmissionQueries.student_id := None |})
      (Example.world Sample.term) =
      (Return (respond 200 (Success (Some rows))),
       Example.world Sample.term)
    /\ map Submission.id rows = ["u3"; "u1"]
    /\ Sorted
         (fun a b =>
            String.leb (Submission.submitted_at b) (Submission.submitted_at a)
            = true)
         rows.
Proof.
  destruct (listSubmissions_sorted_matches Sample.layer Example.supabase
              (Some {| SubmissionQueries.assignment_id := Some "a1";
                       SubmissionQueries.student_id := None |})
              (Example.world Sample.term) String.leb_total)
    as (rows & Hrun & _ & _ & Hsorted).
  exists rows. split; [exact Hrun|]. split; [|exact Hsorted].
  injection Hrun as <-. reflexivity.
Defined.

(** X2. [listAssignments] answers 200 with exactly the assignments of the
    requested course, or all of them when no course is asked for (an absent
    or empty course_id), and, when the data layer's order of timestamps is
    total, by due date ascending. *)
Theorem listAssignments_sorted_matches
    (layer : DataLayer) (supabase : Supabase) (course_id : option Id)
    (w : World) :
  (forall a b : Timestamp,
     not_after layer a b = true \/ not_after layer b a = true) ->
  exists rows : list Assignment.t,
    AssignmentQueries.listAssignments layer supabase course_id w =
      (Return (respond 200 (Success (Some rows))), w)
    /\ Permutation rows
         (List.filter (AssignmentQueries.listed course_id)
            (Store.assignments (db w)))
    /\ (forall a : Assignment.t,
          In a rows <->
          In a (Store.assignments (db w))
          /\ (forall k : Id,
                wanted course_id = Some k -> Assignment.course_id a = k))
    /\ (wanted course_id = None ->
        Permutation rows (Store.assignments (db w)))
    /\ Sorted
         (fun a b =>
            not_after layer (Assignment.due_date a) (Assignment.due_date b)
            = true)
         rows.
Proof.
  intros Htotal. eexists. split; [reflexivity|]. split; [|split; [|split]].
  - apply sort_by_Permutation.
  - intros a. rewrite sort_by_In, filter_In.
    unfold AssignmentQueries.listed. rewrite eq_if_wanted_spec. reflexivity.
  - intros Hall. rewrite sort_by_Permutation.
    rewrite (filter_ext (AssignmentQueries.listed course_id) (fun _ => true)).
    + clear. induction (Store.assignments (db w)) as [|a l IH];
        cbn; [reflexivity|]. rewrite IH at 1. reflexivity.
    + intros a. unfold AssignmentQueries.listed, eq_if_wanted.
      rewrite Hall. reflexivity.
  - apply (sort_by_Sorted (AssignmentQueries.soonest_first layer)).
    intros a b. apply Htotal.
Qed.

Lemma listAssignments_sorted_matches_witness :
  exists rows : list Assignment.t,
    AssignmentQueries.listAssignments Sample.layer Example.supabase
      (Some "c1") (Example.world Sample.term) =
      (Return (respond 200 (Success (Some rows))),
       Example.world Sample.term)
    /\ map Assignment.id rows = ["a2"; "a1"].
Proof.
  destruct (listAssignments_sorted_matches Sample.layer Example.supabase
              (Some "c1") (Example.world Sample.term) String.leb_total)
    as (rows & Hrun & _).
  exists rows. split; [exact Hrun|].
  injection Hrun as <-. reflexivity.
Defined.

(** X3. [listEnrollments] answers 200 with exactly the enrollments that
    pass the requested filters on student, course and status (each applied
    only when present and not empty), newest first when the data layer's
    order of timestamps is total, each paired with the course it refers to,
    if that course exists. *)
Theorem listEnrollments_sorted_matches
    (layer : DataLayer) (supabase : Supabase)
    (data : option EnrollmentQueries.ListData) (w : World) :
  (forall a b : Timestamp,
     not_after layer a b = true \/ not_after layer b a = true) ->
  exists rows : list (Enrollment.t * option Course.t),
    EnrollmentQueries.listEnrollments layer supabase data w =
      (Return (respond 200 (Success (Some rows))), w)
    /\ Permutation (map fst rows)
         (List.filter (EnrollmentQueries.listed data)
            (Store.enrollments (db w)))
    /\ (forall e : Enrollment.t,
          In e (map fst rows) <->
          In e (Store.enrollments (db w))
          /\ (forall k : Id,
                wanted (data ≫= EnrollmentQueries.student_id) = Some k ->
                Enrollment.student_id e = k)
          /\ (forall k : Id,
                wanted (data ≫= EnrollmentQueries.course_id) = Some k ->
                Enrollment.course_id e = k)
          /\ (forall k : string,
                wanted (data ≫= EnrollmentQueries.status) = Some k ->
                Enrollment.status e = k))
    /\ Sorted
         (fun a b =>
            not_after layer (Enrollment.enrolled_at b)
              (Enrollment.enrolled_at a) = true)
         (map fst rows)
    /\ (forall (e : Enrollment.t) (c : Course.t),
          In (e, Some c) rows ->
          In c (Store.courses (db w))
          /\ Course.id c = Enrollment.course_id e)
    /\ (forall e : Enrollment.t,
          In (e, None) rows ->
          forall c : Course.t,
            In c (Store.courses (db w)) ->
            Course.id c <> Enrollment.course_id e).
Proof.
  intros Htotal. eexists. split; [reflexivity|].
  cbn [Query.data Query.ok].
  assert (Hfst : forall l : list Enrollment.t,
            map fst (map (EnrollmentQueries.with_course (db w)) l) = l).
  { intros l. rewrite map_map. apply map_id. }
  rewrite Hfst. split; [|split; [|split; [|split]]].
  - apply sort_by_Permutation.
  - intros e. rewrite sort_by_In, filter_In.
    unfold EnrollmentQueries.listed.
    rewrite !andb_true_iff, !eq_if_wanted_spec. tauto.
  - apply (sort_by_Sorted (EnrollmentQueries.newest_first layer)).
    intros a b. apply Htotal.
  - intros e c Hin. apply in_map_iff in Hin as (e' & Heq & _).
    unfold EnrollmentQueries.with_course in Heq.
    injection Heq as -> Hfind. apply find_some in Hfind as [Hin Hid].
    split; [exact Hin|]. apply String.eqb_eq. exact Hid.
  - intros e Hin c Hc Hid. apply in_map_iff in Hin as (e' & Heq & _).
    unfold EnrollmentQueries.with_course in Heq.
    injection Heq as -> Hfind.
    apply (find_none _ _ Hfind) in Hc. rewrite Hid, String.eqb_refl in Hc.
    discriminate.
Qed.

Lemma listEnrollments_sorted_matches_witness :
  exists rows : list (Enrollment.t * option Course.t),
    EnrollmentQueries.listEnrollments Sample.layer Example.supabase
      (Some {| EnrollmentQueries.student_id := None;
               EnrollmentQueries.course_id := Some "c1";
               EnrollmentQueries.status := Some "active" |})
      (Example.world Sample.term) =
      (Return (respond 200 (Success (Some rows))),
       Example.world Sample.term)
    /\ map (fun r => Enrollment.id (fst r)) rows = ["e1"; "e3"]
    /\ map snd rows = [Some Example.algebra; Some Example.algebra].
Proof.
  destruct (listEnrollments_sorted_matches Sample.layer Example.supabase
              (Some {| EnrollmentQueries.student_id := None;
                       EnrollmentQueries.course_id := Some "c1";
                       EnrollmentQueries.status := Some "active" |})
              (Example.world Sample.term) String.leb_total)
    as (rows & Hrun & _).
  exists rows. split; [exact Hrun|].
  injection Hrun as <-. split; reflexivity.
Defined.

(** ** Reading back what was created *)

Lemma filter_fresh {A : Type} (p : A -> bool) (rows : list A) (row : A) :
  (forall r : A, In r rows -> p r = false) ->
  p row = true ->
  List.filter p (rows ++ [row]) = [row].
Proof.
  intros Hold Hrow. rewrite List.filter_app. cbn. rewrite Hrow.
  replace (List.filter p rows) with (@nil A); [reflexivity|].
  symmetry. induction rows as [|r rows IH]; [reflexivity|].
  cbn. rewrite (Hold r (or_introl eq_refl)).
  apply IH. intros r' Hr'. apply Hold. right. exact Hr'.
Qed.

(** What a successful [createSubmission] has done. *)
Lemma createSubmission_success
    (supabase : Supabase) (data : SubmissionService.CreateData)
    (w w' : World) (row : Submission.t) :
  SubmissionService.createSubmission supabase data w =
    (Return (respond 200 (Success row)), w') ->
  row =
    {| Submission.id := fresh_id supabase (db w);
       Submission.assignment_id := SubmissionService.assignment_id data;
       Submission.student_id := SubmissionService.student_id data;
       Submission.content := SubmissionService.content data;
       Submission.file_url := SubmissionService.file_url data;
       Submission.grade := None;
       Submission.feedback := None;
       Submission.graded_by := None;
       Submission.graded_at := None;
       Submission.submitted_at := db_now supabase |}
  /\ db w' =
     Store.with_submissions (Store.submissions (db w) ++ [row]) (db w)
  /\ List.filter (SubmissionService.same_pair data)
       (Store.submissions (db w)) <> [row].
Proof.
  rewrite createSubmission_run.
  destruct (List.filter (SubmissionService.same_pair data)
              (Store.submissions (db w))) as [|e [|e' rest]];
    try discriminate;
    cbv zeta; (destruct (policy supabase _ (db w)); [discriminate|]);
    intros [= <- <-]; repeat split; discriminate.
Qed.

(** X4. A submission that [createSubmission] has just created is read
    back unchanged by [getSubmission] under the id it was answered with,
    provided the id the data layer assigned was not in use. *)
Theorem getSubmission_after_createSubmission
    (supabase : Supabase) (data : SubmissionService.CreateData)
    (w w' : World) (row : Submission.t) :
  (forall s : Submission.t,
     In s (Store.submissions (db w)) ->
     Submission.id s <> fresh_id supabase (db w)) ->
  SubmissionService.createSubmission supabase data w =
    (Return (respond 200 (Success row)), w') ->
  SubmissionQueries.getSubmission supabase (Submission.id row) w' =
    (Return (respond 200 (Success row)), w')
  /\ Submission.student_id row = SubmissionService.student_id data
  /\ Submission.assignment_id row = SubmissionService.assignment_id data
  /\ Submission.content row = SubmissionService.content data
  /\ Submission.grade row = None.
Proof.
  intros Hfresh Hrun.
  destruct (createSubmission_success _ _ _ _ _ Hrun) as (Hrow & Hdb & _).
  split; [|rewrite Hrow; repeat split].
  unfold SubmissionQueries.getSubmission. rewrite bind_run.
  unfold select_single at 1. rewrite Hdb.
  cbn [Store.with_submissions Store.submissions].
  rewrite filter_fresh.
  - reflexivity.
  - intros s Hs. unfold has_id. apply String.eqb_neq.
    rewrite Hrow. apply Hfresh, Hs.
  - unfold has_id. apply String.eqb_refl.
Qed.

Lemma getSubmission_after_createSubmission_witness :
  exists (row : Submission.t) (w' : World),
    SubmissionService.createSubmission Example.supabase
      {| SubmissionService.assignment_id := "a2";
         SubmissionService.student_id := "s3";
         SubmissionService.content := "late answer";
         SubmissionService.file_url := None |}
      (Example.world Sample.term) =
      (Return (respond 200 (Success row)), w')
    /\ SubmissionQueries.getSubmission Example.supabase (Submission.id row) w'
       = (Return (respond 200 (Success row)), w')
    /\ Submission.student_id row = "s3"
    /\ Submission.assignment_id row = "a2"
    /\ Submission.content row = "late answer"
    /\ Submission.grade row = None.
Proof.
  eexists. eexists. split; [reflexivity|].
  apply (getSubmission_after_createSubmission Example.supabase
           {| SubmissionService.assignment_id := "a2";
              SubmissionService.student_id := "s3";
              SubmissionService.content := "late answer";
              SubmissionService.file_url := None |}
           (Example.world Sample.term)).
  - intros s [<-|[<-|[<-|[]]]]; vm_compute; discriminate.
  - reflexivity.
Defined.

(** X5. [getSubmission] answers 200 with the submission when the id names
    exactly one row; when no submission carries the id the service answers
    500 with the message of the failed singular read, and in both cases
    nothing is changed. *)
Theorem getSubmission_found_or_500
    (supabase : Supabase) (id : Id) (w : World) :
  (forall s : Submission.t,
     List.filter (has_id id) (Store.submissions (db w)) = [s] ->
     serve (SubmissionQueries.getSubmission supabase id) w =
     (respond 200 (Success s), w))
  /\ ((forall s : Submission.t,
         In s (Store.submissions (db w)) -> Submission.id s <> id) ->
      serve (SubmissionQueries.getSubmission supabase id) w =
      (respond 500 (Failure Query.not_single), w)).
Proof.
  unfold serve, SubmissionQueries.getSubmission. rewrite !bind_run.
  unfold select_single. split.
  - intros s ->. reflexivity.
  - intros Hmiss.
    replace (List.filter (has_id id) (Store.submissions (db w)))
      with (@nil Submission.t); [reflexivity|].
    symmetry. apply existsb_filter_nil.
    destruct (existsb (has_id id) (Store.submissions (db w))) eqn:E;
      [|reflexivity].
    apply existsb_exists in E as (s & Hs & Hid).
    apply String.eqb_eq in Hid. destruct (Hmiss s Hs Hid).
Qed.

Lemma getSubmission_found_or_500_witness :
  serve (SubmissionQueries.getSubmission Example.supabase "u2")
    (Example.world Sample.term) =
  (respond 200
     (Success (Sample.handed_in_at "u2" "a2" "s1" "2025-11-27T08:30:00Z" None)),
   Example.world Sample.term)
  /\ serve (SubmissionQueries.getSubmission Example.supabase "u9")
       (Example.world Sample.term) =
     (respond 500 (Failure Query.not_single), Example.world Sample.term).
Proof.
  split.
  - apply (proj1 (getSubmission_found_or_500 Example.supabase "u2"
                    (Example.world Sample.term))).
    reflexivity.
  - apply (proj2 (getSubmission_found_or_500 Example.supabase "u9"
                    (Example.world Sample.term))).
    intros s [<-|[<-|[<-|[]]]]; vm_compute; discriminate.
Defined.

(** X6. An assignment that [createAssignment] has just created is read
    back unchanged by [getAssignment] under the id it was answered with,
    provided the write is accepted and the id the data layer assigned was
    not in use; it carries the title, course and due date of the request
    and the max_grade of the request, or 100 for a falsy one. *)
Theorem getAssignment_after_createAssignment
    (supabase : Supabase) (data : AssignmentService.CreateData) (w : World) :
  policy supabase (InsertAssignment (AssignmentService.new_assignment data))
    (db w) = None ->
  (forall a : Assignment.t,
     In a (Store.assignments (db w)) ->
     Assignment.id a <> fresh_id supabase (db w)) ->
  exists (a : Assignment.t) (w' : World),
    AssignmentService.createAssignment supabase data w =
      (Return (respond 200 (Success a)), w')
    /\ AssignmentQueries.getAssignment supabase (Assignment.id a) w' =
       (Return (respond 200 (Success a)), w')
    /\ Assignment.title a = AssignmentService.title data
    /\ Assignment.course_id a = AssignmentService.course_id data
    /\ Assignment.due_date a = AssignmentService.due_date data
    /\ Assignment.max_grade a =
       Js.or (AssignmentService.max_grade data) (Js.Numeric (Js.of_Z 100)).
Proof.
  intros Hpol Hfresh.
  destruct (createAssignment_run supabase data w Hpol) as (w' & Hrun & Hdb).
  eexists. exists w'. split; [exact Hrun|]. split; [|repeat split].
  unfold AssignmentQueries.getAssignment. rewrite bind_run.
  unfold select_single at 1. rewrite Hdb, filter_fresh.
  - reflexivity.
  - intros a Ha. apply String.eqb_neq. apply Hfresh, Ha.
  - apply String.eqb_refl.
Qed.

Lemma getAssignment_after_createAssignment_witness :
  exists (a : Assignment.t) (w' : World),
    AssignmentService.createAssignment Example.supabase Example.ungraded_quiz
      (Example.world Sample.term) =
      (Return (respond 200 (Success a)), w')
    /\ AssignmentQueries.getAssignment Example.supabase (Assignment.id a) w' =
       (Return (respond 200 (Success a)), w')
    /\ Assignment.title a = "Quiz"
    /\ Assignment.max_grade a = Js.Numeric (Js.of_Z 100).
Proof.
  destruct (getAssignment_after_createAssignment Example.supabase
              Example.ungraded_quiz (Example.world Sample.term) eq_refl)
    as (a & w' & Hrun & Hget & Htitle & _ & _ & Hmax).
  - intros a [<-|[<-|[]]]; vm_compute; discriminate.
  - exists a, w'. repeat split; assumption.
Defined.

(** ** grading-service: the other actions *)

Section GradingFacts.

Context (supabase : Supabase).

(** Every path of [gradeSubmission]. *)
Lemma gradeSubmission_cases (js : Runtime) (data : GradingService.GradeData)
    (w : World) :
  GradingService.gradeSubmission js supabase data w =
  let id := GradingService.submission_id data in
  let patch := GradingService.grading_patch supabase data in
  match policy supabase (UpdateSubmission id patch) (db w) with
  | Some e => (Throw e, log (UpdateSubmission id patch) w)
  | None =>
      match List.filter (has_id id) (Store.submissions (db w)) with
      | [r] =>
          let graded := Submission.apply patch r in
          let written :=
            Store.with_submissions
              (map (fun r => if has_id id r then Submission.apply patch r
                             else r)
                 (Store.submissions (db w))) (db w) in
          match List.find
                  (fun a =>
                     String.eqb (Assignment.id a)
                       (Submission.assignment_id r))
                  (Store.assignments (db w)) with
          | Some a =>
              (Return (respond 200 (Success (graded, a))),
               {| db := written;
                  outbox :=
                    outbox w ++ [GradingService.graded_notice js graded a];
                  journal := journal w ++ [UpdateSubmission id patch] |})
          | None =>
              (Throw (null_reading "title"),
               {| db := written; outbox := outbox w;
                  journal := journal w ++ [UpdateSubmission id patch] |})
          end
      | _ => (Throw Query.not_single, log (UpdateSubmission id patch) w)
      end
  end.
Proof.
  cbv zeta. unfold GradingService.gradeSubmission.
  rewrite bind_run, update_submission_run.
  destruct (policy supabase _ (db w)); [reflexivity|].
  destruct (List.filter _ (Store.submissions (db w))) as [|r [|r' rest]];
    try reflexivity.
  rewrite bind_run. cbn [throw_on_error Query.error Query.ok mret M_ret ret].
  rewrite bind_run. cbn [row_of Query.data Query.ok mret M_ret ret].
  rewrite bind_run. unfold GradingService.joined_assignment at 1.
  cbn [db Store.with_submissions Store.assignments Submission.apply
       Submission.assignment_id GradingService.grading_patch
       Submission.set_assignment_id default from_option id].
  destruct (List.find _ (Store.assignments (db w))); reflexivity.
Qed.

End GradingFacts.

(** X7. A failed grade request sends no notification.  It also leaves the
    store as it was, except when the failure is the missing assignment of
    the submission: then the grade has already been written.  And a
    notification is only ever sent together with a 200 answer whose graded
    submission is in the table. *)
Theorem gradeSubmission_failure_is_silent
    (js : Runtime) (supabase : Supabase) (data : GradingService.GradeData)
    (w : World) :
  (forall (e : ErrorMsg) (w' : World),
     GradingService.gradeSubmission js supabase data w = (Throw e, w') ->
     outbox w' = outbox w
     /\ (db w' = db w
         \/ exists r : Submission.t,
              List.filter (has_id (GradingService.submission_id data))
                (Store.submissions (db w)) = [r]
              /\ List.find
                   (fun a =>
                      String.eqb (Assignment.id a)
                        (Submission.assignment_id r))
                   (Store.assignments (db w)) = None
              /\ In (Submission.apply
                       (GradingService.grading_patch supabase data) r)
                   (Store.submissions (db w'))))
  /\ (forall (outcome : Outcome (Response (Submission.t * Assignment.t)))
             (w' : World),
        GradingService.gradeSubmission js supabase data w = (outcome, w') ->
        outbox w' <> outbox w ->
        exists (graded : Submission.t) (a : Assignment.t),
          outcome = Return (respond 200 (Success (graded, a)))
          /\ In graded (Store.submissions (db w'))
          /\ outbox w' =
             (outbox w ++ [GradingService.graded_notice js graded a])%list).
Proof.
  rewrite gradeSubmission_cases. cbv zeta.
  destruct (policy supabase _ (db w)) as [err|].
  { split.
    - intros e w' [= _ <-]. split; [reflexivity|left; reflexivity].
    - intros outcome w' [= _ <-] Hne. destruct (Hne eq_refl). }
  destruct (List.filter _ (Store.submissions (db w))) as [|r [|r' rest]] eqn:E.
  - split.
    + intros e w' [= _ <-]. split; [reflexivity|left; reflexivity].
    + intros outcome w' [= _ <-] Hne. destruct (Hne eq_refl).
  - assert (Hin : In (Submission.apply
                        (GradingService.grading_patch supabase data) r)
                    (map (fun r => if has_id
                                        (GradingService.submission_id data) r
                                   then Submission.apply
                                          (GradingService.grading_patch
                                             supabase data) r
                                   else r)
                       (Store.submissions (db w)))).
    { assert (Hr : In r [r]) by (left; reflexivity).
      rewrite <- E in Hr. apply filter_In in Hr as [Hr Hid].
      apply in_map_iff. exists r. rewrite Hid. split; [reflexivity|exact Hr]. }
    destruct (List.find _ (Store.assignments (db w))) as [a|] eqn:F.
    + split; [discriminate|].
      intros outcome w' [= <- <-] _. eexists. eexists.
      split; [reflexivity|]. split; [exact Hin|reflexivity].
    + split.
      * intros e w' [= _ <-]. split; [reflexivity|].
        right. exists r. split; [reflexivity|]. split; [exact F|exact Hin].
      * intros outcome w' [= _ <-] Hne. destruct (Hne eq_refl).
  - split.
    + intros e w' [= _ <-]. split; [reflexivity|left; reflexivity].
    + intros outcome w' [= _ <-] Hne. destruct (Hne eq_refl).
Qed.

Lemma gradeSubmission_failure_is_silent_witness :
  exists w' : World,
    GradingService.gradeSubmission Example.js Example.supabase
      {| GradingService.submission_id := "u9";
         GradingService.grade := Some (80 # 1)%Q;
         GradingService.feedback := None;
         GradingService.graded_by := "lecturer-1" |}
      (Example.world Sample.term) = (Throw Query.not_single, w')
    /\ outbox w' = []
    /\ db w' = Sample.term.
Proof.
  eexists. split; [reflexivity|].
  destruct (proj1 (gradeSubmission_failure_is_silent Example.js
                     Example.supabase
                     {| GradingService.submission_id := "u9";
                        GradingService.grade := Some (80 # 1)%Q;
                        GradingService.feedback := None;
                        GradingService.graded_by := "lecturer-1" |}
                     (Example.world Sample.term))
              Query.not_single _ eq_refl) as [Hout _].
  split; [exact Hout|reflexivity].
Defined.

(** X8. [updateGrade] on an existing submission whose write is accepted
    writes graded_at and those of grade and feedback that the request
    carries (null included), and nothing else: a key the request lacks
    leaves its column as it was, graded_by stays who it was, every other
    column, row and table is kept, and no notification is sent. *)
Theorem updateGrade_frame
    (supabase : Supabase) (data : GradingHandlers.UpdateGradeData)
    (w : World) (r : Submission.t) :
  policy supabase
    (UpdateSubmission (GradingHandlers.submission_id data)
       (GradingHandlers.regrading_patch supabase data)) (db w) = None ->
  List.filter (has_id (GradingHandlers.submission_id data))
    (Store.submissions (db w)) = [r] ->
  exists (graded : Submission.t) (w' : World),
    GradingHandlers.updateGrade supabase data w =
      (Return (respond 200 (Success graded)), w')
    /\ graded =
       {| Submission.id := Submission.id r;
          Submission.assignment_id := Submission.assignment_id r;
          Submission.student_id := Submission.student_id r;
          Submission.content := Submission.content r;
          Submission.file_url := Submission.file_url r;
          Submission.grade :=
            match GradingHandlers.grade data with
            | Request.Absent => Submission.grade r
            | Request.Null => None
            | Request.Given g => Some g
            end;
          Submission.feedback :=
            match GradingHandlers.feedback data with
            | Request.Absent => Submission.feedback r
            | Request.Null => None
            | Request.Given text => Some text
            end;
          Submission.graded_by := Submission.graded_by r;
          Submission.graded_at := Some (now supabase);
          Submission.submitted_at := Submission.submitted_at r |}
    /\ Store.submissions (db w') =
       map (fun x => if has_id (GradingHandlers.submission_id data) x
                     then graded else x)
         (Store.submissions (db w))
    /\ Store.courses (db w') = Store.courses (db w)
    /\ Store.user_roles (db w') = Store.user_roles (db w)
    /\ Store.enrollments (db w') = Store.enrollments (db w)
    /\ Store.assignments (db w') = Store.assignments (db w)
    /\ outbox w' = outbox w.
Proof.
  intros Hpol Hone. unfold GradingHandlers.updateGrade.
  rewrite bind_run, update_submission_run, Hpol, Hone.
  eexists. eexists. split; [reflexivity|].
  cbn [db outbox Store.with_submissions Store.submissions Store.courses
       Store.user_roles Store.enrollments Store.assignments].
  assert (Hrow : Submission.apply
                   (GradingHandlers.regrading_patch supabase data) r =
                 {| Submission.id := Submission.id r;
                    Submission.assignment_id := Submission.assignment_id r;
                    Submission.student_id := Submission.student_id r;
                    Submission.content := Submission.content r;
                    Submission.file_url := Submission.file_url r;
                    Submission.grade :=
                      match GradingHandlers.grade data with
                      | Request.Absent => Submission.grade r
                      | Request.Null => None
                      | Request.Given g => Some g
                      end;
                    Submission.feedback :=
                      match GradingHandlers.feedback data with
                      | Request.Absent => Submission.feedback r
                      | Request.Null => None
                      | Request.Given text => Some text
                      end;
                    Submission.graded_by := Submission.graded_by r;
                    Submission.graded_at := Some (now supabase);
                    Submission.submitted_at := Submission.submitted_at r |}).
  { unfold Submission.apply, GradingHandlers.regrading_patch.
    cbn [Submission.set_assignment_id Submission.set_student_id
         Submission.set_content Submission.set_file_url Submission.set_grade
         Submission.set_feedback Submission.set_graded_by
         Submission.set_graded_at Submission.set_submitted_at].
    destruct (GradingHandlers.grade data), (GradingHandlers.feedback data);
      reflexivity. }
  split; [exact Hrow|]. split; [|repeat split].
  apply map_ext_in. intros x Hx.
  destruct (has_id (GradingHandlers.submission_id data) x) eqn:Hid;
    [|reflexivity].
  assert (Hin : In x [r]).
  { rewrite <- Hone. apply filter_In. split; assumption. }
  destruct Hin as [<-|[]]. reflexivity.
Qed.

Lemma updateGrade_frame_witness :
  exists (graded : Submission.t) (w' : World),
    GradingHandlers.updateGrade Example.supabase
      {| GradingHandlers.submission_id := "u1";
         GradingHandlers.grade := Request.Absent;
         GradingHandlers.feedback := Request.Given "Regraded" |}
      (Example.world Sample.term) =
      (Return (respond 200 (Success graded)), w')
    /\ Submission.grade graded = Some (70 # 1)%Q
    /\ Submission.feedback graded = Some "Regraded"
    /\ Submission.graded_by graded = Some "lecturer-1"
    /\ outbox w' = [].
Proof.
  destruct (updateGrade_frame Example.supabase
              {| GradingHandlers.submission_id := "u1";
                 GradingHandlers.grade := Request.Absent;
                 GradingHandlers.feedback := Request.Given "Regraded" |}
              (Example.world Sample.term)
              (Sample.handed_in_at "u1" "a1" "s1" "2025-11-25T10:00:00Z"
                 (Some (70 # 1)%Q))
              eq_refl eq_refl)
    as (graded & w' & Hrun & Hrow & _ & _ & _ & _ & _ & Hout).
  exists graded, w'. split; [exact Hrun|]. subst graded.
  split; [reflexivity|]. split; [reflexivity|].
  split; [reflexivity|exact Hout].
Defined.

(** ** get-statistics *)

Section StatisticsFacts.

Import GradingHandlers.
Local Open Scope Q_scope.

Lemma lt_Num (x y : Q) : Js.lt (Js.Num x) (Js.Num y) = true <-> x < y.
Proof.
  unfold Js.lt. rewrite negb_true_iff. split.
  - intros H. apply Qnot_le_lt. intros Hle.
    apply Qle_bool_iff in Hle. congruence.
  - intros H. destruct (Qle_bool y x) eqn:E; [|reflexivity].
    apply Qle_bool_iff in E. destruct (Qlt_not_le _ _ H E).
Qed.

Lemma lt_Num_false (x y : Q) : Js.lt (Js.Num x) (Js.Num y) = false <-> y <= x.
Proof.
  unfold Js.lt. rewrite negb_false_iff. apply Qle_bool_iff.
Qed.

(** The smallest of a number and a list of numbers. *)
Lemma min_fold (qs : list Q) (m : Q) :
  exists lo : Q,
    fold_left
      (fun m x =>
         if Js.isNaN m || Js.isNaN x then Js.NaN
         else if Js.lt x m then x else m)
      (map Js.Num qs) (Js.Num m) = Js.Num lo
    /\ (lo = m \/ In lo qs)
    /\ lo <= m
    /\ Forall (fun g => lo <= g) qs.
Proof.
  revert m. induction qs as [|q qs IH]; intros m.
  - exists m. repeat split; [left; reflexivity|apply Qle_refl|constructor].
  - cbn [map fold_left Js.isNaN orb].
    destruct (Js.lt (Js.Num q) (Js.Num m)) eqn:E.
    + apply lt_Num in E.
      destruct (IH q) as (lo & Hfold & Hin & Hle & Hall).
      exists lo. split; [exact Hfold|]. split; [|split].
      * right. destruct Hin as [->|Hin]; [left; reflexivity|right; exact Hin].
      * apply Qle_trans with q; [exact Hle|apply Qlt_le_weak, E].
      * constructor; assumption.
    + apply lt_Num_false in E.
      destruct (IH m) as (lo & Hfold & Hin & Hle & Hall).
      exists lo. split; [exact Hfold|]. split; [|split].
      * destruct Hin as [->|Hin]; [left; reflexivity|right; right; exact Hin].
      * exact Hle.
      * constructor; [apply Qle_trans with m; assumption|exact Hall].
Qed.

Lemma max_fold (qs : list Q) (m : Q) :
  exists hi : Q,
    fold_left
      (fun m x =>
         if Js.isNaN m || Js.isNaN x then Js.NaN
         else if Js.gt x m then x else m)
      (map Js.Num qs) (Js.Num m) = Js.Num hi
    /\ (hi = m \/ In hi qs)
    /\ m <= hi
    /\ Forall (fun g => g <= hi) qs.
Proof.
  revert m. induction qs as [|q qs IH]; intros m.
  - exists m. repeat split; [left; reflexivity|apply Qle_refl|constructor].
  - cbn [map fold_left Js.isNaN orb].
    change (Js.gt (Js.Num q) (Js.Num m)) with (Js.lt (Js.Num m) (Js.Num q)).
    destruct (Js.lt (Js.Num m) (Js.Num q)) eqn:E.
    + apply lt_Num in E.
      destruct (IH q) as (hi & Hfold & Hin & Hle & Hall).
      exists hi. split; [exact Hfold|]. split; [|split].
      * right. destruct Hin as [->|Hin]; [left; reflexivity|right; exact Hin].
      * apply Qle_trans with q; [apply Qlt_le_weak, E|exact Hle].
      * constructor; assumption.
    + apply lt_Num_false in E.
      destruct (IH m) as (hi & Hfold & Hin & Hle & Hall).
      exists hi. split; [exact Hfold|]. split; [|split].
      * destruct Hin as [->|Hin]; [left; reflexivity|right; right; exact Hin].
      * exact Hle.
      * constructor; [apply Qle_trans with m; assumption|exact Hall].
Qed.

Lemma Math_min_Num (q : Q) (qs : list Q) :
  exists lo : Q,
    Math_min (map Js.Num (q :: qs)) = Js.Num lo
    /\ In lo (q :: qs)
    /\ Forall (fun g => lo <= g) (q :: qs).
Proof.
  unfold Math_min. cbn [map fold_left Js.isNaN orb Js.lt].
  destruct (min_fold qs q) as (lo & Hfold & Hin & Hle & Hall).
  exists lo. split; [exact Hfold|]. split.
  - destruct Hin as [->|Hin]; [left; reflexivity|right; exact Hin].
  - constructor; assumption.
Qed.

Lemma Math_max_Num (q : Q) (qs : list Q) :
  exists hi : Q,
    Math_max (map Js.Num (q :: qs)) = Js.Num hi
    /\ In hi (q :: qs)
    /\ Forall (fun g => g <= hi) (q :: qs).
Proof.
  unfold Math_max. cbn [map fold_left Js.isNaN orb Js.gt Js.lt].
  destruct (max_fold qs q) as (hi & Hfold & Hin & Hle & Hall).
  exists hi. split; [exact Hfold|]. split.
  - destruct Hin as [->|Hin]; [left; reflexivity|right; exact Hin].
  - constructor; assumption.
Qed.

(** The operands of rows that all carry a grade. *)
Lemma grade_operands_graded (rows : list Submission.t) :
  Forall (fun s => AnalyticsService.graded s = true) rows ->
  map AnalyticsService.grade_operand rows =
  map Js.Num (omap Submission.grade rows).
Proof.
  induction 1 as [|s rows Hs _ IH]; [reflexivity|].
  cbn [map omap list_omap].
  unfold AnalyticsService.graded in Hs.
  unfold AnalyticsService.grade_operand at 1.
  destruct (Submission.grade s); [|discriminate].
  cbn [map]. rewrite IH. reflexivity.
Qed.

Lemma selected_graded (data : option StatisticsData) (s : Store.t)
    (rows : list Submission.t) :
  Forall (fun sub => AnalyticsService.graded sub = true)
    (List.filter (selected data s) rows).
Proof.
  apply List.Forall_forall. intros sub Hin. apply filter_In in Hin as [_ Hsel].
  unfold selected in Hsel. apply andb_true_iff in Hsel as [_ Hg]. exact Hg.
Qed.

End StatisticsFacts.

Lemma fold_left_over_map {A B C : Type} (f : A -> B -> A) (g : C -> B)
    (l : list C) (a : A) :
  fold_left f (map g l) a = fold_left (fun acc x => f acc (g x)) l a.
Proof.
  revert a. induction l as [|x l IH]; intros a; [reflexivity|].
  cbn. apply IH.
Qed.

Lemma filter_and_then {A : Type} (p q : A -> bool) (l : list A) :
  List.filter (fun x => p x && q x) l = List.filter q (List.filter p l).
Proof.
  induction l as [|x l IH]; [reflexivity|].
  cbn [List.filter]. destruct (p x); cbn [andb List.filter];
    [destruct (q x)|]; rewrite IH; reflexivity.
Qed.

(** X9. [getStatistics] answers 200 and changes nothing.  Over the
    non-null grades of the submissions that pass the requested filters:
    count is their number; with none, count, average, min and max are all
    the number 0; otherwise min and max are grades of the list and every
    grade lies between them. *)
Theorem getStatistics_summary
    (supabase : Supabase) (data : option GradingHandlers.StatisticsData)
    (w : World) :
  let grades :=
    omap Submission.grade
      (List.filter (GradingHandlers.selected data (db w))
         (Store.submissions (db w))) in
  exists st : GradingHandlers.Statistics,
    GradingHandlers.getStatistics supabase data w =
      (Return (respond 200 (Success st)), w)
    /\ GradingHandlers.count st = Js.len grades
    /\ (grades = [] ->
        st = {| GradingHandlers.count := Js.of_Z 0;
                GradingHandlers.average := Js.of_Z 0;
                GradingHandlers.min := Js.of_Z 0;
                GradingHandlers.max := Js.of_Z 0 |})
    /\ (grades <> [] ->
        exists lo hi : Q,
          GradingHandlers.min st = Js.Num lo
          /\ GradingHandlers.max st = Js.Num hi
          /\ In lo grades
          /\ In hi grades
          /\ Forall (fun g => (lo <= g)%Q /\ (g <= hi)%Q) grades).
Proof.
  cbv zeta. eexists. split; [reflexivity|].
  cbn [Query.data Query.ok].
  pose proof (selected_graded data (db w) (Store.submissions (db w))) as Hg.
  pose proof (grade_operands_graded _ Hg) as Hops.
  destruct (List.filter (GradingHandlers.selected data (db w))
              (Store.submissions (db w))) as [|s rows] eqn:E.
  - split; [reflexivity|]. split; [reflexivity|].
    intros Hne. destruct (Hne eq_refl).
  - unfold GradingHandlers.statistics. cbv zeta.
    cbn [GradingHandlers.count GradingHandlers.min GradingHandlers.max].
    rewrite Hops.
    destruct (omap Submission.grade (s :: rows)) as [|q qs] eqn:Eg.
    + apply (f_equal (@length _)) in Hops. discriminate.
    + split.
      * unfold Js.len. rewrite !length_map. reflexivity.
      * split; [discriminate|]. intros _.
        destruct (Math_min_Num q qs) as (lo & Hmin & Hlo & Hall_lo).
        destruct (Math_max_Num q qs) as (hi & Hmax & Hhi & Hall_hi).
        exists lo, hi. repeat (split; [assumption|]).
        apply List.Forall_forall. intros g Hin.
        rewrite List.Forall_forall in Hall_lo, Hall_hi. split; auto.
Qed.

Lemma getStatistics_summary_witness :
  exists st : GradingHandlers.Statistics,
    GradingHandlers.getStatistics Example.supabase
      (Some {| GradingHandlers.assignment_id := Some "a1";
               GradingHandlers.course_id := None |})
      (Example.world Sample.term) =
      (Return (respond 200 (Success st)), Example.world Sample.term)
    /\ GradingHandlers.count st = Js.of_Z 2
    /\ exists lo hi : Q,
         GradingHandlers.min st = Js.Num lo
         /\ GradingHandlers.max st = Js.Num hi
         /\ In lo [70 # 1; 90 # 1]%Q
         /\ In hi [70 # 1; 90 # 1]%Q.
Proof.
  destruct (getStatistics_summary Example.supabase
              (Some {| GradingHandlers.assignment_id := Some "a1";
                       GradingHandlers.course_id := None |})
              (Example.world Sample.term))
    as (st & Hrun & Hcount & _ & Hbounds).
  exists st. split; [exact Hrun|]. split; [exact Hcount|].
  destruct Hbounds as (lo & hi & Hmin & Hmax & Hlo & Hhi & _);
    [discriminate|].
  exists lo, hi. repeat split; assumption.
Defined.

(** X10. The statistics of a course agree with its analytics: asked with
    a course id only, [getStatistics] reports as count and average what
    [getCourseAnalytics] reports for that course as graded_submissions and
    average_grade. *)
Theorem getStatistics_agrees_with_analytics
    (supabase : Supabase) (course : Id) (w : World) :
  course <> EmptyString ->
  exists (st : GradingHandlers.Statistics)
         (analytics : AnalyticsService.CourseAnalytics),
    GradingHandlers.getStatistics supabase
      (Some {| GradingHandlers.assignment_id := None;
               GradingHandlers.course_id := Some course |}) w =
      (Return (respond 200 (Success st)), w)
    /\ AnalyticsService.getCourseAnalytics supabase course w =
       (Return (respond 200 (Success analytics)), w)
    /\ GradingHandlers.count st =
       AnalyticsService.graded_submissions analytics
    /\ GradingHandlers.average st = AnalyticsService.average_grade analytics.
Proof.
  intros Hcourse. eexists. eexists.
  split; [reflexivity|]. split; [apply getCourseAnalytics_run|].
  cbn [Query.data Query.ok].
  assert (Hrows :
    List.filter
      (GradingHandlers.selected
         (Some {| GradingHandlers.assignment_id := None;
                  GradingHandlers.course_id := Some course |}) (db w))
      (Store.submissions (db w)) =
    List.filter AnalyticsService.graded
      (List.filter (AnalyticsService.in_course course (db w))
         (Store.submissions (db w)))).
  { rewrite <- filter_and_then. apply filter_ext. intros s.
    unfold GradingHandlers.selected, eq_if_wanted, wanted.
    cbn [mbind option_bind GradingHandlers.assignment_id
         GradingHandlers.course_id].
    apply String.eqb_neq in Hcourse. rewrite Hcourse. reflexivity. }
  rewrite Hrows.
  unfold AnalyticsService.course_analytics.
  cbn [AnalyticsService.graded_submissions AnalyticsService.average_grade].
  set (rows := List.filter AnalyticsService.graded _).
  unfold GradingHandlers.statistics.
  destruct rows as [|s rows]; [split; reflexivity|].
  cbv zeta. cbn [GradingHandlers.count GradingHandlers.average].
  rewrite gt_len_0. cbn [length Nat.eqb negb].
  split.
  - unfold Js.len. rewrite length_map. reflexivity.
  - rewrite fold_left_over_map. unfold Js.len. rewrite length_map.
    reflexivity.
Qed.

Lemma getStatistics_agrees_with_analytics_witness :
  exists (st : GradingHandlers.Statistics)
         (analytics : AnalyticsService.CourseAnalytics),
    GradingHandlers.getStatistics Example.supabase
      (Some {| GradingHandlers.assignment_id := None;
               GradingHandlers.course_id := Some "c1" |})
      (Example.world Sample.term) =
      (Return (respond 200 (Success st)), Example.world Sample.term)
    /\ AnalyticsService.getCourseAnalytics Example.supabase "c1"
         (Example.world Sample.term) =
       (Return (respond 200 (Success analytics)), Example.world Sample.term)
    /\ GradingHandlers.count st =
       AnalyticsService.graded_submissions analytics
    /\ GradingHandlers.average st = AnalyticsService.average_grade analytics.
Proof.
  apply (getStatistics_agrees_with_analytics Example.supabase "c1"
           (Example.world Sample.term)).
  discriminate.
Defined.

(** ** Who is notified *)

Lemma length_zero_nil {A : Type} (l : list A) :
  Js.gt (Js.len l) (Js.of_Z 0) = false -> l = [].
Proof.
  rewrite gt_len_0. destruct l; [reflexivity|discriminate].
Qed.

(** X11. [createAssignment] sends, after the insert, exactly one
    notification per active enrollment of the course, in the order of the
    table and addressed to the enrolled student; enrollments of other
    courses or in another status get none. *)
Theorem createAssignment_notifies_active
    (supabase : Supabase) (data : AssignmentService.CreateData) (w : World) :
  policy supabase (InsertAssignment (AssignmentService.new_assignment data))
    (db w) = None ->
  exists (a : Assignment.t) (w' : World),
    AssignmentService.createAssignment supabase data w =
      (Return (respond 200 (Success a)), w')
    /\ outbox w' =
       (outbox w
        ++ map (AssignmentService.posted_notice a)
             (List.filter
                (AssignmentService.active_in
                   (AssignmentService.course_id data))
                (Store.enrollments (db w))))%list
    /\ (forall n : Notification.t,
          In n (outbox w') ->
          In n (outbox w)
          \/ exists e : Enrollment.t,
               In e (Store.enrollments (db w))
               /\ Enrollment.course_id e = AssignmentService.course_id data
               /\ Enrollment.status e = "active"
               /\ Notification.user_id n = Enrollment.student_id e).
Proof.
  intros Hpol. unfold AssignmentService.createAssignment.
  rewrite bind_run. unfold insert_assignment.
  rewrite (write_accepted supabase _ _ _ Hpol). cbn [fst snd].
  rewrite bind_run. cbn [throw_on_error Query.error Query.ok mret M_ret ret].
  rewrite bind_run. cbn [row_of Query.data Query.ok mret M_ret ret].
  rewrite bind_run. unfold select at 1. cbn [Query.data Query.ok].
  rewrite bind_run.
  cbn [db with_db log Store.with_assignments Store.enrollments].
  set (active := List.filter _ (Store.enrollments (db w))).
  set (a := {| Assignment.id := fresh_id supabase (db w) |}).
  assert (Hin :
    forall n : Notification.t,
      In n (outbox w ++ map (AssignmentService.posted_notice a) active) ->
      In n (outbox w)
      \/ exists e : Enrollment.t,
           In e (Store.enrollments (db w))
           /\ Enrollment.course_id e = AssignmentService.course_id data
           /\ Enrollment.status e = "active"
           /\ Notification.user_id n = Enrollment.student_id e).
  { intros n Hn. apply in_app_or in Hn as [Hn|Hn]; [left; exact Hn|].
    right. apply in_map_iff in Hn as (e & <- & He).
    apply filter_In in He as [He Hact].
    unfold AssignmentService.active_in in Hact.
    apply andb_true_iff in Hact as [Hc Hs].
    apply String.eqb_eq in Hc. apply String.eqb_eq in Hs.
    exists e. repeat split; assumption. }
  destruct (Js.gt (Js.len active) (Js.of_Z 0)) eqn:E.
  - rewrite for_each_send. exists a. eexists.
    split; [reflexivity|]. split; [reflexivity|exact Hin].
  - apply length_zero_nil in E. exists a. eexists.
    split; [reflexivity|]. cbn [outbox]. rewrite E in Hin |- *.
    cbn [map]. rewrite app_nil_r in Hin |- *. split; [reflexivity|exact Hin].
Qed.

Lemma createAssignment_notifies_active_witness :
  exists (a : Assignment.t) (w' : World),
    AssignmentService.createAssignment Example.supabase Example.ungraded_quiz
      (Example.world Sample.term) =
      (Return (respond 200 (Success a)), w')
    /\ map Notification.user_id (outbox w') = ["s1"; "s3"].
Proof.
  destruct (createAssignment_notifies_active Example.supabase
              Example.ungraded_quiz (Example.world Sample.term) eq_refl)
    as (a & w' & Hrun & Hout & _).
  exists a, w'. split; [exact Hrun|]. rewrite Hout. reflexivity.
Defined.

(** X12. A successful [enrollStudent] sends exactly one notification, to
    the enrolled student; its message names the course by its title, or
    says "the course" when no course carries the id of the request.  A
    request answered with an error sends none. *)
Theorem enrollStudent_notifies_student
    (supabase : Supabase) (data : EnrollmentService.EnrollData) (w : World) :
  (forall (row : Enrollment.t) (w' : World),
     EnrollmentService.enrollStudent supabase data w =
       (Return (respond 200 (Success row)), w') ->
     exists n : Notification.t,
       outbox w' = (outbox w ++ [n])%list
       /\ Notification.user_id n = EnrollmentService.student_id data
       /\ (forall c : Course.t,
             List.filter
               (fun c => String.eqb (Course.id c)
                           (EnrollmentService.course_id data))
               (Store.courses (db w)) = [c] ->
             Course.title c <> EmptyString ->
             Notification.message n =
             "You have been enrolled in " +:+ dquote +:+ Course.title c
             +:+ dquote +:+ ".")
       /\ ((forall c : Course.t,
              In c (Store.courses (db w)) ->
              Course.id c <> EnrollmentService.course_id data) ->
           Notification.message n =
           "You have been enrolled in " +:+ dquote +:+ "the course"
           +:+ dquote +:+ "."))
  /\ (forall (msg : string) (w' : World),
        EnrollmentService.enrollStudent supabase data w =
          (Return (respond 400 (Failure msg)), w') ->
        outbox w' = outbox w)
  /\ (forall (e : ErrorMsg) (w' : World),
        EnrollmentService.enrollStudent supabase data w = (Throw e, w') ->
        outbox w' = outbox w).
Proof.
  rewrite enrollStudent_run.
  assert (Hnotice :
    forall courses : list Course.t,
      (forall c : Course.t,
         courses = [c] ->
         Course.title c <> EmptyString ->
         Notification.message
           (EnrollmentService.enrolled_notice data
              (Query.data (Query.single courses))) =
         "You have been enrolled in " +:+ dquote +:+ Course.title c
         +:+ dquote +:+ ".")
      /\ (courses = [] ->
          Notification.message
            (EnrollmentService.enrolled_notice data
               (Query.data (Query.single courses))) =
          "You have been enrolled in " +:+ dquote +:+ "the course"
          +:+ dquote +:+ ".")).
  { intros courses. split.
    - intros c -> Htitle. cbn. unfold string_or.
      apply String.eqb_neq in Htitle. rewrite Htitle. reflexivity.
    - intros ->. reflexivity. }
  assert (Hnone :
    (forall c : Course.t,
       In c (Store.courses (db w)) ->
       Course.id c <> EnrollmentService.course_id data) ->
    List.filter
      (fun c => String.eqb (Course.id c) (EnrollmentService.course_id data))
      (Store.courses (db w)) = []).
  { intros Hmiss. apply existsb_filter_nil.
    destruct (existsb _ (Store.courses (db w))) eqn:E; [|reflexivity].
    apply existsb_exists in E as (c & Hc & Hid).
    apply String.eqb_eq in Hid. destruct (Hmiss c Hc Hid). }
  destruct (List.filter (EnrollmentService.same_pair data)
              (Store.enrollments (db w))) as [|e [|e' rest]];
    cbv zeta;
    try (destruct (policy supabase _ (db w)));
    (split; [|split]);
    try (intros ? ? [= _ <-]; reflexivity);
    try discriminate;
    intros row w' [= _ <-]; eexists; (split; [reflexivity|]);
    (split; [reflexivity|]); (split; [apply Hnotice|]);
    intros Hmiss; apply Hnotice, Hnone, Hmiss.
Qed.

Lemma enrollStudent_notifies_student_witness :
  exists (row : Enrollment.t) (w' : World),
    EnrollmentService.enrollStudent Example.supabase
      {| EnrollmentService.student_id := "s7";
         EnrollmentService.course_id := "c1" |}
      (Example.world Sample.term) =
      (Return (respond 200 (Success row)), w')
    /\ exists n : Notification.t,
         outbox w' = [n]
         /\ Notification.user_id n = "s7"
         /\ Notification.message n =
            "You have been enrolled in " +:+ dquote +:+ "Algebra"
            +:+ dquote +:+ ".".
Proof.
  eexists. eexists. split; [reflexivity|].
  destruct (proj1 (enrollStudent_notifies_student Example.supabase
                     {| EnrollmentService.student_id := "s7";
                        EnrollmentService.course_id := "c1" |}
                     (Example.world Sample.term)) _ _ eq_refl)
    as (n & Hout & Hto & Htitle & _).
  exists n. split; [exact Hout|]. split; [exact Hto|].
  apply (Htitle Example.algebra); [reflexivity|discriminate].
Defined.

(** X13. A successful [createSubmission] notifies the creator of the
    course of the assignment, and nobody else; when no assignment carries
    the id of the request the submission is created all the same and nobody
    is notified.  A request answered with the duplicate error sends
    nothing. *)
Theorem createSubmission_notifies_lecturer
    (supabase : Supabase) (data : SubmissionService.CreateData) (w : World) :
  (forall (row : Submission.t) (w' : World),
     SubmissionService.createSubmission supabase data w =
       (Return (respond 200 (Success row)), w') ->
     (forall (a : Assignment.t) (c : Course.t),
        List.filter
          (fun a => String.eqb (Assignment.id a)
                      (SubmissionService.assignment_id data))
          (Store.assignments (db w)) = [a] ->
        SubmissionService.course_of (db w) a = Some c ->
        Course.created_by c <> EmptyString ->
        exists n : Notification.t,
          outbox w' = (outbox w ++ [n])%list
          /\ Notification.user_id n = Course.created_by c
          /\ Notification.message n =
             "A student has submitted assignment " +:+ dquote
             +:+ Assignment.title a +:+ dquote +:+ ".")
     /\ ((forall a : Assignment.t,
            In a (Store.assignments (db w)) ->
            Assignment.id a <> SubmissionService.assignment_id data) ->
         outbox w' = outbox w
         /\ In row (Store.submissions (db w'))))
  /\ (forall (msg : string) (w' : World),
        SubmissionService.createSubmission supabase data w =
          (Return (respond 400 (Failure msg)), w') ->
        outbox w' = outbox w).
Proof.
  rewrite createSubmission_run.
  assert (Hnone :
    (forall a : Assignment.t,
       In a (Store.assignments (db w)) ->
       Assignment.id a <> SubmissionService.assignment_id data) ->
    List.filter
      (fun a => String.eqb (Assignment.id a)
                  (SubmissionService.assignment_id data))
      (Store.assignments (db w)) = []).
  { intros Hmiss. apply existsb_filter_nil.
    destruct (existsb _ (Store.assignments (db w))) eqn:E; [|reflexivity].
    apply existsb_exists in E as (a & Ha & Hid).
    apply String.eqb_eq in Hid. destruct (Hmiss a Ha Hid). }
  destruct (List.filter (SubmissionService.same_pair data)
              (Store.submissions (db w))) as [|e [|e' rest]];
    cbv zeta;
    try (destruct (policy supabase _ (db w)));
    (split; [|intros ? ? [= _ <-]; reflexivity || discriminate]);
    try discriminate;
    intros row w' [= <- <-]; cbn [outbox db Store.with_submissions
                                   Store.submissions]; split.
  all: try (intros a c -> Hc Hcreator; cbn [map Query.single Query.ok
                                             Query.data];
            unfold SubmissionService.lecturer_of; cbn [Query.data Query.ok];
            rewrite Hc; apply String.eqb_neq in Hcreator; rewrite Hcreator;
            eexists; split; [reflexivity|]; split; reflexivity).
  all: intros Hmiss; rewrite (Hnone Hmiss); cbn; rewrite app_nil_r;
    (split; [reflexivity|]); apply in_or_app; right; left; reflexivity.
Qed.

Lemma createSubmission_notifies_lecturer_witness :
  exists (row : Submission.t) (w' : World),
    SubmissionService.createSubmission Example.supabase
      {| SubmissionService.assignment_id := "a2";
         SubmissionService.student_id := "s3";
         SubmissionService.content := "late answer";
         SubmissionService.file_url := None |}
      (Example.world Sample.term) =
      (Return (respond 200 (Success row)), w')
    /\ exists n : Notification.t,
         outbox w' = [n]
         /\ Notification.user_id n = "lecturer-1"
         /\ Notification.message n =
            "A student has submitted assignment " +:+ dquote
            +:+ "Homework a2" +:+ dquote +:+ ".".
Proof.
  eexists. eexists. split; [reflexivity|].
  apply (proj1 (proj1 (createSubmission_notifies_lecturer Example.supabase
                         {| SubmissionService.assignment_id := "a2";
                            SubmissionService.student_id := "s3";
                            SubmissionService.content := "late answer";
                            SubmissionService.file_url := None |}
                         (Example.world Sample.term)) _ _ eq_refl)
           Sample.late_homework Example.algebra);
    [reflexivity|reflexivity|discriminate].
Defined.

(** ** enrollment-service: unenroll and update-status *)

Section EnrollmentHandlerFacts.

Context (layer : DataLayer).

Lemma unenrollStudent_run (data : EnrollmentService.EnrollData) (w : World) :
  EnrollmentHandlers.unenrollStudent layer data w =
  match refuses layer
          (DeleteEnrollments (EnrollmentService.student_id data)
             (EnrollmentService.course_id data)) (db w) with
  | Some e => (Throw e, w)
  | None =>
      (Return (respond 200 (Success tt)),
       with_db
         (Store.with_enrollments
            (List.filter (fun e => negb (EnrollmentService.same_pair data e))
               (Store.enrollments (db w))) (db w)) w)
  end.
Proof.
  unfold EnrollmentHandlers.unenrollStudent,
    EnrollmentHandlers.delete_enrollments.
  rewrite bind_run. unfold change.
  destruct (refuses layer _ (db w)); reflexivity.
Qed.

Lemma updateEnrollmentStatus_run (data : EnrollmentHandlers.StatusData)
    (w : World) :
  EnrollmentHandlers.updateEnrollmentStatus layer data w =
  match refuses layer
          (UpdateEnrollmentStatus (EnrollmentHandlers.id data)
             (EnrollmentHandlers.status data)) (db w) with
  | Some e => (Throw e, w)
  | None =>
      match List.filter (EnrollmentHandlers.names (EnrollmentHandlers.id data))
              (Store.enrollments (db w)) with
      | [e] =>
          (Return
             (respond 200
                (Success
                   (EnrollmentHandlers.with_status
                      (EnrollmentHandlers.status data) e))),
           with_db
             (Store.with_enrollments
                (map (fun e =>
                        if EnrollmentHandlers.names
                             (EnrollmentHandlers.id data) e
                        then EnrollmentHandlers.with_status
                               (EnrollmentHandlers.status data) e
                        else e)
                   (Store.enrollments (db w))) (db w)) w)
      | _ => (Throw Query.not_single, w)
      end
  end.
Proof.
  unfold EnrollmentHandlers.updateEnrollmentStatus,
    EnrollmentHandlers.update_status.
  rewrite bind_run. unfold change.
  destruct (refuses layer _ (db w)); [reflexivity|].
  destruct (List.filter _ (Store.enrollments (db w))) as [|e [|e' rest]];
    destruct w; reflexivity.
Qed.

End EnrollmentHandlerFacts.

Lemma filter_not_then {A : Type} (p : A -> bool) (l : list A) :
  List.filter p (List.filter (fun x => negb (p x)) l) = [].
Proof.
  induction l as [|x l IH]; [reflexivity|].
  cbn [List.filter]. destruct (p x) eqn:E; cbn [negb List.filter];
    [exact IH|]. rewrite E. exact IH.
Qed.

Lemma filter_not_none {A : Type} (p : A -> bool) (l : list A) :
  List.filter p l = [] -> List.filter (fun x => negb (p x)) l = l.
Proof.
  induction l as [|x l IH]; [reflexivity|].
  cbn [List.filter]. destruct (p x); [discriminate|].
  intros H. cbn [negb]. rewrite (IH H). reflexivity.
Qed.

(** X14. [unenrollStudent], when the data layer accepts the delete,
    answers 200 and removes every enrollment of the pair, whatever its
    status: none is left, the enrollments of other pairs stay in their
    order, the other tables are untouched and nothing is sent.  Unenrolling
    a pair that is not enrolled is also answered 200 and changes nothing. *)
Theorem unenrollStudent_removes_pair
    (layer : DataLayer) (data : EnrollmentService.EnrollData) (w : World) :
  refuses layer
    (DeleteEnrollments (EnrollmentService.student_id data)
       (EnrollmentService.course_id data)) (db w) = None ->
  exists w' : World,
    EnrollmentHandlers.unenrollStudent layer data w =
      (Return (respond 200 (Success tt)), w')
    /\ existsb (EnrollmentService.same_pair data) (Store.enrollments (db w'))
       = false
    /\ (forall e : Enrollment.t,
          In e (Store.enrollments (db w')) <->
          In e (Store.enrollments (db w))
          /\ EnrollmentService.same_pair data e = false)
    /\ Store.enrollments (db w') =
       List.filter (fun e => negb (EnrollmentService.same_pair data e))
         (Store.enrollments (db w))
    /\ Store.courses (db w') = Store.courses (db w)
    /\ Store.assignments (db w') = Store.assignments (db w)
    /\ Store.submissions (db w') = Store.submissions (db w)
    /\ outbox w' = outbox w
    /\ (existsb (EnrollmentService.same_pair data) (Store.enrollments (db w))
          = false ->
        Store.enrollments (db w') = Store.enrollments (db w)).
Proof.
  intros Hok. rewrite unenrollStudent_run, Hok. eexists.
  split; [reflexivity|].
  cbn [db with_db outbox Store.with_enrollments Store.enrollments
       Store.courses Store.assignments Store.submissions].
  split; [apply existsb_filter_nil, filter_not_then|].
  split.
  { intros e. rewrite filter_In, negb_true_iff. reflexivity. }
  repeat (split; [reflexivity|]).
  intros Hnone. apply filter_not_none, existsb_filter_nil, Hnone.
Qed.

Lemma unenrollStudent_removes_pair_witness :
  exists w' : World,
    EnrollmentHandlers.unenrollStudent Sample.layer Example.enroll_s1
      (Example.world Sample.term) =
      (Return (respond 200 (Success tt)), w')
    /\ map Enrollment.id (Store.enrollments (db w')) = ["e2"; "e3"].
Proof.
  destruct (unenrollStudent_removes_pair Sample.layer Example.enroll_s1
              (Example.world Sample.term) eq_refl)
    as (w' & Hrun & _ & _ & Hrows & _).
  exists w'. split; [exact Hrun|]. rewrite Hrows. reflexivity.
Defined.

(** X15. Enrolling and then unenrolling a pair that was not enrolled
    before brings the enrollments table back to what it was. *)
Theorem unenroll_undoes_enroll
    (layer : DataLayer) (supabase : Supabase)
    (data : EnrollmentService.EnrollData) (w w1 : World)
    (row : Enrollment.t) :
  existsb (EnrollmentService.same_pair data) (Store.enrollments (db w))
    = false ->
  EnrollmentService.enrollStudent supabase data w =
    (Return (respond 200 (Success row)), w1) ->
  refuses layer
    (DeleteEnrollments (EnrollmentService.student_id data)
       (EnrollmentService.course_id data)) (db w1) = None ->
  exists w2 : World,
    EnrollmentHandlers.unenrollStudent layer data w1 =
      (Return (respond 200 (Success tt)), w2)
    /\ db w2 = db w.
Proof.
  intros Hnone Hrun Hok. apply existsb_filter_nil in Hnone.
  rewrite enrollStudent_run, Hnone in Hrun. cbv zeta in Hrun.
  destruct (policy supabase _ (db w)); [discriminate|].
  injection Hrun as _ <-.
  rewrite unenrollStudent_run, Hok. eexists. split; [reflexivity|].
  cbn [db with_db Store.with_enrollments Store.enrollments Store.courses
       Store.user_roles Store.assignments Store.submissions].
  rewrite List.filter_app. cbn [List.filter].
  unfold EnrollmentService.same_pair at 2.
  cbn [Enrollment.student_id Enrollment.course_id].
  rewrite !String.eqb_refl. cbn [andb negb].
  rewrite (filter_not_none _ _ Hnone), app_nil_r.
  destruct (db w); reflexivity.
Qed.

Lemma unenroll_undoes_enroll_witness :
  exists (row : Enrollment.t) (w1 w2 : World),
    EnrollmentService.enrollStudent Example.supabase
      {| EnrollmentService.student_id := "s7";
         EnrollmentService.course_id := "c1" |}
      (Example.world Sample.term) =
      (Return (respond 200 (Success row)), w1)
    /\ EnrollmentHandlers.unenrollStudent Sample.layer
         {| EnrollmentService.student_id := "s7";
            EnrollmentService.course_id := "c1" |} w1 =
       (Return (respond 200 (Success tt)), w2)
    /\ db w2 = Sample.term.
Proof.
  eexists. eexists.
  destruct (unenroll_undoes_enroll Sample.layer Example.supabase
              {| EnrollmentService.student_id := "s7";
                 EnrollmentService.course_id := "c1" |}
              (Example.world Sample.term) _ _ eq_refl eq_refl eq_refl)
    as (w2 & Hrun & Hdb).
  exists w2. split; [reflexivity|]. split; [exact Hrun|exact Hdb].
Defined.

(** X16. After an accepted [unenrollStudent] the pair can be enrolled
    again: [enrollStudent] does not answer with the duplicate error but
    inserts, when the data layer accepts the write, and the table then
    holds exactly one enrollment for the pair, in status active; this holds
    whatever enrollments the pair had before. *)
Theorem enroll_after_unenroll
    (layer : DataLayer) (supabase : Supabase)
    (data : EnrollmentService.EnrollData) (w w1 : World) :
  EnrollmentHandlers.unenrollStudent layer data w =
    (Return (respond 200 (Success tt)), w1) ->
  policy supabase
    (InsertEnrollment (EnrollmentService.student_id data)
       (EnrollmentService.course_id data) "active") (db w1) = None ->
  exists (row : Enrollment.t) (w2 : World),
    EnrollmentService.enrollStudent supabase data w1 =
      (Return (respond 200 (Success row)), w2)
    /\ List.filter (EnrollmentService.same_pair data)
         (Store.enrollments (db w2)) = [row]
    /\ Enrollment.status row = "active".
Proof.
  rewrite unenrollStudent_run.
  destruct (refuses layer _ (db w)); [discriminate|].
  intros [= <-] Hpol. rewrite enrollStudent_run.
  cbn [db with_db Store.with_enrollments Store.enrollments] in Hpol |- *.
  rewrite filter_not_then. cbv zeta. rewrite Hpol.
  eexists. eexists. split; [reflexivity|].
  cbn [db Store.with_enrollments Store.enrollments].
  split; [|reflexivity].
  rewrite List.filter_app, filter_not_then. cbn [List.filter app].
  unfold EnrollmentService.same_pair.
  cbn [Enrollment.student_id Enrollment.course_id].
  rewrite !String.eqb_refl. reflexivity.
Qed.

Lemma enroll_after_unenroll_witness :
  exists (w1 : World) (row : Enrollment.t) (w2 : World),
    EnrollmentHandlers.unenrollStudent Sample.layer
      {| EnrollmentService.student_id := "s2";
         EnrollmentService.course_id := "c1" |}
      (Example.world Sample.term) =
      (Return (respond 200 (Success tt)), w1)
    /\ EnrollmentService.enrollStudent Example.supabase
         {| EnrollmentService.student_id := "s2";
            EnrollmentService.course_id := "c1" |} w1 =
       (Return (respond 200 (Success row)), w2)
    /\ Enrollment.status row = "active".
Proof.
  eexists.
  destruct (enroll_after_unenroll Sample.layer Example.supabase
              {| EnrollmentService.student_id := "s2";
                 EnrollmentService.course_id := "c1" |}
              (Example.world Sample.term) _ eq_refl eq_refl)
    as (row & w2 & Hrun & _ & Hstatus).
  exists row, w2. split; [reflexivity|]. split; [exact Hrun|exact Hstatus].
Defined.

Lemma filter_map_same {A : Type} (p : A -> bool) (f : A -> A) (l : list A) :
  (forall x : A, p (f x) = p x) ->
  List.filter p (map f l) = map f (List.filter p l).
Proof.
  intros H. induction l as [|x l IH]; [reflexivity|].
  cbn [map List.filter]. rewrite H. destruct (p x); cbn [map]; congruence.
Qed.

(** X17. Changing the status of an enrollment does not free the pair:
    after an accepted [updateEnrollmentStatus], to whatever status, an
    enroll request for the student and course of that enrollment is
    answered with the 400 duplicate error and inserts nothing (on a table
    with at most one enrollment for the pair). *)
Theorem enroll_after_status_change
    (layer : DataLayer) (supabase : Supabase)
    (change : EnrollmentHandlers.StatusData) (w w1 : World)
    (e : Enrollment.t) :
  Spec.at_most_one
    (EnrollmentService.same_pair
       {| EnrollmentService.student_id := Enrollment.student_id e;
          EnrollmentService.course_id := Enrollment.course_id e |})
    (Store.enrollments (db w)) ->
  EnrollmentHandlers.updateEnrollmentStatus layer change w =
    (Return (respond 200 (Success e)), w1) ->
  Enrollment.status e = EnrollmentHandlers.status change
  /\ EnrollmentService.enrollStudent supabase
       {| EnrollmentService.student_id := Enrollment.student_id e;
          EnrollmentService.course_id := Enrollment.course_id e |} w1 =
     (Return (respond 400 (Failure EnrollmentService.duplicate)), w1).
Proof.
  intros Huniq. rewrite updateEnrollmentStatus_run.
  destruct (refuses layer _ (db w)); [discriminate|].
  destruct (List.filter _ (Store.enrollments (db w)))
    as [|e0 [|e' rest]] eqn:E; try discriminate.
  intros [= <- <-]. split; [reflexivity|].
  rewrite enrollStudent_run.
  cbn [db with_db Store.with_enrollments Store.enrollments
       EnrollmentHandlers.with_status Enrollment.student_id
       Enrollment.course_id] in Huniq |- *.
  set (data := {| EnrollmentService.student_id := Enrollment.student_id e0;
                  EnrollmentService.course_id := Enrollment.course_id e0 |})
    in *.
  rewrite filter_map_same.
  - assert (Hin : In e0 (List.filter (EnrollmentService.same_pair data)
                           (Store.enrollments (db w)))).
    { assert (H0 : In e0 [e0]) by (left; reflexivity).
      rewrite <- E in H0. apply filter_In in H0 as [H0 _].
      apply filter_In. split; [exact H0|].
      unfold EnrollmentService.same_pair, data. cbn.
      rewrite !String.eqb_refl. reflexivity. }
    destruct (at_most_one_cases _ _ Huniq) as [[_ Hnil]|[_ [r Hone]]].
    + rewrite Hnil in Hin. destruct Hin.
    + rewrite Hone. reflexivity.
  - intros x. destruct (EnrollmentHandlers.names _ x); reflexivity.
Qed.

Lemma enroll_after_status_change_witness :
  exists (e : Enrollment.t) (w1 : World),
    EnrollmentHandlers.updateEnrollmentStatus Sample.layer
      {| EnrollmentHandlers.id := "e1";
         EnrollmentHandlers.status := "completed" |}
      (Example.world Sample.term) =
      (Return (respond 200 (Success e)), w1)
    /\ Enrollment.status e = "completed"
    /\ EnrollmentService.enrollStudent Example.supabase Example.enroll_s1 w1 =
       (Return (respond 400 (Failure EnrollmentService.duplicate)), w1).
Proof.
  eexists. eexists. split; [reflexivity|].
  apply (enroll_after_status_change Sample.layer Example.supabase
           {| EnrollmentHandlers.id := "e1";
              EnrollmentHandlers.status := "completed" |}
           (Example.world Sample.term)).
  - unfold Spec.at_most_one. vm_compute. lia.
  - reflexivity.
Defined.

(** ** The form of the submission page *)

Lemma update_submissions_run (supabase : Supabase) (id : Id)
    (patch : Submission.Patch) (w : World) :
  update_submissions supabase id patch w =
  match policy supabase (UpdateSubmission id patch) (db w) with
  | Some e => (Return (Query.failed e), log (UpdateSubmission id patch) w)
  | None =>
      (Return (Query.ok tt),
       {| db := Store.with_submissions
                  (map (fun r => if has_id id r
                                 then Submission.apply patch r else r)
                     (Store.submissions (db w))) (db w);
          outbox := outbox w;
          journal := journal w ++ [UpdateSubmission id patch] |})
  end.
Proof.
  unfold update_submissions.
  destruct (policy supabase (UpdateSubmission id patch) (db w)) as [e|] eqn:H.
  - rewrite (write_refused supabase _ _ _ _ H). reflexivity.
  - rewrite (write_accepted supabase _ _ _ H). reflexivity.
Qed.

(** X18. [handleSubmit] on a page that holds a submission rewrites the
    content of that submission with the text of the text area and nothing
    else: grade, feedback and every other column are kept, as are the other
    rows.  The handler does not look at the grade: it does so for a graded
    submission as well. *)
Theorem handleSubmit_updates_content_only
    (supabase : Supabase) (assignment user : Id) (st : SubmissionPage.State)
    (sub : SubmissionPage.Submission) (w : World) :
  assignment <> EmptyString ->
  SubmissionPage.submission st = Some sub ->
  policy supabase
    (UpdateSubmission (SubmissionPage.id sub)
       (SubmissionForm.content_patch (SubmissionPage.content st))) (db w)
    = None ->
  exists w' : World,
    SubmissionForm.handleSubmit supabase (Some assignment) (Some user) st w =
      (Return
         [SubmissionForm.Toast "Submission updated successfully!" None false;
          SubmissionForm.Navigate "/assignments"],
       w')
    /\ Store.submissions (db w') =
       map (fun r =>
              if has_id (SubmissionPage.id sub) r
              then
                {| Submission.id := Submission.id r;
                   Submission.assignment_id := Submission.assignment_id r;
                   Submission.student_id := Submission.student_id r;
                   Submission.content := SubmissionPage.content st;
                   Submission.file_url := Submission.file_url r;
                   Submission.grade := Submission.grade r;
                   Submission.feedback := Submission.feedback r;
                   Submission.graded_by := Submission.graded_by r;
                   Submission.graded_at := Submission.graded_at r;
                   Submission.submitted_at := Submission.submitted_at r |}
              else r)
         (Store.submissions (db w))
    /\ outbox w' = outbox w.
Proof.
  intros Hid Hsub Hpol. unfold SubmissionForm.handleSubmit, wanted.
  apply String.eqb_neq in Hid. rewrite Hid, Hsub.
  rewrite bind_run, update_submissions_run, Hpol.
  eexists. split; [reflexivity|]. split; reflexivity.
Qed.

Lemma handleSubmit_updates_content_only_witness :
  SubmissionPage.isGraded Sample.edited_page = true
  /\ exists w' : World,
       SubmissionForm.handleSubmit Example.supabase (Some "a1") (Some "s1")
         Sample.edited_page (Example.world Example.three_grades) =
         (Return
            [SubmissionForm.Toast "Submission updated successfully!" None
               false;
             SubmissionForm.Navigate "/assignments"],
          w')
       /\ map (fun r => (Submission.content r, Submission.grade r))
            (Store.submissions (db w')) =
          [("changed my mind", Some (70 # 1)%Q);
           ("my answer", Some (80 # 1)%Q);
           ("my answer", Some (90 # 1)%Q)].
Proof.
  split; [reflexivity|].
  destruct (handleSubmit_updates_content_only Example.supabase "a1" "s1"
              Sample.edited_page _ (Example.world Example.three_grades)
              ltac:(discriminate) eq_refl eq_refl)
    as (w' & Hrun & Hrows & _).
  exists w'. split; [exact Hrun|]. rewrite Hrows. reflexivity.
Defined.

(** X19. [handleSubmit] on a page that holds no submission inserts one for
    the assignment and the user without looking at the table: when a
    submission of that pair is already there and the data layer accepts the
    write, the table ends with two for the pair. *)
Theorem handleSubmit_inserts_unchecked
    (supabase : Supabase) (assignment user : Id) (st : SubmissionPage.State)
    (w : World) :
  assignment <> EmptyString ->
  SubmissionPage.submission st = None ->
  policy supabase
    (InsertSubmission assignment user (SubmissionPage.content st) None)
    (db w) = None ->
  exists (row : Submission.t) (w' : World),
    SubmissionForm.handleSubmit supabase (Some assignment) (Some user) st w =
      (Return
         [SubmissionForm.Toast "Submission created successfully!" None false;
          SubmissionForm.Navigate "/assignments"],
       w')
    /\ Store.submissions (db w') = (Store.submissions (db w) ++ [row])%list
    /\ Submission.assignment_id row = assignment
    /\ Submission.student_id row = user
    /\ Submission.content row = SubmissionPage.content st
    /\ Submission.grade row = None
    /\ (forall data : SubmissionService.CreateData,
          SubmissionService.assignment_id data = assignment ->
          SubmissionService.student_id data = user ->
          existsb (SubmissionService.same_pair data)
            (Store.submissions (db w)) = true ->
          ~ Spec.at_most_one (SubmissionService.same_pair data)
              (Store.submissions (db w'))).
Proof.
  intros Hid Hsub Hpol. unfold SubmissionForm.handleSubmit, wanted.
  apply String.eqb_neq in Hid. rewrite Hid, Hsub.
  rewrite bind_run. unfold insert_submission.
  rewrite (write_accepted supabase _ _ _ Hpol).
  eexists. eexists. split; [reflexivity|].
  cbn [fst snd db with_db log Store.with_submissions Store.submissions].
  split; [reflexivity|]. repeat (split; [reflexivity|]).
  intros data Ha Hu Hex. unfold Spec.at_most_one.
  rewrite filter_snoc_hit, length_app.
  - destruct (List.filter (SubmissionService.same_pair data)
                (Store.submissions (db w))) eqn:E.
    + apply existsb_filter_nil in E. congruence.
    + cbn. lia.
  - unfold SubmissionService.same_pair. cbn. rewrite Ha, Hu.
    rewrite !String.eqb_refl. reflexivity.
Qed.

Lemma handleSubmit_inserts_unchecked_witness :
  exists w' : World,
    SubmissionForm.handleSubmit Example.supabase (Some "a1") (Some "s1")
      Sample.blank_page (Example.world Example.three_grades) =
      (Return
         [SubmissionForm.Toast "Submission created successfully!" None false;
          SubmissionForm.Navigate "/assignments"],
       w')
    /\ ~ Spec.at_most_one (SubmissionService.same_pair Example.submit_s1)
         (Store.submissions (db w')).
Proof.
  destruct (handleSubmit_inserts_unchecked Example.supabase "a1" "s1"
              Sample.blank_page (Example.world Example.three_grades))
    as (row & w' & Hrun & _ & _ & _ & _ & _ & Hdup);
    [discriminate|reflexivity|reflexivity|].
  exists w'. split; [exact Hrun|].
  apply Hdup; reflexivity.
Defined.

(** ** The grading dialog of the lecturer's page *)

Lemma handleGrade_in_range (js : Runtime) (st : LecturerSubmissionsPage.State)
    (a : LecturerSubmissionsPage.Assignment) :
  Js.isNaN (parseInt js (LecturerSubmissionsPage.grade st))
  || Js.lt (parseInt js (LecturerSubmissionsPage.grade st)) (Js.of_Z 0)
  || Js.gt (parseInt js (LecturerSubmissionsPage.grade st))
       (Js.Num (LecturerSubmissionsPage.max_grade a)) = false ->
  exists q : Q,
    parseInt js (LecturerSubmissionsPage.grade st) = Js.Num q
    /\ (0 <= q)%Q /\ (q <= LecturerSubmissionsPage.max_grade a)%Q.
Proof.
  intros H. apply orb_false_iff in H as [H Hgt].
  apply orb_false_iff in H as [Hnan Hlt].
  destruct (parseInt js (LecturerSubmissionsPage.grade st)) as [q| | |];
    try discriminate.
  exists q. split; [reflexivity|]. split.
  - apply lt_Num_false in Hlt. exact Hlt.
  - unfold Js.gt in Hgt. apply lt_Num_false in Hgt. exact Hgt.
Qed.

(** X20. Whatever the dialog holds, [handleGrade] sends no notification, and
    it either leaves the world as it is or sends the data layer one update
    of the submission under grading whose grade is a number between 0 and
    the assignment's max_grade, bounds included. *)
Theorem handleGrade_writes_in_range
    (js : Runtime) (supabase : Supabase) (user : option Id)
    (st : LecturerSubmissionsPage.State) (w : World) :
  outbox (snd (LecturerSubmissionsPage.handleGrade js supabase user st w))
    = outbox w
  /\ (snd (LecturerSubmissionsPage.handleGrade js supabase user st w) = w
      \/ exists (sub : LecturerSubmissionsPage.Submission)
           (a : LecturerSubmissionsPage.Assignment) (u : Id) (q : Q),
           LecturerSubmissionsPage.gradingSubmission st = Some sub
           /\ LecturerSubmissionsPage.assignment st = Some a
           /\ user = Some u
           /\ (0 <= q)%Q /\ (q <= LecturerSubmissionsPage.max_grade a)%Q
           /\ journal
                (snd (LecturerSubmissionsPage.handleGrade js supabase user
                        st w))
              = (journal w ++
                 [UpdateSubmission (LecturerSubmissionsPage.id sub)
                    (LecturerSubmissionsPage.grading_patch supabase
                       (Js.Num q) (LecturerSubmissionsPage.feedback st)
                       u)])%list).
Proof.
  unfold LecturerSubmissionsPage.handleGrade.
  destruct (LecturerSubmissionsPage.gradingSubmission st) as [sub|];
    [|split; [reflexivity|left; reflexivity]].
  destruct (LecturerSubmissionsPage.assignment st) as [a|];
    [|split; [reflexivity|left; reflexivity]].
  destruct (Js.isNaN (parseInt js (LecturerSubmissionsPage.grade st))
            || Js.lt (parseInt js (LecturerSubmissionsPage.grade st))
                 (Js.of_Z 0)
            || Js.gt (parseInt js (LecturerSubmissionsPage.grade st))
                 (Js.Num (LecturerSubmissionsPage.max_grade a))) eqn:E;
    [split; [reflexivity|left; reflexivity]|].
  destruct user as [u|]; [|split; [reflexivity|left; reflexivity]].
  destruct (handleGrade_in_range js st a E) as (q & Hq & H0 & Hmax).
  rewrite Hq, bind_run, update_submissions_run.
  destruct (policy supabase _ (db w)) as [e|]; cbn.
  - split; [reflexivity|]. right. exists sub, a, u, q.
    repeat (split; [first [reflexivity|assumption]|]). reflexivity.
  - split; [reflexivity|]. right. exists sub, a, u, q.
    repeat (split; [first [reflexivity|assumption]|]). reflexivity.
Qed.

(** X21. With a grade in range, a signed-in lecturer and a data layer that
    accepts the write, [handleGrade] stores the grade, the feedback (null
    for an empty text), the lecturer and the time in the submission under
    grading, keeps the other columns and rows, and reports success. *)
Theorem handleGrade_stores_grade
    (js : Runtime) (supabase : Supabase) (u : Id)
    (st : LecturerSubmissionsPage.State)
    (sub : LecturerSubmissionsPage.Submission)
    (a : LecturerSubmissionsPage.Assignment) (q : Q) (w : World) :
  LecturerSubmissionsPage.gradingSubmission st = Some sub ->
  LecturerSubmissionsPage.assignment st = Some a ->
  parseInt js (LecturerSubmissionsPage.grade st) = Js.Num q ->
  (0 <= q)%Q -> (q <= LecturerSubmissionsPage.max_grade a)%Q ->
  policy supabase
    (UpdateSubmission (LecturerSubmissionsPage.id sub)
       (LecturerSubmissionsPage.grading_patch supabase (Js.Num q)
          (LecturerSubmissionsPage.feedback st) u)) (db w) = None ->
  exists w' : World,
    LecturerSubmissionsPage.handleGrade js supabase (Some u) st w =
      (Return
         [LecturerSubmissionsPage.SetSubmitting true;
          LecturerSubmissionsPage.Toast "Submission graded successfully!"
            None false;
          LecturerSubmissionsPage.CloseGradingDialog;
          LecturerSubmissionsPage.Refetch;
          LecturerSubmissionsPage.SetSubmitting false],
       w')
    /\ Store.submissions (db w') =
       map (fun r =>
              if has_id (LecturerSubmissionsPage.id sub) r
              then
                {| Submission.id := Submission.id r;
                   Submission.assignment_id := Submission.assignment_id r;
                   Submission.student_id := Submission.student_id r;
                   Submission.content := Submission.content r;
                   Submission.file_url := Submission.file_url r;
                   Submission.grade := Some q;
                   Submission.feedback :=
                     if String.eqb (LecturerSubmissionsPage.feedback st)
                          EmptyString
                     then None
                     else Some (LecturerSubmissionsPage.feedback st);
                   Submission.graded_by := Some u;
                   Submission.graded_at := Some (now supabase);
                   Submission.submitted_at := Submission.submitted_at r |}
              else r)
         (Store.submissions (db w)).
Proof.
  intros Hsub Ha Hq H0 Hmax Hpol.
  unfold LecturerSubmissionsPage.handleGrade.
  rewrite Hsub, Ha, Hq.
  replace (Js.isNaN (Js.Num q) || Js.lt (Js.Num q) (Js.of_Z 0)
           || Js.gt (Js.Num q) (Js.Num (LecturerSubmissionsPage.max_grade a)))
    with false.
  - rewrite bind_run, update_submissions_run, Hpol.
    eexists. split; [reflexivity|]. reflexivity.
  - symmetry. apply orb_false_iff. split.
    + apply orb_false_iff. split; [reflexivity|].
      apply lt_Num_false. exact H0.
    + unfold Js.gt. apply lt_Num_false. exact Hmax.
Qed.

Lemma handleGrade_stores_grade_witness :
  exists w' : World,
    LecturerSubmissionsPage.handleGrade Example.js Example.supabase
      (Some "lecturer-1") (Example.grading_dialog "85")
      (Example.world Example.three_grades) =
      (Return
         [LecturerSubmissionsPage.SetSubmitting true;
          LecturerSubmissionsPage.Toast "Submission graded successfully!"
            None false;
          LecturerSubmissionsPage.CloseGradingDialog;
          LecturerSubmissionsPage.Refetch;
          LecturerSubmissionsPage.SetSubmitting false],
       w')
    /\ map Submission.grade (Store.submissions (db w')) =
       [Some (85 # 1)%Q; Some (80 # 1)%Q; Some (90 # 1)%Q].
Proof.
  destruct (handleGrade_stores_grade Example.js Example.supabase "lecturer-1"
              (Example.grading_dialog "85") _ _ (85 # 1)%Q
              (Example.world Example.three_grades)
              eq_refl eq_refl eq_refl ltac:(discriminate) ltac:(discriminate)
              eq_refl)
    as (w' & Hrun & Hrows).
  exists w'. split; [exact Hrun|].
  rewrite Hrows. reflexivity.
Defined.

(** ** Bounds of the progress report *)

Lemma Q_of_nat_le (k n : nat) :
  (k <= n)%nat -> (Spec.Q_of_nat k <= Spec.Q_of_nat n)%Q.
Proof.
  intros H. unfold Spec.Q_of_nat. rewrite <- Zle_Qle. lia.
Qed.

Lemma Q_of_nat_pos (n : nat) : (0 < Spec.Q_of_nat (S n))%Q.
Proof.
  unfold Spec.Q_of_nat. change 0%Q with (inject_Z 0).
  rewrite <- Zlt_Qlt. lia.
Qed.

Lemma Q_of_nat_nonneg (n : nat) : (0 <= Spec.Q_of_nat n)%Q.
Proof.
  unfold Spec.Q_of_nat. change 0%Q with (inject_Z 0).
  rewrite <- Zle_Qle. lia.
Qed.

(** Rounding a number between 0 and 100 gives an integer between 0 and
    100. *)
Lemma round_half_up_percent (x : Q) :
  (0 <= x)%Q -> (x <= 100)%Q -> (0 <= Spec.round_half_up x <= 100)%Z.
Proof.
  intros H0 H100. unfold Spec.round_half_up. split.
  - change 0%Z with (Qfloor 0). apply Qfloor_resp_le.
    apply Qle_trans with (1 := H0).
    rewrite <- (Qplus_0_r x) at 1. apply Qplus_le_r. discriminate.
  - change 100%Z with (Qfloor (100 + (1 # 2))). apply Qfloor_resp_le.
    apply Qplus_le_l. exact H100.
Qed.

Lemma share_percent (k n : nat) :
  (k <= S n)%nat ->
  (0 <= Spec.round_half_up
          (Spec.Q_of_nat k / Spec.Q_of_nat (S n) * 100) <= 100)%Z.
Proof.
  intros H. apply round_half_up_percent.
  - apply Qmult_le_0_compat; [|discriminate].
    apply Qle_shift_div_l; [apply Q_of_nat_pos|].
    rewrite Qmult_0_l. apply Q_of_nat_nonneg.
  - apply Qle_trans with (1 * 100)%Q; [|discriminate].
    apply Qmult_le_compat_r; [|discriminate].
    apply Qle_shift_div_r; [apply Q_of_nat_pos|].
    rewrite Qmult_1_l. apply Q_of_nat_le. exact H.
Qed.

Lemma student_progress_rate_bounds
    (profiles : list StudentProgressPage.Profile.t)
    (assignments : option (list StudentProgressPage.AssignmentRow.t))
    (submissionsMap : gmap string (gmap string (option Q)))
    (studentId : Id) :
  exists z : Z,
    StudentProgressPage.submissionRate
      (StudentProgressPage.student_progress profiles assignments
         submissionsMap studentId) = Js.of_Z z
    /\ (0 <= z <= 100)%Z.
Proof.
  unfold StudentProgressPage.student_progress.
  cbn [StudentProgressPage.submissionRate].
  destruct assignments as [l|]; [|exists 0%Z; split; [reflexivity|lia]].
  change (default [] (Some l)) with l.
  rewrite truthy_len.
  destruct l as [|a l]; [exists 0%Z; split; [reflexivity|lia]|].
  cbn [length Nat.eqb negb].
  set (lines := map _ (a :: l)).
  assert (Hlen : (length (List.filter StudentProgressPage.Item.submitted
                            lines) <= S (length l))%nat).
  { etransitivity; [apply List.filter_length_le|].
    unfold lines. rewrite length_map. reflexivity. }
  rewrite len_cons, (len_Q_of_nat (List.filter _ lines)), div_by_positive.
  eexists. split.
  - apply round_times_100. apply Qred_correct.
  - apply share_percent. exact Hlen.
Qed.

(** X22. In every entry of the student-progress report submissionRate is a
    whole number between 0 and 100. *)
Theorem progressData_submissionRate_bounds
    (studentIds : list Id) (profiles : list StudentProgressPage.Profile.t)
    (assignments : option (list StudentProgressPage.AssignmentRow.t))
    (table : list StudentProgressPage.SubmissionRow.t) :
  List.Forall
    (fun report =>
       exists z : Z,
         StudentProgressPage.submissionRate report = Js.of_Z z
         /\ (0 <= z <= 100)%Z)
    (StudentProgressPage.progressData studentIds profiles assignments table).
Proof.
  unfold StudentProgressPage.progressData.
  apply List.Forall_forall. intros report Hin.
  apply List.in_map_iff in Hin as (student & <- & _).
  apply student_progress_rate_bounds.
Qed.

Section AverageBounds.

Import StudentProgressPage.

Context (table : list SubmissionRow.t) (student : Id).




End AverageBounds.






(** ** The performance report of a student *)

Section PerformanceFacts.

Import StudentPerformance.







End PerformanceFacts.





(** ** Analytics and the other handlers *)

Lemma length_or_same {A : Type} (xs ys : list A) (d : Js.Number) :
  length xs = length ys ->
  Js.length_or (Some xs) d = Js.length_or (Some ys) d.
Proof.
  intros H. rewrite !length_or_Some, H. unfold Js.len. rewrite H.
  reflexivity.
Qed.

Lemma course_analytics_enrollment_count
    (xs ys : list Enrollment.t)
    (assignments : option (list Assignment.t))
    (submissions : option (list Submission.t)) :
  length xs = length ys ->
  AnalyticsService.course_analytics (Some xs) assignments submissions =
  AnalyticsService.course_analytics (Some ys) assignments submissions.
Proof.
  intros H. unfold AnalyticsService.course_analytics.
  rewrite (length_or_same xs ys (Js.of_Z 0) H).
  rewrite (length_or_same xs ys (Js.of_Z 1) H). reflexivity.
Qed.

(** X26. The course analytics do not look at the status of an enrollment:
    after an [updateEnrollmentStatus] request, whatever its outcome and
    whatever the new status, [getCourseAnalytics] answers for every course
    what it answered before. *)
Theorem getCourseAnalytics_ignores_status
    (supabase : Supabase) (layer : DataLayer)
    (data : EnrollmentHandlers.StatusData) (courseId : Id) (w : World) :
  fst (AnalyticsService.getCourseAnalytics supabase courseId
         (snd (EnrollmentHandlers.updateEnrollmentStatus layer data w)))
  = fst (AnalyticsService.getCourseAnalytics supabase courseId w).
Proof.
  rewrite updateEnrollmentStatus_run.
  destruct (refuses layer _ (db w)); [reflexivity|].
  destruct (List.filter _ (Store.enrollments (db w))) as [|e [|e' rest]];
    [reflexivity| |reflexivity].
  rewrite !getCourseAnalytics_run.
  cbn [fst snd db with_db Store.with_enrollments Store.enrollments
       Store.assignments Store.submissions].
  do 3 f_equal.
  rewrite (course_analytics_enrollment_count
             (List.filter (AnalyticsService.of_course courseId)
                (map (fun e0 =>
                        if EnrollmentHandlers.names
                             (EnrollmentHandlers.id data) e0
                        then EnrollmentHandlers.with_status
                               (EnrollmentHandlers.status data) e0
                        else e0)
                   (Store.enrollments (db w))))
             (List.filter (AnalyticsService.of_course courseId)
                (Store.enrollments (db w)))).
  - reflexivity.
  - rewrite filter_map_same; [apply length_map|].
    intros x. destruct (EnrollmentHandlers.names _ x); reflexivity.
Qed.

Lemma Q_of_nat_mul (m n : nat) :
  (Spec.Q_of_nat (m * n) == Spec.Q_of_nat m * Spec.Q_of_nat n)%Q.
Proof.
  unfold Spec.Q_of_nat. rewrite Nat2Z.inj_mul, inject_Z_mult. reflexivity.
Qed.

Lemma completion_rate_bounds (g e a : nat) :
  (g <= S e * S a)%nat ->
  (0 <= Spec.completion_rate g (S e) (S a) <= 100)%Z.
Proof.
  intros H. unfold Spec.completion_rate. apply round_half_up_percent.
  - apply Qmult_le_0_compat; [|discriminate].
    apply Qle_shift_div_l; [apply Q_of_nat_pos|]. rewrite Qmult_0_l.
    apply Qle_shift_div_l; [apply Q_of_nat_pos|]. rewrite Qmult_0_l.
    apply Q_of_nat_nonneg.
  - apply Qle_trans with (1 * 100)%Q; [|discriminate].
    apply Qmult_le_compat_r; [|discriminate].
    apply Qle_shift_div_r; [apply Q_of_nat_pos|].
    apply Qle_shift_div_r; [apply Q_of_nat_pos|].
    rewrite Qmult_1_l, (Qmult_comm (Spec.Q_of_nat (S a))), <- Q_of_nat_mul.
    apply Q_of_nat_le. exact H.
Qed.

(** X27. When the course has an enrollment and an assignment and no more
    graded submissions than enrollments times assignments, the
    completion_rate of the course analytics is a whole number between 0 and
    100. *)
Theorem getCourseAnalytics_completion_rate_bounds
    (supabase : Supabase) (courseId : Id) (w : World) :
  let graded_count :=
    length
      (List.filter AnalyticsService.graded
         (List.filter (AnalyticsService.in_course courseId (db w))
            (Store.submissions (db w)))) in
  let enrollment_count :=
    length
      (List.filter (AnalyticsService.of_course courseId)
         (Store.enrollments (db w))) in
  let assignment_count :=
    length
      (List.filter (AnalyticsService.for_course courseId)
         (Store.assignments (db w))) in
  (0 < enrollment_count)%nat ->
  (0 < assignment_count)%nat ->
  (graded_count <= enrollment_count * assignment_count)%nat ->
  exists (analytics : AnalyticsService.CourseAnalytics) (z : Z),
    AnalyticsService.getCourseAnalytics supabase courseId w =
      (Return (respond 200 (Success analytics)), w)
    /\ AnalyticsService.completion_rate analytics = Js.of_Z z
    /\ (0 <= z <= 100)%Z.
Proof.
  cbv zeta. intros He Ha Hg.
  rewrite getCourseAnalytics_run. eexists. eexists.
  split; [reflexivity|].
  rewrite course_analytics_completion_rate. cbn [from_option id].
  split; [reflexivity|].
  destruct (length (List.filter (AnalyticsService.of_course courseId) _))
    as [|e]; [lia|].
  destruct (length (List.filter (AnalyticsService.for_course courseId) _))
    as [|a]; [lia|].
  apply completion_rate_bounds. exact Hg.
Qed.

Lemma getCourseAnalytics_completion_rate_bounds_witness :
  exists (analytics : AnalyticsService.CourseAnalytics) (z : Z),
    AnalyticsService.getCourseAnalytics Example.supabase "c1"
      (Example.world Sample.term) =
      (Return (respond 200 (Success analytics)),
       Example.world Sample.term)
    /\ AnalyticsService.completion_rate analytics = Js.of_Z z
    /\ (0 <= z <= 100)%Z.
Proof.
  apply (getCourseAnalytics_completion_rate_bounds Example.supabase "c1"
           (Example.world Sample.term)); vm_compute; lia.
Defined.

(** X28. [getSystemMetrics] answers 200 on every store, with the number of
    rows of each table as its counts (students and lecturers being the
    user_roles rows of that role), and writes nothing. *)
Theorem getSystemMetrics_counts (supabase : Supabase) (w : World) :
  AnalyticsService.getSystemMetrics supabase w =
  (Return
     (respond 200
        (Success
           {| AnalyticsService.total_courses :=
                Js.len (Store.courses (db w));
              AnalyticsService.metrics_total_students :=
                Js.len (List.filter (AnalyticsService.has_role "student")
                          (Store.user_roles (db w)));
              AnalyticsService.total_lecturers :=
                Js.len (List.filter (AnalyticsService.has_role "lecturer")
                          (Store.user_roles (db w)));
              AnalyticsService.metrics_total_assignments :=
                Js.len (Store.assignments (db w));
              AnalyticsService.metrics_total_submissions :=
                Js.len (Store.submissions (db w));
              AnalyticsService.total_enrollments :=
                Js.len (Store.enrollments (db w)) |})),
   w).
Proof.
  assert (Hlen : forall (A : Type) (l : list A),
            Js.length_or (Some l) (Js.of_Z 0) = Js.len l).
  { intros A l. rewrite length_or_Some. destruct l; reflexivity. }
  assert (Hall : forall (A : Type) (l : list A),
            List.filter (fun _ => true) l = l).
  { intros A l. induction l as [|x l IH]; [reflexivity|].
    cbn [List.filter]. rewrite IH. reflexivity. }
  unfold AnalyticsService.getSystemMetrics, select, mbind, M_bind, bind.
  cbn [Query.data Query.ok fst snd].
  rewrite !Hlen, !Hall. reflexivity.
Qed.

(** ** Rounding to the nearest double *)

(** The doubles of a tenth and of a third, a tenth plus two tenths, the
    ties above [2 ^ 53], the largest double and the first number that
    overflows, the smallest subnormal number and the ties around it, and
    the steps of 23 / 10 / 4 * 100. *)
Lemma round_samples :
  Binary64.round (1 # 10) = Js.Num (3602879701896397 # 36028797018963968)
  /\ Binary64.round (1 # 3) = Js.Num (6004799503160661 # 18014398509481984)
  /\ Binary64.add (Binary64.round (1 # 10)) (Binary64.round (2 # 10)) =
     Js.Num (1351079888211149 # 4503599627370496)
  /\ Binary64.round (9007199254740993 # 1) = Js.Num (9007199254740992 # 1)
  /\ Binary64.round (9007199254740995 # 1) = Js.Num (9007199254740996 # 1)
  /\ Binary64.round (inject_Z (2 ^ 1024 - 2 ^ 971)) =
     Js.Num (inject_Z (2 ^ 1024 - 2 ^ 971))
  /\ Binary64.round (inject_Z (2 ^ 1024 - 2 ^ 970 - 1)) =
     Js.Num (inject_Z (2 ^ 1024 - 2 ^ 971))
  /\ Binary64.round (inject_Z (2 ^ 1024 - 2 ^ 970)) = Js.PosInf
  /\ Binary64.round (- inject_Z (2 ^ 1024)) = Js.NegInf
  /\ Binary64.round (1 # Pos.pow 2 1074) = Js.Num (1 # Pos.pow 2 1074)
  /\ Binary64.round (1 # Pos.pow 2 1075) = Js.Num 0
  /\ Binary64.round (3 # Pos.pow 2 1075) = Js.Num (1 # Pos.pow 2 1073)
  /\ Binary64.div (Js.of_Z 23) (Js.of_Z 10) =
     Js.Num (2589569785738035 # 1125899906842624)
  /\ Binary64.div (Js.Num (2589569785738035 # 1125899906842624)) (Js.of_Z 4)
     = Js.Num (2589569785738035 # 4503599627370496)
  /\ Binary64.mul (Js.Num (2589569785738035 # 4503599627370496))
       (Js.of_Z 100) = Js.Num (8092405580431359 # 140737488355328)
  /\ (8092405580431359 # 140737488355328 < 115 # 2)%Q.
Proof. repeat split; vm_compute; reflexivity. Qed.

Section Binary64Facts.

Local Open Scope Q_scope.

Lemma nearest_even_le (x : Q) (n : Z) :
  x <= inject_Z n -> (Binary64.nearest_even x <= n)%Z.
Proof.
  intros H. unfold Binary64.nearest_even.
  pose proof (Qfloor_resp_le _ _ H) as Hf. rewrite Qfloor_Z in Hf.
  destruct (Z.eq_dec (Qfloor x) n) as [E|E].
  - assert (Hlt : x - inject_Z (Qfloor x) < 1 # 2).
    { rewrite E. apply Qle_lt_trans with (inject_Z n + - inject_Z n).
      - apply Qplus_le_l. exact H.
      - rewrite Qplus_opp_r. reflexivity. }
    destruct (Qcompare (x - inject_Z (Qfloor x)) (1 # 2)) eqn:C; [|lia|].
    + apply Qeq_alt in C. rewrite C in Hlt. discriminate Hlt.
    + apply Qgt_alt in C. destruct (Qlt_irrefl _ (Qlt_trans _ _ _ Hlt C)).
  - destruct (Qcompare _ _); [destruct (Z.even _)| |]; lia.
Qed.

Lemma nearest_even_nonneg (x : Q) :
  0 <= x -> (0 <= Binary64.nearest_even x)%Z.
Proof.
  intros H. unfold Binary64.nearest_even.
  pose proof (Qfloor_resp_le _ _ H) as Hf. change (Qfloor 0) with 0%Z in Hf.
  destruct (Qcompare _ _); [destruct (Z.even _)| |]; lia.
Qed.

Lemma exponent_bound (q : Q) (b : Z) :
  0 < q -> q <= inject_Z b -> (b < 2 ^ 52)%Z ->
  (Binary64.exponent q <= 52)%Z.
Proof.
  intros Hq Hb Hsmall. unfold Binary64.exponent.
  assert (He : (Z.log2 (Qnum q) - Z.log2 (Z.pos (Qden q)) <= 52)%Z).
  { destruct q as [n d]. unfold Qlt, Qle in *.
    cbn [Qnum Qden inject_Z] in *.
    assert (Hn : (0 < n)%Z) by lia.
    assert (Hbpos : (0 < b)%Z).
    { destruct (Z.lt_ge_cases 0 b) as [Hpos|Hneg]; [exact Hpos|].
      assert (b * Z.pos d <= 0)%Z by (apply Z.mul_nonpos_nonneg; lia).
      lia. }
    assert (H1 : (Z.log2 n <= Z.log2 (b * Z.pos d))%Z)
      by (apply Z.log2_le_mono; lia).
    assert (H2 : (Z.log2 (b * Z.pos d)
                  <= Z.log2 b + Z.log2 (Z.pos d) + 1)%Z)
      by (apply Z.log2_mul_above; lia).
    assert (H3 : (Z.log2 b < 52)%Z)
      by (apply Z.log2_lt_pow2; lia).
    lia. }
  destruct (Qle_bool _ q); lia.
Qed.

Lemma ulp_scale (b e : Z) :
  (e <= 52)%Z ->
  inject_Z (b * 2 ^ (52 - e)) * 2 ^ (e - 52) == inject_Z b.
Proof.
  intros He. rewrite inject_Z_mult, Zpower_Qpower by lia.
  rewrite <- Qmult_assoc, <- Qpower_plus by discriminate.
  replace (52 - e + (e - 52))%Z with 0%Z by lia.
  change (inject_Z 2 ^ 0) with 1. apply Qmult_1_r.
Qed.

Lemma round_positive_le (q : Q) (b : Z) :
  0 < q -> q <= inject_Z b -> (b < 2 ^ 52)%Z ->
  exists r : Q,
    Binary64.round_positive q = Js.Num r /\ 0 <= r /\ r <= inject_Z b.
Proof.
  intros Hq Hb Hsmall. unfold Binary64.round_positive.
  pose proof (exponent_bound q b Hq Hb Hsmall) as He.
  set (e := Z.max (Binary64.exponent q) (-1022)).
  assert (He' : (e <= 52)%Z) by (unfold e; lia).
  set (ulp := 2 ^ (e - 52)).
  assert (Hulp : 0 < ulp) by (apply Qpower_0_lt; reflexivity).
  set (n := Binary64.nearest_even (q / ulp)).
  assert (Hn0 : (0 <= n)%Z).
  { apply nearest_even_nonneg. apply Qle_shift_div_l; [exact Hulp|].
    rewrite Qmult_0_l. apply Qlt_le_weak. exact Hq. }
  assert (Hnb : (n <= b * 2 ^ (52 - e))%Z).
  { apply nearest_even_le. apply Qle_shift_div_r; [exact Hulp|].
    unfold ulp. apply (Qle_trans _ _ _ Hb). apply Qle_lteq. right.
    symmetry. apply (ulp_scale b e He'). }
  assert (Hv0 : 0 <= inject_Z n * ulp).
  { apply Qmult_le_0_compat; [|apply Qlt_le_weak; exact Hulp].
    change 0 with (inject_Z 0). rewrite <- Zle_Qle. exact Hn0. }
  assert (Hvb : inject_Z n * ulp <= inject_Z b).
  { apply Qle_trans with (inject_Z (b * 2 ^ (52 - e)) * ulp).
    - apply Qmult_le_compat_r; [|apply Qlt_le_weak; exact Hulp].
      rewrite <- Zle_Qle. exact Hnb.
    - apply Qle_lteq. right. apply (ulp_scale b e He'). }
  destruct (Qle_bool (2 ^ 1024) (inject_Z n * ulp)) eqn:Eover.
  - apply Qle_bool_iff in Eover.
    assert (Hb52 : inject_Z b <= inject_Z (2 ^ 52)).
    { rewrite <- Zle_Qle. lia. }
    assert (Habs : 2 ^ 1024 <= inject_Z (2 ^ 52)).
    { apply Qle_trans with (1 := Eover).
      apply Qle_trans with (1 := Hvb). exact Hb52. }
    vm_compute in Habs. destruct (Habs eq_refl).
  - exists (Qred (inject_Z n * ulp)). split; [reflexivity|].
    rewrite Qred_correct. split; assumption.
Qed.

Lemma round_le (q : Q) (b : Z) :
  0 <= q -> q <= inject_Z b -> (b < 2 ^ 52)%Z ->
  exists r : Q, Binary64.round q = Js.Num r /\ 0 <= r /\ r <= inject_Z b.
Proof.
  intros Hq Hb Hsmall. unfold Binary64.round.
  destruct q as [n d]. cbn [Qnum]. destruct n as [|p|p].
  - exists 0. split; [reflexivity|]. split; [apply Qle_refl|].
    apply Qle_trans with (1 := Hq). exact Hb.
  - apply round_positive_le; [reflexivity|exact Hb|exact Hsmall].
  - unfold Qle in Hq. cbn in Hq. lia.
Qed.

(** A rounded share of a hundred. *)
Lemma round_share (x : Q) :
  0 <= x -> x <= 1 ->
  exists z : Z,
    Js.Math_round (Binary64.mul (Binary64.round x) (Js.of_Z 100)) = Js.of_Z z
    /\ (0 <= z <= 100)%Z.
Proof.
  intros H0 H1.
  destruct (round_le x 1 H0 H1 eq_refl) as (r & Hr & Hr0 & Hr1).
  rewrite Hr. unfold Binary64.mul.
  cbn [Js.mul Js.of_Z Binary64.normal].
  destruct (round_le (Qred (r * inject_Z 100)) 100) as (r' & Hr' & Hr'0 & Hr'1).
  - rewrite Qred_correct. apply Qmult_le_0_compat; [exact Hr0|discriminate].
  - rewrite Qred_correct. apply Qle_trans with (1 * inject_Z 100).
    + apply Qmult_le_compat_r; [exact Hr1|discriminate].
    + discriminate.
  - reflexivity.
  - rewrite Hr'. cbn [Js.Math_round]. eexists. split; [reflexivity|].
    apply (round_half_up_percent r' Hr'0 Hr'1).
Qed.

Lemma quotient_le (g e a : nat) :
  (g <= S e * a)%nat ->
  0 <= Spec.Q_of_nat g / Spec.Q_of_nat (S e)
  /\ Spec.Q_of_nat g / Spec.Q_of_nat (S e) <= Spec.Q_of_nat a.
Proof.
  intros H. split.
  - apply Qle_shift_div_l; [apply Q_of_nat_pos|].
    rewrite Qmult_0_l. apply Q_of_nat_nonneg.
  - apply Qle_shift_div_r; [apply Q_of_nat_pos|].
    rewrite Qmult_comm, <- Q_of_nat_mul. apply Q_of_nat_le. exact H.
Qed.

End Binary64Facts.

Lemma double_submission_rate_bounds (k n : nat) :
  (k <= n)%nat ->
  exists z : Z,
    DoubleSpec.submission_rate k n = Js.of_Z z /\ (0 <= z <= 100)%Z.
Proof.
  intros H. unfold DoubleSpec.submission_rate.
  destruct n as [|n]; [exists 0%Z; split; [reflexivity|lia]|].
  unfold Binary64.div, DoubleSpec.count.
  change (Js.of_Z (Z.of_nat ?m)) with (Js.Num (Spec.Q_of_nat m)).
  rewrite div_by_positive. cbn [Binary64.normal].
  destruct (quotient_le k n 1) as [H0 H1]; [lia|].
  apply round_share; rewrite Qred_correct; [exact H0|exact H1].
Qed.

Lemma double_completion_rate_bounds (g e a : nat) :
  (g <= S e * S a)%nat ->
  (Z.of_nat (S a) < 2 ^ 32)%Z ->
  exists z : Z,
    DoubleSpec.completion_rate g (S e) (S a) = Js.of_Z z
    /\ (0 <= z <= 100)%Z.
Proof.
  intros H Hlen. unfold DoubleSpec.completion_rate.
  unfold Binary64.div at 2. unfold DoubleSpec.count.
  change (Js.of_Z (Z.of_nat ?m)) with (Js.Num (Spec.Q_of_nat m)).
  rewrite div_by_positive. cbn [Binary64.normal].
  destruct (quotient_le g e (S a) H) as [H0 H1].
  destruct (round_le (Qred (Spec.Q_of_nat g / Spec.Q_of_nat (S e)))
              (Z.of_nat (S a))) as (r & Hr & Hr0 & Hr1).
  - rewrite Qred_correct. exact H0.
  - rewrite Qred_correct. exact H1.
  - lia.
  - rewrite Hr. unfold Binary64.div. rewrite div_by_positive.
    cbn [Binary64.normal]. apply round_share; rewrite Qred_correct.
    + apply Qle_shift_div_l; [apply Q_of_nat_pos|].
      rewrite Qmult_0_l. exact Hr0.
    + apply Qle_shift_div_r; [apply Q_of_nat_pos|].
      rewrite Qmult_1_l. exact Hr1.
Qed.

(** X29. With every operation rounded to the nearest double, as the
    engine computes, submissionRate is in every entry of the
    student-progress report a whole number between 0 and 100: the rounding
    of the division and of the product does not take it out of that
    range. *)
Theorem progressData_double_submissionRate_bounds
    (studentIds : list Id) (profiles : list StudentProgressPage.Profile.t)
    (assignments : option (list StudentProgressPage.AssignmentRow.t))
    (table : list StudentProgressPage.SubmissionRow.t) :
  List.Forall
    (fun report =>
       exists z : Z,
         StudentProgressPage.submissionRate report = Js.of_Z z
         /\ (0 <= z <= 100)%Z)
    (DoubleProgress.progressData studentIds profiles assignments table).
Proof.
  unfold DoubleProgress.progressData.
  apply List.Forall_forall. intros report Hin.
  apply List.in_map_iff in Hin as (student & <- & _).
  unfold DoubleProgress.student_progress.
  cbn [StudentProgressPage.submissionRate].
  destruct assignments as [l|]; [|exists 0%Z; split; [reflexivity|lia]].
  change (default [] (Some l)) with l.
  rewrite truthy_len.
  destruct l as [|a l]; [exists 0%Z; split; [reflexivity|lia]|].
  cbn [length Nat.eqb negb].
  set (lines := map _ (a :: l)).
  assert (Hlen : (length (List.filter StudentProgressPage.Item.submitted
                            lines) <= S (length l))%nat).
  { etransitivity; [apply List.filter_length_le|].
    unfold lines. rewrite length_map. reflexivity. }
  apply (double_submission_rate_bounds _ (S (length l)) Hlen).
Qed.

(** X30. With every operation rounded to the nearest double, as the
    engine computes: when the course has an enrollment and an assignment,
    fewer than 2 ^ 32 assignments (more than an array holds) and no more
    graded submissions than enrollments times assignments, the
    completion_rate of the course analytics is a whole number between 0 and
    100. *)
Theorem getCourseAnalytics_double_completion_rate_bounds
    (supabase : Supabase) (courseId : Id) (w : World) :
  let graded_count :=
    length
      (List.filter AnalyticsService.graded
         (List.filter (AnalyticsService.in_course courseId (db w))
            (Store.submissions (db w)))) in
  let enrollment_count :=
    length
      (List.filter (AnalyticsService.of_course courseId)
         (Store.enrollments (db w))) in
  let assignment_count :=
    length
      (List.filter (AnalyticsService.for_course courseId)
         (Store.assignments (db w))) in
  (0 < enrollment_count)%nat ->
  (0 < assignment_count)%nat ->
  (Z.of_nat assignment_count < 2 ^ 32)%Z ->
  (graded_count <= enrollment_count * assignment_count)%nat ->
  exists (analytics : AnalyticsService.CourseAnalytics) (z : Z),
    DoubleAnalytics.getCourseAnalytics supabase courseId w =
      (Return (respond 200 (Success analytics)), w)
    /\ AnalyticsService.completion_rate analytics = Js.of_Z z
    /\ (0 <= z <= 100)%Z.
Proof.
  cbv zeta. intros He Ha Hlen Hg.
  rewrite getCourseAnalytics_double_run.
  destruct (length (List.filter (AnalyticsService.of_course courseId) _))
    as [|e] eqn:Ee; [lia|].
  destruct (length (List.filter (AnalyticsService.for_course courseId) _))
    as [|a] eqn:Ea; [lia|].
  destruct (double_completion_rate_bounds _ e a Hg Hlen) as (z & Hz & Hz100).
  eexists. exists z. split; [reflexivity|].
  rewrite course_analytics_double_completion_rate.
  change (default [] (Some ?l)) with l. rewrite Ee, Ea.
  split; [exact Hz|exact Hz100].
Qed.

Lemma getCourseAnalytics_double_completion_rate_bounds_witness :
  exists (analytics : AnalyticsService.CourseAnalytics) (z : Z),
    DoubleAnalytics.getCourseAnalytics Example.supabase "c1"
      (Example.world Cases.half_marked) =
      (Return (respond 200 (Success analytics)),
       Example.world Cases.half_marked)
    /\ AnalyticsService.completion_rate analytics = Js.of_Z z
    /\ (0 <= z <= 100)%Z.
Proof.
  apply (getCourseAnalytics_double_completion_rate_bounds Example.supabase
           "c1" (Example.world Cases.half_marked)); vm_compute;
    first [lia|reflexivity].
Defined.
